(** * NetScope: the usage aggregation engine, the ingestion service and the
    routers

    A shallow embedding of [app/services/usage_service.py],
    [app/services/ingestion.py], [app/routers/users.py] and
    [app/routers/upload.py], with the models of [app/models.py], the
    response schemas of [app/schemas.py] and the settings of
    [app/config.py].

    Modelling conventions.
    - An instant ([datetime]) is the integer number of microseconds since
      0001-01-01T00:00:00; [timedelta(days=n)] is [n * 86400000000].
    - The functions of the usage service and of the users router are
      written twice.  First over unbounded integers, where the date
      arithmetic and the binding of [LIMIT] and [OFFSET] cannot fail.  Then,
      in module [Bounded], with the range of [datetime] and the 64-bit
      integers of SQLite, where both raise [OverflowError].  The two agree
      wherever the second returns; statements whose truth depends on these
      ranges are stated of the second.
    - A [Float] column and a Python [float] are exact rationals ([Q]);
      comparisons of amounts are [Qeq]/[Qle].  [round(x, 2)] rounds the exact
      value to the nearest multiple of 1/100, ties to even.  The engine adds
      binary64 numbers: a statement that names the value of a sum of amounts
      is restricted to the stores on which binary64 addition is exact
      ([binary64_exact]); the other statements about amounts use only that
      sums of non-negative terms and the rounding are monotone and that
      both queries aggregate the same rows.
    - [ORDER BY total_30d DESC] leaves the order among equal totals to the
      engine; the model sorts stably, and the statements about ranks do not
      depend on the order of equal totals.
    - The record store (table [usage_records]) is the list of its rows in
      insertion order.  The primary key [id] is never NULL, so
      [count(UsageRecord.id)] is the number of rows of a group; the key is
      not stored in the model.
    - A table read by pandas has one cell of text per column and row: the
      type that pandas infers for a column and missing values are not
      modelled, and the bulk insert of the model cannot fail.  The
      statements about the ingestion and the upload are about what a call
      has done when it returns and about the errors of the validations,
      which are raised before the store is touched.
    - Python exceptions are the [Raise] outcomes of the [result] type. *)

From Stdlib Require Import ZArith QArith Qabs Qround List String Ascii Bool.
From Stdlib Require Import Lia Lqa.
From Stdlib Require Import Sorted Permutation.
Import ListNotations.
Open Scope Z_scope.

(** ** Python outcomes *)

Inductive exn : Type :=
| ZeroDivisionError
| TypeError
| ValueError (msg : string)
| OverflowError.

Inductive result (A : Type) : Type :=
| Ok (a : A)
| Raise (e : exn).

Arguments Ok {A} a.
Arguments Raise {A} e.

Definition bind {A B : Type} (m : result A) (k : A -> result B) : result B :=
  match m with
  | Ok a => k a
  | Raise e => Raise e
  end.

Notation "x <- m ;; k" := (bind m (fun x => k))
  (at level 61, m at next level, right associativity).

(** ** Numbers *)

(** Nearest integer to a rational, ties to the even neighbour. *)
Definition round_half_even (q : Q) : Z :=
  let n := Qnum q in
  let d := Z.pos (Qden q) in
  let fl := n / d in
  let r := n mod d in
  match 2 * r ?= d with
  | Lt => fl
  | Gt => fl + 1
  | Eq => if Z.even fl then fl else fl + 1
  end.

(** [round(x, 2)] *)
Definition py_round2 (x : Q) : Q :=
  Qmake (round_half_even (x * 100)) 100.

(** [math.ceil(a / b)] on integers: true division raises on a zero divisor. *)
Definition math_ceil_div (a b : Z) : result Z :=
  if b =? 0 then Raise ZeroDivisionError else Ok (- ((- a) / b)).

(** [int(v)] of a nullable integer column value. *)
Definition py_int (v : option Z) : result Z :=
  match v with
  | Some z => Ok z
  | None => Raise TypeError
  end.

Definition microseconds_per_day : Z := 86400000000.

(** [timedelta(days=n)] *)
Definition timedelta_days (n : Z) : Z := n * microseconds_per_day.

(** [datetime.min] is the origin of the time line, 0001-01-01T00:00:00, and
    [datetime.max] its last microsecond, 9999-12-31T23:59:59.999999. *)
Definition datetime_min : Z := 0.

Definition datetime_max : Z := 3652059 * microseconds_per_day - 1.

(** [d - timedelta(days=n)]: [OverflowError] when the difference is not a
    [datetime]. *)
Definition datetime_sub_days (d n : Z) : result Z :=
  let r := d - timedelta_days n in
  if (datetime_min <=? r) && (r <=? datetime_max) then Ok r
  else Raise OverflowError.

(** A Python [int] bound to a parameter of a statement: an SQLite integer
    has 64 bits, and the driver raises [OverflowError] on any other. *)
Definition sqlite_integer (k : Z) : result Z :=
  if (- 2 ^ 63 <=? k) && (k <? 2 ^ 63) then Ok k else Raise OverflowError.

(** ** app/models.py *)

Module UsageRecord.
Record t : Type := mk {
  username : string;
  mac_address : string;
  start_time : Z;
  usage_time_seconds : Z;
  upload_kb : Q;
  download_kb : Q;
  total_kb : Q
}.
End UsageRecord.

(** The table [usage_records]. *)
Definition Session : Type := list UsageRecord.t.

(** ** app/schemas.py *)

Module UsagePeriod.
Record t : Type := mk {
  upload_kb : Q;
  download_kb : Q;
  total_kb : Q;
  sessions : Z
}.
End UsagePeriod.

Module TopUserEntry.
Record t : Type := mk {
  rank : Z;
  username : string;
  usage_1_day : UsagePeriod.t;
  usage_7_days : UsagePeriod.t;
  usage_30_days : UsagePeriod.t
}.
End TopUserEntry.

Module TopUsersResponse.
Record t : Type := mk {
  page : Z;
  per_page : Z;
  total_users : Z;
  total_pages : Z;
  reference_date : Z;
  data : list TopUserEntry.t
}.
End TopUsersResponse.

Module UserDetailsResponse.
Record t : Type := mk {
  username : string;
  timestamp : Z;
  usage_1_day : UsagePeriod.t;
  usage_7_days : UsagePeriod.t;
  usage_30_days : UsagePeriod.t
}.
End UserDetailsResponse.

(** ** The SQL fragment used by the queries *)

Module Sql.

Fixpoint Qsum (l : list Q) : Q :=
  match l with
  | [] => 0%Q
  | x :: l' => (x + Qsum l')%Q
  end.

Fixpoint Zsum (l : list Z) : Z :=
  match l with
  | [] => 0
  | x :: l' => x + Zsum l'
  end.

(** [SUM] is NULL over no rows. *)
Definition sum_float (l : list Q) : option Q :=
  match l with
  | [] => None
  | _ => Some (Qsum l)
  end.

Definition sum_int (l : list Z) : option Z :=
  match l with
  | [] => None
  | _ => Some (Zsum l)
  end.

Definition coalesce {A : Type} (v : option A) (d : A) : A :=
  match v with
  | Some a => a
  | None => d
  end.

(** [COUNT] of a column that is never NULL. *)
Definition count {A : Type} (l : list A) : Z := Z.of_nat (List.length l).

(** [CASE WHEN c THEN v ELSE e END] *)
Definition case {A : Type} (c : bool) (v e : A) : A := if c then v else e.

(** [COUNT(DISTINCT username)] *)
Definition count_distinct (l : list string) : Z :=
  Z.of_nat (List.length (nodup string_dec l)).

(** [GROUP BY username]: one group per distinct username, holding the rows
    of that name. *)
Definition group_by_username (rows : list UsageRecord.t)
  : list (string * list UsageRecord.t) :=
  map (fun u =>
         (u, filter (fun r => String.eqb (UsageRecord.username r) u) rows))
      (nodup string_dec (map UsageRecord.username rows)).

(** [OFFSET k]: a negative offset skips nothing (SQLite, the configured
    store). *)
Definition offset {A : Type} (k : Z) (l : list A) : list A :=
  skipn (Z.to_nat k) l.

(** [LIMIT n]: a negative limit is no limit (SQLite). *)
Definition limit {A : Type} (n : Z) (l : list A) : list A :=
  if n <? 0 then l else firstn (Z.to_nat n) l.

(** [.first()] *)
Definition first {A : Type} (l : list A) : option A :=
  match l with
  | [] => None
  | x :: _ => Some x
  end.

End Sql.

(** ** app/services/usage_service.py *)

(** A result row of the aggregation query: the username and the twelve
    labelled columns. *)
Module Row.
Record t : Type := mk {
  username : string;
  upload_1d : Q;
  download_1d : Q;
  total_1d : Q;
  sessions_1d : option Z;
  upload_7d : Q;
  download_7d : Q;
  total_7d : Q;
  sessions_7d : option Z;
  upload_30d : Q;
  download_30d : Q;
  total_30d : Q;
  sessions_30d : Z
}.
End Row.

(** The aggregation columns: each is evaluated on the rows of one group. *)
Module Agg.
Record t : Type := mk {
  upload_1d : list UsageRecord.t -> Q;
  download_1d : list UsageRecord.t -> Q;
  total_1d : list UsageRecord.t -> Q;
  sessions_1d : list UsageRecord.t -> option Z;
  upload_7d : list UsageRecord.t -> Q;
  download_7d : list UsageRecord.t -> Q;
  total_7d : list UsageRecord.t -> Q;
  sessions_7d : list UsageRecord.t -> option Z;
  upload_30d : list UsageRecord.t -> Q;
  download_30d : list UsageRecord.t -> Q;
  total_30d : list UsageRecord.t -> Q;
  sessions_30d : list UsageRecord.t -> Z
}.
End Agg.

(** [coalesce(sum(case((start_time >= lo, col), else_=0)), 0)] *)
Definition sum_since (lo : Z) (col : UsageRecord.t -> Q)
  (g : list UsageRecord.t) : Q :=
  Sql.coalesce
    (Sql.sum_float
       (map (fun r => Sql.case (lo <=? UsageRecord.start_time r) (col r) 0%Q) g))
    0%Q.

(** [sum(case((start_time >= lo, 1), else_=0))] *)
Definition sessions_since (lo : Z) (g : list UsageRecord.t) : option Z :=
  Sql.sum_int
    (map (fun r => Sql.case (lo <=? UsageRecord.start_time r) 1 0) g).

(** [coalesce(sum(col), 0)] *)
Definition sum_all (col : UsageRecord.t -> Q) (g : list UsageRecord.t) : Q :=
  Sql.coalesce (Sql.sum_float (map col g)) 0%Q.

Definition _build_usage_aggregation (ref_date : Z) : Z * Agg.t :=
  let date_1d := ref_date - timedelta_days 1 in
  let date_7d := ref_date - timedelta_days 7 in
  let date_30d := ref_date - timedelta_days 30 in
  (date_30d,
   {| Agg.upload_1d := sum_since date_1d UsageRecord.upload_kb;
      Agg.download_1d := sum_since date_1d UsageRecord.download_kb;
      Agg.total_1d := sum_since date_1d UsageRecord.total_kb;
      Agg.sessions_1d := sessions_since date_1d;
      Agg.upload_7d := sum_since date_7d UsageRecord.upload_kb;
      Agg.download_7d := sum_since date_7d UsageRecord.download_kb;
      Agg.total_7d := sum_since date_7d UsageRecord.total_kb;
      Agg.sessions_7d := sessions_since date_7d;
      Agg.upload_30d := sum_all UsageRecord.upload_kb;
      Agg.download_30d := sum_all UsageRecord.download_kb;
      Agg.total_30d := sum_all UsageRecord.total_kb;
      Agg.sessions_30d := Sql.count (A:=UsageRecord.t) |}).

Module Periods.
Record t : Type := mk {
  usage_1_day : UsagePeriod.t;
  usage_7_days : UsagePeriod.t;
  usage_30_days : UsagePeriod.t
}.
End Periods.

Definition _row_to_usage_periods (row : Row.t) : result Periods.t :=
  s1 <- py_int (Row.sessions_1d row) ;;
  s7 <- py_int (Row.sessions_7d row) ;;
  Ok {| Periods.usage_1_day :=
          {| UsagePeriod.upload_kb := py_round2 (Row.upload_1d row);
             UsagePeriod.download_kb := py_round2 (Row.download_1d row);
             UsagePeriod.total_kb := py_round2 (Row.total_1d row);
             UsagePeriod.sessions := s1 |};
        Periods.usage_7_days :=
          {| UsagePeriod.upload_kb := py_round2 (Row.upload_7d row);
             UsagePeriod.download_kb := py_round2 (Row.download_7d row);
             UsagePeriod.total_kb := py_round2 (Row.total_7d row);
             UsagePeriod.sessions := s7 |};
        Periods.usage_30_days :=
          {| UsagePeriod.upload_kb := py_round2 (Row.upload_30d row);
             UsagePeriod.download_kb := py_round2 (Row.download_30d row);
             UsagePeriod.total_kb := py_round2 (Row.total_30d row);
             UsagePeriod.sessions := Row.sessions_30d row |} |}.

(** [.filter(start_time >= date_30d, start_time <= reference_date)] *)
Definition in_window (date_30d reference_date : Z) (r : UsageRecord.t) : bool :=
  (date_30d <=? UsageRecord.start_time r)
  && (UsageRecord.start_time r <=? reference_date).

(** One result row: the aggregation columns evaluated on a group. *)
Definition aggregate_group (agg : Agg.t) (ug : string * list UsageRecord.t)
  : Row.t :=
  let g := snd ug in
  {| Row.username := fst ug;
     Row.upload_1d := Agg.upload_1d agg g;
     Row.download_1d := Agg.download_1d agg g;
     Row.total_1d := Agg.total_1d agg g;
     Row.sessions_1d := Agg.sessions_1d agg g;
     Row.upload_7d := Agg.upload_7d agg g;
     Row.download_7d := Agg.download_7d agg g;
     Row.total_7d := Agg.total_7d agg g;
     Row.sessions_7d := Agg.sessions_7d agg g;
     Row.upload_30d := Agg.upload_30d agg g;
     Row.download_30d := Agg.download_30d agg g;
     Row.total_30d := Agg.total_30d agg g;
     Row.sessions_30d := Agg.sessions_30d agg g |}.

(** [db.query(UsageRecord.username, *agg_columns) ... .group_by(username)]
    on the rows that passed the filter. *)
Definition select_grouped (agg : Agg.t) (rows : list UsageRecord.t)
  : list Row.t :=
  map (aggregate_group agg) (Sql.group_by_username rows).

(** [.order_by(text("total_30d DESC"))]: a stable insertion sort on the
    labelled column; rows of equal total keep their group order. *)
Fixpoint insert_total_30d_desc (r : Row.t) (l : list Row.t) : list Row.t :=
  match l with
  | [] => [r]
  | x :: l' =>
      if Qle_bool (Row.total_30d x) (Row.total_30d r)
      then r :: l
      else x :: insert_total_30d_desc r l'
  end.

Definition order_by_total_30d_desc (l : list Row.t) : list Row.t :=
  fold_right insert_total_30d_desc [] l.

(** The loop [for idx, row in enumerate(results)], from index [idx] on. *)
Fixpoint build_entries (offset idx : Z) (results : list Row.t)
  : result (list TopUserEntry.t) :=
  match results with
  | [] => Ok []
  | row :: rest =>
      periods <- _row_to_usage_periods row ;;
      data <- build_entries offset (idx + 1) rest ;;
      Ok ({| TopUserEntry.rank := offset + idx + 1;
             TopUserEntry.username := Row.username row;
             TopUserEntry.usage_1_day := Periods.usage_1_day periods;
             TopUserEntry.usage_7_days := Periods.usage_7_days periods;
             TopUserEntry.usage_30_days := Periods.usage_30_days periods |}
            :: data)
  end.

(** The rows of the 30-day window, grouped, aggregated and ordered: the
    query of [get_top_users] before [.offset] and [.limit]. *)
Definition ranked_rows (db : Session) (reference_date : Z) : list Row.t :=
  let '(date_30d, agg_columns) := _build_usage_aggregation reference_date in
  order_by_total_30d_desc
    (select_grouped agg_columns
       (filter (in_window date_30d reference_date) db)).

(** [count(distinct(username))] over the 30-day window, [or 0]. *)
Definition count_users (db : Session) (reference_date : Z) : Z :=
  let '(date_30d, _) := _build_usage_aggregation reference_date in
  Sql.count_distinct
    (map UsageRecord.username (filter (in_window date_30d reference_date) db)).

Definition get_top_users (db : Session) (reference_date page per_page : Z)
  : result TopUsersResponse.t :=
  let offset := (page - 1) * per_page in
  let total_users := count_users db reference_date in
  total_pages <-
    (if 0 <? total_users then math_ceil_div total_users per_page else Ok 0) ;;
  let results :=
    Sql.limit per_page (Sql.offset offset (ranked_rows db reference_date)) in
  data <- build_entries offset 0 results ;;
  Ok {| TopUsersResponse.page := page;
        TopUsersResponse.per_page := per_page;
        TopUsersResponse.total_users := total_users;
        TopUsersResponse.total_pages := total_pages;
        TopUsersResponse.reference_date := reference_date;
        TopUsersResponse.data := data |}.

Definition empty_period : UsagePeriod.t :=
  {| UsagePeriod.upload_kb := 0%Q;
     UsagePeriod.download_kb := 0%Q;
     UsagePeriod.total_kb := 0%Q;
     UsagePeriod.sessions := 0 |}.

Definition get_user_details (db : Session) (username : string) (timestamp : Z)
  : result (option UserDetailsResponse.t) :=
  let user_exists :=
    Sql.first
      (filter (fun r => String.eqb (UsageRecord.username r) username) db) in
  match user_exists with
  | None => Ok None
  | Some _ =>
      let '(date_30d, agg_columns) := _build_usage_aggregation timestamp in
      let row :=
        Sql.first
          (select_grouped agg_columns
             (filter
                (fun r =>
                   String.eqb (UsageRecord.username r) username
                   && in_window date_30d timestamp r)
                db)) in
      match row with
      | None =>
          Ok (Some {| UserDetailsResponse.username := username;
                      UserDetailsResponse.timestamp := timestamp;
                      UserDetailsResponse.usage_1_day := empty_period;
                      UserDetailsResponse.usage_7_days := empty_period;
                      UserDetailsResponse.usage_30_days := empty_period |})
      | Some row =>
          periods <- _row_to_usage_periods row ;;
          Ok (Some {| UserDetailsResponse.username := username;
                      UserDetailsResponse.timestamp := timestamp;
                      UserDetailsResponse.usage_1_day :=
                        Periods.usage_1_day periods;
                      UserDetailsResponse.usage_7_days :=
                        Periods.usage_7_days periods;
                      UserDetailsResponse.usage_30_days :=
                        Periods.usage_30_days periods |})
      end
  end.

(** ** app/services/ingestion.py *)

(** Python [str.strip()] and [str.split(sep)] on ASCII text. *)
Module Str.

Definition is_space (c : ascii) : bool :=
  let n := nat_of_ascii c in
  ((9 <=? n) && (n <=? 13) || (28 <=? n) && (n <=? 32))%nat.

Fixpoint lstrip (s : string) : string :=
  match s with
  | EmptyString => EmptyString
  | String c s' => if is_space c then lstrip s' else s
  end.

Fixpoint rstrip (s : string) : string :=
  match s with
  | EmptyString => EmptyString
  | String c s' =>
      match rstrip s' with
      | EmptyString => if is_space c then EmptyString else String c EmptyString
      | t => String c t
      end
  end.

Definition strip (s : string) : string := rstrip (lstrip s).

(** [s.split(sep)] for a one-character separator: never the empty list. *)
Fixpoint split (sep : ascii) (s : string) : list string :=
  match s with
  | EmptyString => [EmptyString]
  | String c s' =>
      if Ascii.eqb c sep then EmptyString :: split sep s'
      else
        match split sep s' with
        | [] => [String c EmptyString]
        | p :: ps => String c p :: ps
        end
  end.

End Str.

(** The table read by [pd.read_csv]: the header names and, per data row, one
    cell of text per column. *)
Module DataFrame.
Record t : Type := mk {
  columns : list string;
  rows : list (list string)
}.

Fixpoint index_of (c : string) (cols : list string) : nat :=
  match cols with
  | [] => O
  | c' :: cols' => if String.eqb c' c then O else S (index_of c cols')
  end.

(** [df[c]] *)
Definition column (df : t) (c : string) : list string :=
  map (fun row => nth (index_of c (columns df)) row EmptyString) (rows df).

(** [df.empty] *)
Definition empty (df : t) : bool :=
  match columns df, rows df with
  | [], _ => true
  | _, [] => true
  | _, _ => false
  end.
End DataFrame.

Definition REQUIRED_COLUMNS : list string :=
  ["username"; "mac_address"; "start_time"; "usage_time"; "upload";
   "download"]%string.

Definition mem_string (c : string) (l : list string) : bool :=
  existsb (String.eqb c) l.

(** [df.columns = df.columns.str.strip()] *)
Definition strip_columns (df : DataFrame.t) : DataFrame.t :=
  {| DataFrame.columns := map Str.strip (DataFrame.columns df);
     DataFrame.rows := DataFrame.rows df |}.

Definition validate_dataframe (df : DataFrame.t) : result DataFrame.t :=
  let df := strip_columns df in
  let missing :=
    filter (fun c => negb (mem_string c (DataFrame.columns df)))
           REQUIRED_COLUMNS in
  match missing with
  | [] => Ok df
  | _ => Raise (ValueError "Missing required columns")
  end.

Fixpoint traverse {A B : Type} (f : A -> result B) (l : list A)
  : result (list B) :=
  match l with
  | [] => Ok []
  | a :: l' => b <- f a ;; bs <- traverse f l' ;; Ok (b :: bs)
  end.

(** The bulk insert loop [for i in range(0, len(records), batch_size)] for a
    positive step, on the records not yet inserted. *)
Fixpoint insert_batches (fuel : nat) (batch_size : nat)
  (records : list UsageRecord.t) (session : Session) (total_inserted : Z)
  : Z * Session :=
  match fuel with
  | O => (total_inserted, session)
  | S fuel' =>
      match records with
      | [] => (total_inserted, session)
      | _ :: _ =>
          let batch := firstn batch_size records in
          insert_batches fuel' batch_size (skipn batch_size records)
            (session ++ batch)
            (total_inserted + Z.of_nat (List.length batch))
      end
  end.

Section Ingestion.

(** The library conversions the service calls: the builtin [int] on text
    ([None] where it raises [ValueError]), [pd.to_datetime] on one cell
    ([None] where it raises) and [pd.to_numeric(..., errors="coerce")]
    on one cell ([None] for NaN). *)
Variable int : string -> option Z.
Variable pd_to_datetime : string -> option Z.
Variable pd_to_numeric : string -> option Q.

Definition parse_usage_time (time_str : string) : result Z :=
  let time_str := Str.strip time_str in
  match Str.split ":"%char time_str with
  | [p0; p1; p2] =>
      match int p0, int p1, int p2 with
      | Some hours, Some minutes, Some seconds =>
          if (minutes <? 0) || (59 <? minutes) || (seconds <? 0)
             || (59 <? seconds) || (hours <? 0)
          then Raise (ValueError "values out of range")
          else Ok (hours * 3600 + minutes * 60 + seconds)
      | _, _, _ => Raise (ValueError "non-numeric components")
      end
  | _ => Raise (ValueError "expected H:MM:SS or HH:MM:SS")
  end.

Definition to_datetime (cell : string) : result Z :=
  match pd_to_datetime (Str.strip cell) with
  | Some t => Ok t
  | None => Raise (ValueError "invalid start_time")
  end.

(** The seven columns of the records to insert, zipped row by row. *)
Fixpoint to_records (us ms : list string) (ts ds : list Z)
  (ups downs : list Q) : list UsageRecord.t :=
  match us, ms, ts, ds, ups, downs with
  | u :: us', m :: ms', t :: ts', d :: ds', up :: ups', down :: downs' =>
      {| UsageRecord.username := u;
         UsageRecord.mac_address := m;
         UsageRecord.start_time := t;
         UsageRecord.usage_time_seconds := d;
         UsageRecord.upload_kb := up;
         UsageRecord.download_kb := down;
         UsageRecord.total_kb := (up + down)%Q |}
      :: to_records us' ms' ts' ds' ups' downs'
  | _, _, _, _, _, _ => []
  end.

Definition all_numeric (l : list (option Q)) : result (list Q) :=
  traverse
    (fun v =>
       match v with
       | Some q => Ok q
       | None =>
           Raise (ValueError
                    "Invalid numeric values found in upload or download columns")
       end) l.

(** The column transformations of [ingest_data], in the order of the
    source, up to the records handed to the bulk insert. *)
Definition transform (df : DataFrame.t) : result (list UsageRecord.t) :=
  let usernames := map Str.strip (DataFrame.column df "username") in
  let macs := map Str.strip (DataFrame.column df "mac_address") in
  starts <- traverse to_datetime (DataFrame.column df "start_time") ;;
  durations <- traverse parse_usage_time (DataFrame.column df "usage_time") ;;
  let upload := map pd_to_numeric (DataFrame.column df "upload") in
  let download := map pd_to_numeric (DataFrame.column df "download") in
  ups <- all_numeric upload ;;
  downs <- all_numeric download ;;
  Ok (to_records usernames macs starts durations ups downs).

(** [ingest_data] on the table read from the CSV file: the outcome and the
    committed content of the store afterwards. *)
Definition ingest_data (df : DataFrame.t) (session : Session)
  (batch_size : Z) (clear_existing : bool) : result Z * Session :=
  match validate_dataframe (strip_columns df) with
  | Raise e => (Raise e, session)
  | Ok df =>
      if DataFrame.empty df then (Ok 0, session)
      else
        match transform df with
        | Raise e => (Raise e, session)
        | Ok records =>
            let session := if clear_existing then [] else session in
            match math_ceil_div (Z.of_nat (List.length records)) batch_size with
            | Raise e => (Raise e, session)
            | Ok total_batches =>
                if batch_size <? 0 then (Ok 0, session)
                else
                  let '(total_inserted, session) :=
                    insert_batches (List.length records)
                      (Z.to_nat batch_size) records session 0 in
                  (Ok total_inserted, session)
            end
        end
  end.

End Ingestion.

(** ** The fixture of tests/conftest.py *)

(** [datetime(y, m, d, hh, mm, ss)] as microseconds since the start of
    0001-01-01 (proleptic Gregorian calendar). *)
Definition is_leap (y : Z) : bool :=
  ((y mod 4 =? 0) && negb (y mod 100 =? 0)) || (y mod 400 =? 0).

Definition days_before_month (y m : Z) : Z :=
  nth (Z.to_nat (m - 1)) [0; 31; 59; 90; 120; 151; 181; 212; 243; 273; 304; 334] 0
  + (if (2 <? m) && is_leap y then 1 else 0).

Definition datetime (y m d hh mm ss : Z) : Z :=
  let y' := y - 1 in
  let days := 365 * y' + y' / 4 - y' / 100 + y' / 400
              + days_before_month y m + (d - 1) in
  ((days * 86400) + hh * 3600 + mm * 60 + ss) * 1000000.

Definition usage (u : string) (mac : string) (t : Z) (secs : Z) (up down : Z)
  : UsageRecord.t :=
  {| UsageRecord.username := u;
     UsageRecord.mac_address := mac;
     UsageRecord.start_time := t;
     UsageRecord.usage_time_seconds := secs;
     UsageRecord.upload_kb := inject_Z up;
     UsageRecord.download_kb := inject_Z down;
     UsageRecord.total_kb := inject_Z (up + down) |}.

Definition sample_records : Session :=
  [ usage "heavyUser1" "AA:BB:CC:DD:EE:01" (datetime 2022 12 15 10 0 0)
      3600 5000000 8000000;
    usage "heavyUser1" "AA:BB:CC:DD:EE:01" (datetime 2022 12 14 14 0 0)
      7200 3000000 5000000;
    usage "heavyUser1" "AA:BB:CC:DD:EE:01" (datetime 2022 12 10 8 0 0)
      5400 2000000 3000000;
    usage "heavyUser1" "AA:BB:CC:DD:EE:01" (datetime 2022 11 20 12 0 0)
      10800 4000000 6000000;
    usage "mediumUser2" "AA:BB:CC:DD:EE:02" (datetime 2022 12 15 9 0 0)
      1800 1000000 2000000;
    usage "mediumUser2" "AA:BB:CC:DD:EE:02" (datetime 2022 12 12 16 0 0)
      3600 1500000 2500000;
    usage "mediumUser2" "AA:BB:CC:DD:EE:02" (datetime 2022 11 25 20 0 0)
      5400 2000000 3000000;
    usage "lightUser3" "AA:BB:CC:DD:EE:03" (datetime 2022 11 18 11 0 0)
      900 500000 800000 ]%string.

Definition REF_DATE : Z := datetime 2022 12 15 23 59 59.

(** A store of one session whose volumes are below one hundredth: upload
    and download 1/256 each, the stored total their sum. *)
Definition fractional_store : Session :=
  [ {| UsageRecord.username := "smallUser";
       UsageRecord.mac_address := "AA:BB:CC:DD:EE:04";
       UsageRecord.start_time := datetime 2022 12 15 10 0 0;
       UsageRecord.usage_time_seconds := 60;
       UsageRecord.upload_kb := 1 # 256;
       UsageRecord.download_kb := 1 # 256;
       UsageRecord.total_kb := (1 # 256) + (1 # 256) |} ]%string.

(** A store with a correction entry: a negative upload two days before
    [REF_DATE] and a positive one at [REF_DATE], the stored totals their
    sums with a zero download. *)
Definition negative_store : Session :=
  [ usage "creditedUser" "AA:BB:CC:DD:EE:05" (datetime 2022 12 13 23 59 59)
      60 (-10) 0;
    usage "creditedUser" "AA:BB:CC:DD:EE:05" REF_DATE 60 5 0 ]%string.

(** ** Notions used in the statements *)

Definition periods_list (p : Periods.t) : list UsagePeriod.t :=
  [Periods.usage_1_day p; Periods.usage_7_days p; Periods.usage_30_days p].

(** The three UsagePeriods of a top-users entry and of a user-detail
    result. *)
Definition entry_periods (e : TopUserEntry.t) : Periods.t :=
  {| Periods.usage_1_day := TopUserEntry.usage_1_day e;
     Periods.usage_7_days := TopUserEntry.usage_7_days e;
     Periods.usage_30_days := TopUserEntry.usage_30_days e |}.

Definition details_periods (d : UserDetailsResponse.t) : Periods.t :=
  {| Periods.usage_1_day := UserDetailsResponse.usage_1_day d;
     Periods.usage_7_days := UserDetailsResponse.usage_7_days d;
     Periods.usage_30_days := UserDetailsResponse.usage_30_days d |}.

(** [sessions_1day <= sessions_7day <= sessions_30day] *)
Definition sessions_nested (p : Periods.t) : Prop :=
  UsagePeriod.sessions (Periods.usage_1_day p)
  <= UsagePeriod.sessions (Periods.usage_7_days p)
  /\ UsagePeriod.sessions (Periods.usage_7_days p)
     <= UsagePeriod.sessions (Periods.usage_30_days p).

Definition total_kb_nested (p : Periods.t) : Prop :=
  (UsagePeriod.total_kb (Periods.usage_1_day p)
   <= UsagePeriod.total_kb (Periods.usage_7_days p))%Q
  /\ (UsagePeriod.total_kb (Periods.usage_7_days p)
      <= UsagePeriod.total_kb (Periods.usage_30_days p))%Q.

(** The sum decomposition as stated: [total_kb == upload_kb + download_kb]
    on the returned fields. *)
Definition sum_decomposition (q : UsagePeriod.t) : Prop :=
  (UsagePeriod.total_kb q
   == UsagePeriod.upload_kb q + UsagePeriod.download_kb q)%Q.

(** An amount that is a whole number (of KB), and a record whose upload and
    download are. *)
Definition whole (q : Q) : Prop := exists k : Z, (q == inject_Z k)%Q.

Definition whole_kb (r : UsageRecord.t) : Prop :=
  whole (UsageRecord.upload_kb r) /\ whole (UsageRecord.download_kb r).

(** The engine adds [Float] columns as binary64 numbers, the model as exact
    rationals.  On a store of whole amounts whose absolute values add up to
    at most [2 ^ 53], every sum that a query forms is a whole number of
    absolute value at most [2 ^ 53], which binary64 holds exactly: there
    the two sums are the same number. *)
Definition binary64_exact (db : Session) : Prop :=
  (Sql.Qsum
     (map (fun r => Qabs (UsageRecord.upload_kb r)
                    + Qabs (UsageRecord.download_kb r)) db)
   <= inject_Z (2 ^ 53))%Q.

(** The stored invariant of a record and the non-negativity of its total. *)
Definition stored_invariant (r : UsageRecord.t) : Prop :=
  (UsageRecord.total_kb r
   == UsageRecord.upload_kb r + UsageRecord.download_kb r)%Q.

Definition total_kb_nonneg (r : UsageRecord.t) : Prop :=
  (0 <= UsageRecord.total_kb r)%Q.

(** The found-but-idle result of the single-user query. *)
Definition empty_details (username : string) (timestamp : Z)
  : UserDetailsResponse.t :=
  {| UserDetailsResponse.username := username;
     UserDetailsResponse.timestamp := timestamp;
     UserDetailsResponse.usage_1_day := empty_period;
     UserDetailsResponse.usage_7_days := empty_period;
     UserDetailsResponse.usage_30_days := empty_period |}.

(** The data of one page; no entries where the call raises. *)
Definition page_data (db : Session) (R page n : Z) : list TopUserEntry.t :=
  match get_top_users db R page n with
  | Ok resp => TopUsersResponse.data resp
  | Raise _ => []
  end.

(** The [total_pages] the engine reports. *)
Definition page_count (db : Session) (R n : Z) : Z :=
  match get_top_users db R 1 n with
  | Ok resp => TopUsersResponse.total_pages resp
  | Raise _ => 0
  end.

(** The full unpaginated listing: pages [1 .. total_pages] concatenated. *)
Definition full_listing (db : Session) (R n : Z) : list TopUserEntry.t :=
  flat_map (fun k => page_data db R (Z.of_nat k) n)
           (seq 1 (Z.to_nat (page_count db R n))).

(** The order of the ranked listing. *)
Definition total_30d_ge (a b : Row.t) : Prop :=
  (Row.total_30d b <= Row.total_30d a)%Q.

(** An entry built from a row and its converted periods. *)
Definition entry_of (rank : Z) (row : Row.t) (p : Periods.t)
  : TopUserEntry.t :=
  {| TopUserEntry.rank := rank;
     TopUserEntry.username := Row.username row;
     TopUserEntry.usage_1_day := Periods.usage_1_day p;
     TopUserEntry.usage_7_days := Periods.usage_7_days p;
     TopUserEntry.usage_30_days := Periods.usage_30_days p |}.

(** ** Notions used in the further properties *)

(** The records of one user that start inside [lo, hi]: what an
    independent query of one window would select. *)
Definition window_records (db : Session) (username : string) (lo hi : Z)
  : list UsageRecord.t :=
  filter
    (fun r =>
       String.eqb (UsageRecord.username r) username
       && ((lo <=? UsageRecord.start_time r)
           && (UsageRecord.start_time r <=? hi)))
    db.

(** The UsagePeriod of an independent query of one window. *)
Definition window_period (db : Session) (username : string) (lo hi : Z)
  : UsagePeriod.t :=
  let rs := window_records db username lo hi in
  {| UsagePeriod.upload_kb := py_round2 (Sql.Qsum (map UsageRecord.upload_kb rs));
     UsagePeriod.download_kb :=
       py_round2 (Sql.Qsum (map UsageRecord.download_kb rs));
     UsagePeriod.total_kb := py_round2 (Sql.Qsum (map UsageRecord.total_kb rs));
     UsagePeriod.sessions := Z.of_nat (List.length rs) |}.

(** Two UsagePeriods with the same numbers. *)
Definition same_period (a b : UsagePeriod.t) : Prop :=
  (UsagePeriod.upload_kb a == UsagePeriod.upload_kb b)%Q
  /\ (UsagePeriod.download_kb a == UsagePeriod.download_kb b)%Q
  /\ (UsagePeriod.total_kb a == UsagePeriod.total_kb b)%Q
  /\ UsagePeriod.sessions a = UsagePeriod.sessions b.

(** The three windows of a user at a reference instant, each queried on its
    own. *)
Definition windows_queried_apart (db : Session) (username : string) (R : Z)
  (p : Periods.t) : Prop :=
  same_period (Periods.usage_1_day p)
    (window_period db username (R - timedelta_days 1) R)
  /\ same_period (Periods.usage_7_days p)
       (window_period db username (R - timedelta_days 7) R)
  /\ same_period (Periods.usage_30_days p)
       (window_period db username (R - timedelta_days 30) R).

(** The session counts of the three windows of a user, each counted on its
    own. *)
Definition sessions_queried_apart (db : Session) (username : string) (R : Z)
  (p : Periods.t) : Prop :=
  UsagePeriod.sessions (Periods.usage_1_day p)
  = Z.of_nat
      (List.length (window_records db username (R - timedelta_days 1) R))
  /\ UsagePeriod.sessions (Periods.usage_7_days p)
     = Z.of_nat
         (List.length (window_records db username (R - timedelta_days 7) R))
  /\ UsagePeriod.sessions (Periods.usage_30_days p)
     = Z.of_nat
         (List.length (window_records db username (R - timedelta_days 30) R)).

(** The users of the 30-day window ending at [R]: the universe of the
    top-users listing. *)
Definition window_users (db : Session) (R : Z) : list string :=
  nodup string_dec
    (map UsageRecord.username
       (filter (in_window (R - timedelta_days 30) R) db)).

(** The 30-day [total_kb] that the single-user query reports for a user at
    [R]. *)
Definition total_30d_of (db : Session) (R : Z) (u : string) : Q :=
  match get_user_details db u R with
  | Ok (Some d) => UsagePeriod.total_kb (UserDetailsResponse.usage_30_days d)
  | _ => 0%Q
  end.

(** The number of users of the window whose reported 30-day total is
    greater than [t], and the number of those whose total is at least
    [t]. *)
Definition users_above (db : Session) (R : Z) (t : Q) : Z :=
  Z.of_nat
    (List.length
       (filter (fun u => negb (Qle_bool (total_30d_of db R u) t))
          (window_users db R))).

Definition users_at_least (db : Session) (R : Z) (t : Q) : Z :=
  Z.of_nat
    (List.length
       (filter (fun u => Qle_bool t (total_30d_of db R u))
          (window_users db R))).

(** The number of occurrences of a character in a text. *)
Fixpoint count_char (c : ascii) (s : string) : nat :=
  match s with
  | EmptyString => O
  | String c' s' => (if Ascii.eqb c' c then 1 else 0) + count_char c s'
  end.

(** A text of whitespace only. *)
Fixpoint all_space (s : string) : bool :=
  match s with
  | EmptyString => true
  | String c s' => Str.is_space c && all_space s'
  end.

(** A text without whitespace at either end. *)
Definition trimmed (s : string) : Prop := Str.strip s = s.

(** A reader of plain decimal text (digits, with an optional minus sign),
    on which it agrees with the builtin [int]; used to run the ingestion on
    examples. *)
Fixpoint digits_value (acc : Z) (s : string) : option Z :=
  match s with
  | EmptyString => Some acc
  | String c s' =>
      let n := nat_of_ascii c in
      if ((48 <=? n) && (n <=? 57))%nat
      then digits_value (acc * 10 + Z.of_nat (n - 48)) s'
      else None
  end.

Definition read_decimal (s : string) : option Z :=
  match s with
  | EmptyString => None
  | String "-"%char EmptyString => None
  | String "-"%char s' => option_map Z.opp (digits_value 0 s')
  | _ => digits_value 0 s
  end.

(** A one-row table in the shape of the ingestion tests. *)
Definition one_row_table : DataFrame.t :=
  {| DataFrame.columns :=
       ["username"; "mac_address"; "start_time"; "usage_time"; "upload";
        "download"]%string;
     DataFrame.rows :=
       [["  spaced_user  "; "AA:BB:CC:DD:EE:FF"; "1000"; "1:30:45"; "500";
         "700"]%string] |}.

(** Conversions for the examples: instants and volumes written as plain
    decimal integers. *)
Definition decimal_volume (s : string) : option Q :=
  option_map inject_Z (read_decimal s).

(** The same table with an upload cell that is not a number. *)
Definition bad_upload_table : DataFrame.t :=
  {| DataFrame.columns := DataFrame.columns one_row_table;
     DataFrame.rows :=
       [["user1"; "AA:BB:CC:DD:EE:FF"; "1000"; "1:00:00"; "abc";
         "2000"]%string] |}.

(** A one-row table whose start time is written as a timestamp, and a
    reader of that timestamp, for the examples of the upload. *)
Definition timestamp_table : DataFrame.t :=
  {| DataFrame.columns :=
       ["username"; "mac_address"; "start_time"; "usage_time"; "upload";
        "download"]%string;
     DataFrame.rows :=
       [["  spaced_user  "; "AA:BB:CC:DD:EE:FF"; "2022-12-01 10:00:00";
         "1:30:45"; "500"; "700"]%string] |}.

Definition read_timestamp (s : string) : option Z :=
  if String.eqb s "2022-12-01 10:00:00"
  then Some (datetime 2022 12 1 10 0 0)
  else None.

(** The same table with an upload cell that is not a number. *)
Definition bad_timestamp_table : DataFrame.t :=
  {| DataFrame.columns := DataFrame.columns timestamp_table;
     DataFrame.rows :=
       [["user1"; "AA:BB:CC:DD:EE:FF"; "2022-12-01 10:00:00"; "1:00:00";
         "abc"; "2000"]%string] |}.

(** ** app/config.py *)

Module Settings.
Record t : Type := mk {
  DATABASE_URL : string;
  APP_NAME : string;
  DEFAULT_PAGE_SIZE : Z;
  MAX_PAGE_SIZE : Z
}.
End Settings.

(** The defaults of [Settings]; the environment can override each field. *)
Definition default_settings : Settings.t :=
  {| Settings.DATABASE_URL := "sqlite:///./internet_usage.db";
     Settings.APP_NAME := "Internet Usage Monitoring Service";
     Settings.DEFAULT_PAGE_SIZE := 10;
     Settings.MAX_PAGE_SIZE := 100 |}.

(** ** HTTP outcomes of the routers *)

(** The detail of an [HTTPException]: one constructor per message of the
    source, carrying the values the message is formatted from. *)
Inductive Detail : Type :=
| InvalidReferenceDate (reference_date : string)
| NoDataAvailable
| InvalidTimestamp (timestamp : string)
| UserNotFound (username : string)
| NoFilename
| InvalidFileType (filename : string)
| InvalidMimeType (content_type : string)
| FileTooLarge
| FileEmpty
| NotUtf8
| CsvNoData
| CsvParsingError (msg : string)
| MissingColumns (missing : list string)
| NoDataRows
| InvalidUpload (rows : list Z)
| InvalidDownload (rows : list Z)
| NegativeUpload (rows : list Z)
| NegativeDownload (rows : list Z)
| InvalidUsageTime (rows : list Z)
| InvalidStartTime
| EmptyUsername (rows : list Z)
| EmptyMacAddress (rows : list Z)
| DataError (msg : string)
| IngestionFailed (e : exn).

(** What a request gets: the handler's return value, an [HTTPException] of
    the handler, the 422 answer of the framework when a declared [Query]
    constraint fails (with the names of the failing parameters), or an
    exception that leaves the handler. *)
Inductive http (A : Type) : Type :=
| Response (a : A)
| HTTPException (status_code : Z) (detail : Detail)
| Unprocessable (params : list string)
| Unhandled (e : exn).

Arguments Response {A} a.
Arguments HTTPException {A} status_code detail.
Arguments Unprocessable {A} params.
Arguments Unhandled {A} e.

(** ** app/routers/users.py *)

(** [db.query(func.max(UsageRecord.start_time)).scalar()] *)
Fixpoint max_start_time (db : Session) : option Z :=
  match db with
  | [] => None
  | r :: db' =>
      match max_start_time db' with
      | None => Some (UsageRecord.start_time r)
      | Some m => Some (Z.max (UsageRecord.start_time r) m)
      end
  end.

(** The handlers take the query parameters as the framework parsed them:
    [None] for an omitted optional parameter.  [fromisoformat] is
    [datetime.fromisoformat], [None] where it raises [ValueError]. *)
Definition list_top_users (settings : Settings.t)
  (fromisoformat : string -> option Z)
  (page per_page : option Z) (reference_date : option string) (db : Session)
  : http TopUsersResponse.t :=
  let page := match page with Some p => p | None => 1 end in
  let invalid :=
    (if page <? 1 then ["page"%string] else [])
    ++ match per_page with
       | Some n => if (n <? 1) || (100 <? n) then ["per_page"%string] else []
       | None => []
       end in
  match invalid with
  | _ :: _ => Unprocessable invalid
  | [] =>
      let per_page :=
        match per_page with
        | None => Settings.DEFAULT_PAGE_SIZE settings
        | Some n => n
        end in
      let ref_date :=
        match reference_date with
        | Some text =>
            match fromisoformat text with
            | Some t => Response t
            | None => HTTPException 400 (InvalidReferenceDate text)
            end
        | None =>
            match max_start_time db with
            | None => HTTPException 400 NoDataAvailable
            | Some max_date => Response max_date
            end
        end in
      match ref_date with
      | Response ref_date =>
          match get_top_users db ref_date page per_page with
          | Ok resp => Response resp
          | Raise e => Unhandled e
          end
      | HTTPException c d => HTTPException c d
      | Unprocessable ps => Unprocessable ps
      | Unhandled e => Unhandled e
      end
  end.

Definition user_details (fromisoformat : string -> option Z)
  (username timestamp : string) (db : Session)
  : http UserDetailsResponse.t :=
  if (String.length username <? 1)%nat then Unprocessable ["username"%string]
  else
    match fromisoformat timestamp with
    | None => HTTPException 400 (InvalidTimestamp timestamp)
    | Some ts =>
        match get_user_details db username ts with
        | Raise e => Unhandled e
        | Ok None => HTTPException 404 (UserNotFound username)
        | Ok (Some result) => Response result
        end
    end.

(** ** The services and the routers on the ranges of the runtime *)

(** The definitions above compute on unbounded integers.  Here the same
    functions are written with the two places where the ranges of the
    runtime show: the date arithmetic of [_build_usage_aggregation], which
    raises [OverflowError] below [datetime.min], and the binding of
    [LIMIT] and [OFFSET], which raises it outside the 64-bit integers.
    Each function returns what its counterpart above returns whenever it
    returns. *)
Module Bounded.

Definition _build_usage_aggregation (ref_date : Z) : result (Z * Agg.t) :=
  date_1d <- datetime_sub_days ref_date 1 ;;
  date_7d <- datetime_sub_days ref_date 7 ;;
  date_30d <- datetime_sub_days ref_date 30 ;;
  Ok (date_30d,
      {| Agg.upload_1d := sum_since date_1d UsageRecord.upload_kb;
         Agg.download_1d := sum_since date_1d UsageRecord.download_kb;
         Agg.total_1d := sum_since date_1d UsageRecord.total_kb;
         Agg.sessions_1d := sessions_since date_1d;
         Agg.upload_7d := sum_since date_7d UsageRecord.upload_kb;
         Agg.download_7d := sum_since date_7d UsageRecord.download_kb;
         Agg.total_7d := sum_since date_7d UsageRecord.total_kb;
         Agg.sessions_7d := sessions_since date_7d;
         Agg.upload_30d := sum_all UsageRecord.upload_kb;
         Agg.download_30d := sum_all UsageRecord.download_kb;
         Agg.total_30d := sum_all UsageRecord.total_kb;
         Agg.sessions_30d := Sql.count (A:=UsageRecord.t) |}).

(** The count query runs first, then the page-count division, then the
    page query, whose [LIMIT] and [OFFSET] are bound parameters. *)
Definition get_top_users (db : Session) (reference_date page per_page : Z)
  : result TopUsersResponse.t :=
  built <- _build_usage_aggregation reference_date ;;
  let '(date_30d, agg_columns) := built in
  let offset := (page - 1) * per_page in
  let total_users :=
    Sql.count_distinct
      (map UsageRecord.username
         (filter (in_window date_30d reference_date) db)) in
  total_pages <-
    (if 0 <? total_users then math_ceil_div total_users per_page else Ok 0) ;;
  limit_param <- sqlite_integer per_page ;;
  offset_param <- sqlite_integer offset ;;
  let results :=
    Sql.limit limit_param
      (Sql.offset offset_param
         (order_by_total_30d_desc
            (select_grouped agg_columns
               (filter (in_window date_30d reference_date) db)))) in
  data <- build_entries offset 0 results ;;
  Ok {| TopUsersResponse.page := page;
        TopUsersResponse.per_page := per_page;
        TopUsersResponse.total_users := total_users;
        TopUsersResponse.total_pages := total_pages;
        TopUsersResponse.reference_date := reference_date;
        TopUsersResponse.data := data |}.

(** The existence check comes before the date arithmetic. *)
Definition get_user_details (db : Session) (username : string) (timestamp : Z)
  : result (option UserDetailsResponse.t) :=
  let user_exists :=
    Sql.first
      (filter (fun r => String.eqb (UsageRecord.username r) username) db) in
  match user_exists with
  | None => Ok None
  | Some _ =>
      built <- _build_usage_aggregation timestamp ;;
      let '(date_30d, agg_columns) := built in
      let row :=
        Sql.first
          (select_grouped agg_columns
             (filter
                (fun r =>
                   String.eqb (UsageRecord.username r) username
                   && in_window date_30d timestamp r)
                db)) in
      match row with
      | None =>
          Ok (Some {| UserDetailsResponse.username := username;
                      UserDetailsResponse.timestamp := timestamp;
                      UserDetailsResponse.usage_1_day := empty_period;
                      UserDetailsResponse.usage_7_days := empty_period;
                      UserDetailsResponse.usage_30_days := empty_period |})
      | Some row =>
          periods <- _row_to_usage_periods row ;;
          Ok (Some {| UserDetailsResponse.username := username;
                      UserDetailsResponse.timestamp := timestamp;
                      UserDetailsResponse.usage_1_day :=
                        Periods.usage_1_day periods;
                      UserDetailsResponse.usage_7_days :=
                        Periods.usage_7_days periods;
                      UserDetailsResponse.usage_30_days :=
                        Periods.usage_30_days periods |})
      end
  end.

Definition list_top_users (settings : Settings.t)
  (fromisoformat : string -> option Z)
  (page per_page : option Z) (reference_date : option string) (db : Session)
  : http TopUsersResponse.t :=
  let page := match page with Some p => p | None => 1 end in
  let invalid :=
    (if page <? 1 then ["page"%string] else [])
    ++ match per_page with
       | Some n => if (n <? 1) || (100 <? n) then ["per_page"%string] else []
       | None => []
       end in
  match invalid with
  | _ :: _ => Unprocessable invalid
  | [] =>
      let per_page :=
        match per_page with
        | None => Settings.DEFAULT_PAGE_SIZE settings
        | Some n => n
        end in
      let ref_date :=
        match reference_date with
        | Some text =>
            match fromisoformat text with
            | Some t => Response t
            | None => HTTPException 400 (InvalidReferenceDate text)
            end
        | None =>
            match max_start_time db with
            | None => HTTPException 400 NoDataAvailable
            | Some max_date => Response max_date
            end
        end in
      match ref_date with
      | Response ref_date =>
          match get_top_users db ref_date page per_page with
          | Ok resp => Response resp
          | Raise e => Unhandled e
          end
      | HTTPException c d => HTTPException c d
      | Unprocessable ps => Unprocessable ps
      | Unhandled e => Unhandled e
      end
  end.

Definition user_details (fromisoformat : string -> option Z)
  (username timestamp : string) (db : Session)
  : http UserDetailsResponse.t :=
  if (String.length username <? 1)%nat then Unprocessable ["username"%string]
  else
    match fromisoformat timestamp with
    | None => HTTPException 400 (InvalidTimestamp timestamp)
    | Some ts =>
        match get_user_details db username ts with
        | Raise e => Unhandled e
        | Ok None => HTTPException 404 (UserNotFound username)
        | Ok (Some result) => Response result
        end
    end.

End Bounded.

(** ** app/routers/upload.py *)

Definition ALLOWED_EXTENSIONS : list string := [".csv"%string].

Definition ALLOWED_MIME_TYPES : list string :=
  ["text/csv"; "application/csv"; "application/vnd.ms-excel"; "text/plain";
   "application/octet-stream"]%string.

Definition MAX_FILE_SIZE_MB : Z := 50.

Definition MAX_FILE_SIZE_BYTES : Z := MAX_FILE_SIZE_MB * 1024 * 1024.

(** [str.lower()] and [str.endswith(suffix)] on ASCII text. *)
Definition lower_char (c : ascii) : ascii :=
  let n := nat_of_ascii c in
  if ((65 <=? n) && (n <=? 90))%nat then ascii_of_nat (n + 32) else c.

Fixpoint lower (s : string) : string :=
  match s with
  | EmptyString => EmptyString
  | String c s' => String (lower_char c) (lower s')
  end.

Fixpoint endswith (s suffix : string) : bool :=
  String.eqb s suffix
  || match s with
     | EmptyString => false
     | String _ s' => endswith s' suffix
     end.

(** The metadata of an [UploadFile]. *)
Module UploadFile.
Record t : Type := mk {
  filename : option string;
  content_type : option string
}.
End UploadFile.

Definition _validate_file_metadata (file : UploadFile.t) : http unit :=
  match UploadFile.filename file with
  | None | Some EmptyString => HTTPException 400 NoFilename
  | Some filename =>
      let filename_lower := lower filename in
      if negb (existsb (endswith filename_lower) ALLOWED_EXTENSIONS)
      then HTTPException 400 (InvalidFileType filename)
      else
        match UploadFile.content_type file with
        | None | Some EmptyString => Response tt
        | Some content_type =>
            if negb (mem_string content_type ALLOWED_MIME_TYPES)
            then HTTPException 400 (InvalidMimeType content_type)
            else Response tt
        end
  end.

(** What [pd.read_csv] makes of a text. *)
Inductive csv_read : Type :=
| Parsed (df : DataFrame.t)
| EmptyDataError
| ParserError (msg : string).

(** The required columns in sorted order, as [sorted(missing)] lists
    them. *)
Definition SORTED_REQUIRED_COLUMNS : list string :=
  ["download"; "mac_address"; "start_time"; "upload"; "usage_time";
   "username"]%string.

(** The row labels (0, 1, ...) at which a flag is set, from label [idx]. *)
Fixpoint flagged_rows (idx : Z) (flags : list bool) : list Z :=
  match flags with
  | [] => []
  | b :: flags' =>
      if b then idx :: flagged_rows (idx + 1) flags'
      else flagged_rows (idx + 1) flags'
  end.

(** [[r + 2 for r in rows[:5]]] *)
Definition rows_preview (rows : list Z) : list Z :=
  map (fun r => r + 2) (firstn 5 rows).

(** [value.isna()] and [value < 0] on a coerced numeric cell. *)
Definition isna (v : option Q) : bool :=
  match v with
  | Some _ => false
  | None => true
  end.

Definition negative (v : option Q) : bool :=
  match v with
  | Some q => negb (Qle_bool 0 q)
  | None => false
  end.

(** [df[c] = values]: the column [c] replaced row by row. *)
Fixpoint set_nth (n : nat) (v : string) (row : list string) : list string :=
  match n, row with
  | _, [] => []
  | O, _ :: row' => v :: row'
  | S n', x :: row' => x :: set_nth n' v row'
  end.

Fixpoint assign_rows (n : nat) (values : list string)
  (rows : list (list string)) : list (list string) :=
  match values, rows with
  | v :: values', row :: rows' => set_nth n v row :: assign_rows n values' rows'
  | _, _ => rows
  end.

Definition assign (df : DataFrame.t) (c : string) (values : list string)
  : DataFrame.t :=
  {| DataFrame.columns := DataFrame.columns df;
     DataFrame.rows :=
       assign_rows (DataFrame.index_of c (DataFrame.columns df)) values
         (DataFrame.rows df) |}.

(** The body of the success answer of [upload_csv]; its [message] is the
    text of [records_ingested]. *)
Module UploadResult.
Record t : Type := mk {
  status : string;
  records_ingested : Z;
  clear_existing : bool
}.
End UploadResult.

Section Upload.

(** The library calls of the upload router: [bytes.decode("utf-8")]
    ([None] for [UnicodeDecodeError]), [pd.read_csv] on a text, and the
    conversions of the ingestion service. *)
Variable decode_utf8 : string -> option string.
Variable read_csv : string -> csv_read.
Variable int : string -> option Z.
Variable pd_to_datetime : string -> option Z.
Variable pd_to_numeric : string -> option Q.

(** The loop over [df["usage_time"].items()], from row label [idx]: the
    labels of the cells that [parse_usage_time] refuses with
    [ValueError]. *)
Fixpoint bad_time_rows (idx : Z) (values : list string) : result (list Z) :=
  match values with
  | [] => Ok []
  | val :: rest =>
      match parse_usage_time int val with
      | Ok _ => bad_time_rows (idx + 1) rest
      | Raise (ValueError _) =>
          rows <- bad_time_rows (idx + 1) rest ;; Ok (idx :: rows)
      | Raise e => Raise e
      end
  end.

Definition _validate_csv_content (contents : string) : http DataFrame.t :=
  if MAX_FILE_SIZE_BYTES <? Z.of_nat (String.length contents)
  then HTTPException 400 FileTooLarge
  else if (String.length contents =? 0)%nat
  then HTTPException 400 FileEmpty
  else
    match decode_utf8 contents with
    | None => HTTPException 400 NotUtf8
    | Some text =>
        match read_csv text with
        | EmptyDataError => HTTPException 400 CsvNoData
        | ParserError e => HTTPException 400 (CsvParsingError e)
        | Parsed df =>
            let df := strip_columns df in
            let missing :=
              filter (fun c => negb (mem_string c (DataFrame.columns df)))
                     SORTED_REQUIRED_COLUMNS in
            match missing with
            | _ :: _ => HTTPException 400 (MissingColumns missing)
            | [] =>
                if DataFrame.empty df then HTTPException 400 NoDataRows
                else
                  let upload_numeric :=
                    map pd_to_numeric (DataFrame.column df "upload") in
                  let download_numeric :=
                    map pd_to_numeric (DataFrame.column df "download") in
                  let bad_upload_rows :=
                    flagged_rows 0 (map isna upload_numeric) in
                  let bad_download_rows :=
                    flagged_rows 0 (map isna download_numeric) in
                  match bad_upload_rows, bad_download_rows with
                  | _ :: _, _ =>
                      HTTPException 400
                        (InvalidUpload (rows_preview bad_upload_rows))
                  | [], _ :: _ =>
                      HTTPException 400
                        (InvalidDownload (rows_preview bad_download_rows))
                  | [], [] =>
                      if existsb negative upload_numeric
                      then HTTPException 400
                             (NegativeUpload
                                (rows_preview
                                   (flagged_rows 0
                                      (map negative upload_numeric))))
                      else if existsb negative download_numeric
                      then HTTPException 400
                             (NegativeDownload
                                (rows_preview
                                   (flagged_rows 0
                                      (map negative download_numeric))))
                      else
                        match
                          bad_time_rows 0 (DataFrame.column df "usage_time")
                        with
                        | Raise e => Unhandled e
                        | Ok (_ :: _ as bad) =>
                            HTTPException 400
                              (InvalidUsageTime (rows_preview bad))
                        | Ok [] =>
                            match
                              traverse (to_datetime pd_to_datetime)
                                (DataFrame.column df "start_time")
                            with
                            | Raise (ValueError _) | Raise TypeError =>
                                HTTPException 400 InvalidStartTime
                            | Raise e => Unhandled e
                            | Ok _ =>
                                let usernames :=
                                  map Str.strip
                                      (DataFrame.column df "username") in
                                let df := assign df "username" usernames in
                                let empty_users :=
                                  flagged_rows 0
                                    (map (fun u =>
                                            mem_string u
                                              [EmptyString; "nan"%string])
                                         usernames) in
                                match empty_users with
                                | _ :: _ =>
                                    HTTPException 400
                                      (EmptyUsername
                                         (rows_preview empty_users))
                                | [] =>
                                    let macs :=
                                      map Str.strip
                                          (DataFrame.column df "mac_address")
                                    in
                                    let df := assign df "mac_address" macs in
                                    let empty_macs :=
                                      flagged_rows 0
                                        (map (fun m =>
                                                mem_string m
                                                  [EmptyString; "nan"%string])
                                             macs) in
                                    match empty_macs with
                                    | _ :: _ =>
                                        HTTPException 400
                                          (EmptyMacAddress
                                             (rows_preview empty_macs))
                                    | [] => Response df
                                    end
                                end
                            end
                        end
                  end
            end
        end
    end.

(** [upload_csv] on the metadata and the bytes of the uploaded file: the
    answer and the store afterwards.  The temporary file holds the uploaded
    bytes, so [ingest_data] reads the table that [pd.read_csv] makes of
    them, and reading it fails (with a [ValueError] of pandas) where
    decoding or parsing the bytes fails. *)
Definition upload_csv (file : UploadFile.t) (contents : string)
  (clear_existing : option bool) (batch_size : option Z) (db : Session)
  : http UploadResult.t * Session :=
  let clear_existing :=
    match clear_existing with Some b => b | None => true end in
  let batch_size := match batch_size with Some b => b | None => 5000 end in
  if (batch_size <? 100) || (50000 <? batch_size)
  then (Unprocessable ["batch_size"%string], db)
  else
    match _validate_file_metadata file with
    | HTTPException c d => (HTTPException c d, db)
    | Unprocessable ps => (Unprocessable ps, db)
    | Unhandled e => (Unhandled e, db)
    | Response _ =>
        match _validate_csv_content contents with
        | HTTPException c d => (HTTPException c d, db)
        | Unprocessable ps => (Unprocessable ps, db)
        | Unhandled e => (Unhandled e, db)
        | Response _ =>
            match decode_utf8 contents with
            | None =>
                (HTTPException 400 (DataError "file is not valid UTF-8"), db)
            | Some text =>
                match read_csv text with
                | EmptyDataError =>
                    (HTTPException 400
                       (DataError "No columns to parse from file"), db)
                | ParserError e => (HTTPException 400 (DataError e), db)
                | Parsed df =>
                    match
                      ingest_data int pd_to_datetime pd_to_numeric df db
                        batch_size clear_existing
                    with
                    | (Ok count, db') =>
                        (Response
                           {| UploadResult.status := "success";
                              UploadResult.records_ingested := count;
                              UploadResult.clear_existing := clear_existing |},
                         db')
                    | (Raise (ValueError msg), db') =>
                        (HTTPException 400 (DataError msg), db')
                    | (Raise e, db') =>
                        (HTTPException 500 (IngestionFailed e), db')
                    end
                end
            end
        end
    end.

End Upload.

(** What the data model asks of a stored record. *)
Definition data_model_record (r : UsageRecord.t) : Prop :=
  (0 <= UsageRecord.upload_kb r)%Q
  /\ (0 <= UsageRecord.download_kb r)%Q
  /\ UsageRecord.total_kb r
     = (UsageRecord.upload_kb r + UsageRecord.download_kb r)%Q
  /\ (0 <= UsageRecord.total_kb r)%Q
  /\ UsageRecord.username r <> EmptyString
  /\ trimmed (UsageRecord.username r)
  /\ UsageRecord.mac_address r <> EmptyString
  /\ 0 <= UsageRecord.usage_time_seconds r.

(** An upload of the one-row table, as a CSV file with an upper-case
    extension. *)
Definition sample_upload : UploadFile.t :=
  {| UploadFile.filename := Some "Data.CSV"%string;
     UploadFile.content_type := Some "text/csv"%string |}.

(** * Properties *)

(** ** Rounding *)

Section Rounding.

Lemma round_half_even_bounds (q : Q) :
  Qnum q / Z.pos (Qden q) <= round_half_even q
  /\ round_half_even q <= Qnum q / Z.pos (Qden q) + 1.
Proof.
  unfold round_half_even.
  destruct (2 * (Qnum q mod Z.pos (Qden q)) ?= Z.pos (Qden q));
    try destruct (Z.even _); lia.
Qed.

Lemma floor_le (q q' : Q) :
  (q <= q')%Q -> Qnum q / Z.pos (Qden q) <= Qnum q' / Z.pos (Qden q').
Proof.
  intros H. unfold Qle in H.
  set (n := Qnum q) in *. set (d := Z.pos (Qden q)) in *.
  set (n' := Qnum q') in *. set (d' := Z.pos (Qden q')) in *.
  assert (Hd : 0 < d) by (subst d; lia).
  assert (Hd' : 0 < d') by (subst d'; lia).
  apply Z.div_le_lower_bound; [lia|].
  pose proof (Z.mul_div_le n d Hd) as Hfl.
  assert (Hm : d' * (n / d) * d <= n' * d) by nia.
  nia.
Qed.

(** Rounding to the nearest integer is monotone. *)
Lemma round_half_even_mono (q q' : Q) :
  (q <= q')%Q -> round_half_even q <= round_half_even q'.
Proof.
  intros H.
  pose proof (floor_le q q' H) as Hfl.
  pose proof (round_half_even_bounds q) as [_ Hq].
  pose proof (round_half_even_bounds q') as [Hq' _].
  destruct (Z.eq_dec (Qnum q / Z.pos (Qden q)) (Qnum q' / Z.pos (Qden q')))
    as [E|NE]; [|lia].
  clear Hq Hq' Hfl.
  unfold round_half_even, Qle in *.
  set (n := Qnum q) in *. set (d := Z.pos (Qden q)) in *.
  set (n' := Qnum q') in *. set (d' := Z.pos (Qden q')) in *.
  assert (Hd : 0 < d) by (subst d; lia).
  assert (Hd' : 0 < d') by (subst d'; lia).
  pose proof (Z.div_mod n d ltac:(lia)) as Hn.
  pose proof (Z.div_mod n' d' ltac:(lia)) as Hn'.
  pose proof (Z.mod_pos_bound n d Hd) as Hr.
  pose proof (Z.mod_pos_bound n' d' Hd') as Hr'.
  rewrite <- E in *.
  set (f := n / d) in *. set (r := n mod d) in *. set (r' := n' mod d') in *.
  assert (Hrr : r * d' <= r' * d) by nia.
  destruct (Z.compare_spec (2 * r) d), (Z.compare_spec (2 * r') d');
    try destruct (Z.even f); try lia; nia.
Qed.

Lemma round_half_even_compat (q q' : Q) :
  (q == q')%Q -> round_half_even q = round_half_even q'.
Proof.
  intros H. apply Z.le_antisymm; apply round_half_even_mono;
    rewrite H; apply Qle_refl.
Qed.

Lemma py_round2_mono (x y : Q) : (x <= y)%Q -> (py_round2 x <= py_round2 y)%Q.
Proof.
  intros H. unfold py_round2, Qle. cbn [Qnum Qden].
  assert (Hm : round_half_even (x * 100) <= round_half_even (y * 100))
    by (apply round_half_even_mono; lra).
  lia.
Qed.

Lemma py_round2_compat (x y : Q) : (x == y)%Q -> py_round2 x = py_round2 y.
Proof.
  intros H. unfold py_round2. f_equal.
  apply round_half_even_compat. rewrite H. reflexivity.
Qed.

End Rounding.

(** ** The relational operators *)

Section Relational.

Lemma group_by_username_spec (rows : list UsageRecord.t) u g :
  In (u, g) (Sql.group_by_username rows) <->
  In u (map UsageRecord.username rows)
  /\ g = filter (fun r => String.eqb (UsageRecord.username r) u) rows.
Proof.
  unfold Sql.group_by_username. rewrite in_map_iff. split.
  - intros (u' & E & Hin). inversion E; subst.
    apply nodup_In in Hin. auto.
  - intros [Hin ->]. exists u. split; [reflexivity|].
    apply nodup_In. exact Hin.
Qed.

(** No group of a [GROUP BY] is empty. *)
Lemma group_nonempty (rows : list UsageRecord.t) u g :
  In (u, g) (Sql.group_by_username rows) -> g <> [].
Proof.
  rewrite group_by_username_spec. intros [Hin ->].
  apply in_map_iff in Hin. destruct Hin as (r & Hu & Hr).
  assert (Hf : In r (filter (fun r => String.eqb (UsageRecord.username r) u)
                       rows)).
  { apply filter_In. split; [exact Hr|]. apply String.eqb_eq. exact Hu. }
  intros E. rewrite E in Hf. exact Hf.
Qed.

Lemma group_members (rows : list UsageRecord.t) u g r :
  In (u, g) (Sql.group_by_username rows) -> In r g ->
  In r rows /\ UsageRecord.username r = u.
Proof.
  rewrite group_by_username_spec. intros [_ ->] Hr.
  apply filter_In in Hr. destruct Hr as [Hr Hu].
  apply String.eqb_eq in Hu. auto.
Qed.

Lemma length_group_by_username (rows : list UsageRecord.t) :
  Z.of_nat (List.length (Sql.group_by_username rows))
  = Sql.count_distinct (map UsageRecord.username rows).
Proof.
  unfold Sql.group_by_username, Sql.count_distinct.
  now rewrite length_map.
Qed.

Lemma insert_total_30d_desc_perm r l :
  Permutation (r :: l) (insert_total_30d_desc r l).
Proof.
  induction l as [|x l IH]; simpl.
  - apply Permutation_refl.
  - destruct (Qle_bool (Row.total_30d x) (Row.total_30d r)).
    + apply Permutation_refl.
    + eapply perm_trans; [apply perm_swap|].
      apply perm_skip. exact IH.
Qed.

Lemma order_by_total_30d_desc_perm l :
  Permutation l (order_by_total_30d_desc l).
Proof.
  induction l as [|x l IH]; simpl.
  - apply perm_nil.
  - eapply perm_trans; [apply perm_skip; exact IH|].
    apply insert_total_30d_desc_perm.
Qed.

Lemma insert_total_30d_desc_sorted r l :
  StronglySorted total_30d_ge l ->
  StronglySorted total_30d_ge (insert_total_30d_desc r l).
Proof.
  induction 1 as [|x l Hs IH Hx]; simpl.
  - repeat constructor.
  - destruct (Qle_bool (Row.total_30d x) (Row.total_30d r)) eqn:E.
    + apply Qle_bool_iff in E.
      constructor; [constructor; assumption|].
      constructor; [exact E|].
      rewrite Forall_forall in *. intros y Hy. specialize (Hx y Hy).
      unfold total_30d_ge in *. eapply Qle_trans; eassumption.
    + assert (Hlt : (Row.total_30d r < Row.total_30d x)%Q).
      { apply Qnot_le_lt. intros H. apply Qle_bool_iff in H. congruence. }
      constructor; [exact IH|].
      rewrite Forall_forall in *. intros y Hy.
      apply (Permutation_in _ (Permutation_sym
               (insert_total_30d_desc_perm r l))) in Hy.
      destruct Hy as [<-|Hy]; [apply Qlt_le_weak; exact Hlt | auto].
Qed.

(** The ordered listing is non-increasing in the 30-day total. *)
Lemma order_by_total_30d_desc_sorted l :
  StronglySorted total_30d_ge (order_by_total_30d_desc l).
Proof.
  induction l as [|x l IH]; simpl.
  - constructor.
  - apply insert_total_30d_desc_sorted. exact IH.
Qed.

Lemma StronglySorted_nth_error {A : Type} (R : A -> A -> Prop) (l : list A) :
  StronglySorted R l ->
  forall i j a b, (i < j)%nat ->
    nth_error l i = Some a -> nth_error l j = Some b -> R a b.
Proof.
  induction 1 as [|x l Hs IH Hx]; intros i j a b Hij Ha Hb.
  - destruct i; discriminate.
  - destruct j as [|j]; [lia|]. simpl in Hb.
    destruct i as [|i]; simpl in Ha.
    + inversion Ha; subst. rewrite Forall_forall in Hx.
      apply Hx. eapply nth_error_In; eassumption.
    + apply (IH i j); [lia|assumption|assumption].
Qed.

Lemma nth_error_limit_offset {A : Type} (n k : Z) (l : list A) i a :
  0 <= k ->
  nth_error (Sql.limit n (Sql.offset k l)) i = Some a ->
  nth_error l (Z.to_nat k + i) = Some a.
Proof.
  intros Hk. unfold Sql.limit, Sql.offset.
  destruct (n <? 0).
  - now rewrite nth_error_skipn.
  - intros H. rewrite <- nth_error_skipn.
    destruct (Nat.lt_ge_cases i (Z.to_nat n)) as [Hlt|Hge].
    + now rewrite nth_error_firstn, (proj2 (Nat.ltb_lt _ _) Hlt) in H.
    + rewrite nth_error_firstn in H.
      destruct (Nat.ltb_spec i (Z.to_nat n)); [lia|discriminate].
Qed.

Lemma limit_incl {A : Type} (n : Z) (l : list A) a :
  In a (Sql.limit n l) -> In a l.
Proof.
  unfold Sql.limit. destruct (n <? 0); [auto|]. intros H.
  rewrite <- (firstn_skipn (Z.to_nat n) l). apply in_or_app. now left.
Qed.

Lemma offset_incl {A : Type} (k : Z) (l : list A) a :
  In a (Sql.offset k l) -> In a l.
Proof.
  unfold Sql.offset. intros H.
  rewrite <- (firstn_skipn (Z.to_nat k) l). apply in_or_app. now right.
Qed.

Lemma length_limit {A : Type} (n : Z) (l : list A) :
  0 <= n -> Z.of_nat (List.length (Sql.limit n l)) <= n.
Proof.
  intros Hn. unfold Sql.limit.
  destruct (Z.ltb_spec n 0); [lia|].
  rewrite length_firstn. lia.
Qed.

End Relational.

(** ** The window aggregation *)

Section Aggregation.

Lemma coalesce_sum_float (l : list Q) :
  Sql.coalesce (Sql.sum_float l) 0%Q = Sql.Qsum l.
Proof. destruct l; reflexivity. Qed.

Lemma Qsum_map_le {A : Type} (f h : A -> Q) (g : list A) :
  (forall r, In r g -> (f r <= h r)%Q) ->
  (Sql.Qsum (map f g) <= Sql.Qsum (map h g))%Q.
Proof.
  induction g as [|r g IH]; intros H; simpl.
  - apply Qle_refl.
  - apply Qplus_le_compat.
    + apply H. now left.
    + apply IH. intros r' Hr'. apply H. now right.
Qed.

Lemma Qsum_map_plus {A : Type} (f h k : A -> Q) (g : list A) :
  (forall r, In r g -> (f r == h r + k r)%Q) ->
  (Sql.Qsum (map f g) == Sql.Qsum (map h g) + Sql.Qsum (map k g))%Q.
Proof.
  induction g as [|r g IH]; intros H; simpl.
  - reflexivity.
  - rewrite (H r) by now left.
    rewrite IH by (intros r' Hr'; apply H; now right).
    ring.
Qed.

Lemma Zsum_map_le {A : Type} (f h : A -> Z) (g : list A) :
  (forall r, In r g -> f r <= h r) ->
  Sql.Zsum (map f g) <= Sql.Zsum (map h g).
Proof.
  induction g as [|r g IH]; intros H; simpl.
  - lia.
  - pose proof (H r (or_introl eq_refl)).
    assert (Sql.Zsum (map f g) <= Sql.Zsum (map h g))
      by (apply IH; intros r' Hr'; apply H; now right).
    lia.
Qed.

Lemma Zsum_ones {A : Type} (g : list A) :
  Sql.Zsum (map (fun _ => 1) g) = Sql.count g.
Proof.
  unfold Sql.count. induction g as [|r g IH].
  - reflexivity.
  - cbn [map Sql.Zsum List.length]. rewrite IH, Nat2Z.inj_succ. lia.
Qed.

Variable col : UsageRecord.t -> Q.
Variable g : list UsageRecord.t.

(** A later lower bound selects less of a non-negative column. *)
Lemma sum_since_mono (lo lo' : Z) :
  lo' <= lo ->
  (forall r, In r g -> (0 <= col r)%Q) ->
  (sum_since lo col g <= sum_since lo' col g)%Q.
Proof.
  intros Hlo Hpos. unfold sum_since. rewrite !coalesce_sum_float.
  apply Qsum_map_le. intros r Hr. unfold Sql.case.
  destruct (Z.leb_spec lo (UsageRecord.start_time r)),
           (Z.leb_spec lo' (UsageRecord.start_time r));
    try apply Qle_refl; try lia. apply Hpos. exact Hr.
Qed.

Lemma sum_since_le_all (lo : Z) :
  (forall r, In r g -> (0 <= col r)%Q) ->
  (sum_since lo col g <= sum_all col g)%Q.
Proof.
  intros Hpos. unfold sum_since, sum_all. rewrite !coalesce_sum_float.
  apply Qsum_map_le. intros r Hr. unfold Sql.case.
  destruct (lo <=? UsageRecord.start_time r); [apply Qle_refl | auto].
Qed.

Lemma sessions_since_some (lo : Z) :
  g <> [] ->
  sessions_since lo g
  = Some (Sql.Zsum
            (map (fun r => Sql.case (lo <=? UsageRecord.start_time r) 1 0) g)).
Proof.
  unfold sessions_since, Sql.sum_int. destruct g; [congruence|reflexivity].
Qed.

Lemma sessions_since_mono (lo lo' : Z) s s' :
  lo' <= lo ->
  sessions_since lo g = Some s -> sessions_since lo' g = Some s' ->
  s <= s'.
Proof.
  intros Hlo Hs Hs'.
  assert (Hg : g <> []) by (intros E; rewrite E in Hs; discriminate).
  rewrite (sessions_since_some lo Hg) in Hs.
  rewrite (sessions_since_some lo' Hg) in Hs'.
  injection Hs as <-. injection Hs' as <-.
  apply Zsum_map_le. intros r _. unfold Sql.case.
  destruct (Z.leb_spec lo (UsageRecord.start_time r)),
           (Z.leb_spec lo' (UsageRecord.start_time r)); lia.
Qed.

Lemma sessions_since_le_count (lo : Z) s :
  sessions_since lo g = Some s -> s <= Sql.count g.
Proof.
  intros Hs.
  assert (Hg : g <> []) by (intros E; rewrite E in Hs; discriminate).
  rewrite (sessions_since_some lo Hg) in Hs.
  injection Hs as <-. rewrite <- Zsum_ones.
  apply Zsum_map_le. intros r _. unfold Sql.case.
  destruct (lo <=? UsageRecord.start_time r); lia.
Qed.

End Aggregation.

Section StoredInvariant.

Variable g : list UsageRecord.t.
Hypothesis stored :
  forall r, In r g ->
    (UsageRecord.total_kb r
     == UsageRecord.upload_kb r + UsageRecord.download_kb r)%Q.

Lemma sum_since_total (lo : Z) :
  (sum_since lo UsageRecord.total_kb g
   == sum_since lo UsageRecord.upload_kb g
      + sum_since lo UsageRecord.download_kb g)%Q.
Proof.
  unfold sum_since. rewrite !coalesce_sum_float.
  apply Qsum_map_plus. intros r Hr. unfold Sql.case.
  destruct (lo <=? UsageRecord.start_time r); [auto|ring].
Qed.

Lemma sum_all_total :
  (sum_all UsageRecord.total_kb g
   == sum_all UsageRecord.upload_kb g + sum_all UsageRecord.download_kb g)%Q.
Proof.
  unfold sum_all. rewrite !coalesce_sum_float.
  apply Qsum_map_plus. exact stored.
Qed.

End StoredInvariant.

(** ** Whole amounts *)

Section WholeAmounts.

Lemma whole_0 : whole 0.
Proof. exists 0. reflexivity. Qed.

Lemma whole_plus (a b : Q) : whole a -> whole b -> whole (a + b).
Proof.
  intros [x Hx] [y Hy]. exists (x + y).
  rewrite Hx, Hy. unfold Qeq, Qplus, inject_Z. cbn [Qnum Qden]. lia.
Qed.

Lemma Qsum_whole (l : list Q) :
  (forall x, In x l -> whole x) -> whole (Sql.Qsum l).
Proof.
  induction l as [|x l IH]; intros H; cbn [Sql.Qsum].
  - exact whole_0.
  - apply whole_plus; [apply H; now left|].
    apply IH. intros y Hy. apply H. now right.
Qed.

Lemma sum_since_whole (lo : Z) (col : UsageRecord.t -> Q)
  (g : list UsageRecord.t) :
  (forall r, In r g -> whole (col r)) -> whole (sum_since lo col g).
Proof.
  intros H. unfold sum_since. rewrite coalesce_sum_float.
  apply Qsum_whole. intros x Hx. apply in_map_iff in Hx.
  destruct Hx as (r & <- & Hr). unfold Sql.case.
  destruct (lo <=? UsageRecord.start_time r); [now apply H|exact whole_0].
Qed.

Lemma sum_all_whole (col : UsageRecord.t -> Q) (g : list UsageRecord.t) :
  (forall r, In r g -> whole (col r)) -> whole (sum_all col g).
Proof.
  intros H. unfold sum_all. rewrite coalesce_sum_float.
  apply Qsum_whole. intros x Hx. apply in_map_iff in Hx.
  destruct Hx as (r & <- & Hr). now apply H.
Qed.

Lemma py_round2_inject_Z (k : Z) : (py_round2 (inject_Z k) == inject_Z k)%Q.
Proof.
  unfold py_round2, round_half_even, Qeq, Qmult, inject_Z.
  cbn [Qnum Qden Pos.mul].
  rewrite Z.mod_1_r, Z.div_1_r. cbn [Z.mul Z.compare]. lia.
Qed.

(** Rounding to two decimals leaves a whole amount as it is. *)
Lemma py_round2_whole (q : Q) : whole q -> (py_round2 q == q)%Q.
Proof.
  intros [k Hk]. rewrite (py_round2_compat _ _ Hk), Hk.
  apply py_round2_inject_Z.
Qed.

(** Whole summands: the rounded sum is the sum of the rounded summands. *)
Lemma py_round2_whole_sum (t u d : Q) :
  (t == u + d)%Q -> whole u -> whole d ->
  (py_round2 t == py_round2 u + py_round2 d)%Q.
Proof.
  intros Ht Hu Hd. rewrite (py_round2_compat _ _ Ht).
  rewrite (py_round2_whole _ (whole_plus _ _ Hu Hd)).
  rewrite (py_round2_whole _ Hu), (py_round2_whole _ Hd). reflexivity.
Qed.

End WholeAmounts.

(** ** From rows to responses *)

Section Rows.

Lemma row_to_usage_periods_inv (row : Row.t) (p : Periods.t) :
  _row_to_usage_periods row = Ok p ->
  exists s1 s7,
    Row.sessions_1d row = Some s1 /\ Row.sessions_7d row = Some s7
    /\ p = {| Periods.usage_1_day :=
                {| UsagePeriod.upload_kb := py_round2 (Row.upload_1d row);
                   UsagePeriod.download_kb := py_round2 (Row.download_1d row);
                   UsagePeriod.total_kb := py_round2 (Row.total_1d row);
                   UsagePeriod.sessions := s1 |};
              Periods.usage_7_days :=
                {| UsagePeriod.upload_kb := py_round2 (Row.upload_7d row);
                   UsagePeriod.download_kb := py_round2 (Row.download_7d row);
                   UsagePeriod.total_kb := py_round2 (Row.total_7d row);
                   UsagePeriod.sessions := s7 |};
              Periods.usage_30_days :=
                {| UsagePeriod.upload_kb := py_round2 (Row.upload_30d row);
                   UsagePeriod.download_kb := py_round2 (Row.download_30d row);
                   UsagePeriod.total_kb := py_round2 (Row.total_30d row);
                   UsagePeriod.sessions := Row.sessions_30d row |} |}.
Proof.
  unfold _row_to_usage_periods.
  destruct (Row.sessions_1d row) as [s1|]; [|discriminate].
  destruct (Row.sessions_7d row) as [s7|]; [|discriminate].
  cbn. intros H. injection H as <-. now exists s1, s7.
Qed.

(** A row aggregated from a non-empty group converts without error. *)
Lemma row_to_usage_periods_total (ref : Z) (u : string)
  (g : list UsageRecord.t) :
  g <> [] ->
  exists p,
    _row_to_usage_periods
      (aggregate_group (snd (_build_usage_aggregation ref)) (u, g)) = Ok p.
Proof.
  intros Hg. unfold _row_to_usage_periods. cbn.
  rewrite !sessions_since_some by exact Hg. cbn. eauto.
Qed.

Lemma in_select_grouped (agg : Agg.t) (rows : list UsageRecord.t) row :
  In row (select_grouped agg rows) ->
  exists u g,
    In (u, g) (Sql.group_by_username rows) /\ row = aggregate_group agg (u, g).
Proof.
  unfold select_grouped. rewrite in_map_iff.
  intros ([u g] & E & Hin). eauto.
Qed.

(** Every ranked row aggregates a non-empty group of window records of one
    user. *)
Lemma ranked_rows_groups (db : Session) (ref : Z) row :
  In row (ranked_rows db ref) ->
  exists u g,
    g <> []
    /\ (forall r, In r g ->
          In r db /\ UsageRecord.username r = u
          /\ in_window (ref - timedelta_days 30) ref r = true)
    /\ row = aggregate_group (snd (_build_usage_aggregation ref)) (u, g).
Proof.
  unfold ranked_rows. cbn. intros Hin.
  apply (Permutation_in _ (Permutation_sym (order_by_total_30d_desc_perm _)))
    in Hin.
  apply in_select_grouped in Hin. destruct Hin as (u & g & Hg & ->).
  exists u, g. split; [eapply group_nonempty; eassumption|].
  split; [|reflexivity].
  intros r Hr. destruct (group_members _ _ _ _ Hg Hr) as [Hf Hu].
  apply filter_In in Hf. tauto.
Qed.

Lemma length_ranked_rows (db : Session) (ref : Z) :
  Z.of_nat (List.length (ranked_rows db ref)) = count_users db ref.
Proof.
  unfold ranked_rows, count_users. cbn.
  rewrite <- (Permutation_length (order_by_total_30d_desc_perm _)).
  unfold select_grouped. rewrite length_map.
  apply length_group_by_username.
Qed.

Lemma ranked_rows_sorted (db : Session) (ref : Z) :
  StronglySorted total_30d_ge (ranked_rows db ref).
Proof.
  unfold ranked_rows. cbn. apply order_by_total_30d_desc_sorted.
Qed.

Lemma build_entries_inv (offset : Z) (results : list Row.t) :
  forall idx data,
    build_entries offset idx results = Ok data ->
    List.length data = List.length results
    /\ forall i e, nth_error data i = Some e ->
         exists row p,
           nth_error results i = Some row
           /\ _row_to_usage_periods row = Ok p
           /\ e = entry_of (offset + (idx + Z.of_nat i) + 1) row p.
Proof.
  induction results as [|row rest IH]; intros idx data; cbn [build_entries].
  - intros H. injection H as <-. split; [reflexivity|].
    intros [|i] e; discriminate.
  - destruct (_row_to_usage_periods row) as [p|] eqn:Hp; [|discriminate].
    cbn [bind].
    destruct (build_entries offset (idx + 1) rest) as [data'|] eqn:Hd;
      [|discriminate].
    cbn [bind]. intros H. injection H as <-.
    destruct (IH _ _ Hd) as [Hlen Hnth].
    split; [simpl; now rewrite Hlen|].
    intros [|i] e He; simpl in He.
    + injection He as <-. exists row, p. repeat split; try assumption.
      unfold entry_of. do 2 f_equal. lia.
    + destruct (Hnth i e He) as (row' & p' & Hr & Hp' & ->).
      exists row', p'. repeat split; try assumption.
      unfold entry_of. do 2 f_equal. lia.
Qed.

Lemma build_entries_total (offset : Z) (results : list Row.t) :
  (forall row, In row results -> exists p, _row_to_usage_periods row = Ok p) ->
  forall idx, exists data, build_entries offset idx results = Ok data.
Proof.
  induction results as [|row rest IH]; intros H idx; cbn [build_entries].
  - eauto.
  - destruct (H row (or_introl eq_refl)) as [p ->]. cbn [bind].
    destruct (IH (fun r Hr => H r (or_intror Hr)) (idx + 1)) as [data ->].
    cbn [bind]. eauto.
Qed.

Lemma page_rows_convert (db : Session) (ref per_page offset : Z) row :
  In row (Sql.limit per_page (Sql.offset offset (ranked_rows db ref))) ->
  exists p, _row_to_usage_periods row = Ok p.
Proof.
  intros Hin. apply limit_incl, offset_incl, ranked_rows_groups in Hin.
  destruct Hin as (u & g & Hg & _ & ->).
  now apply row_to_usage_periods_total.
Qed.

(** What a successful call returns. *)
Lemma get_top_users_inv (db : Session) (ref page per_page : Z) resp :
  get_top_users db ref page per_page = Ok resp ->
  TopUsersResponse.page resp = page
  /\ TopUsersResponse.per_page resp = per_page
  /\ TopUsersResponse.total_users resp = count_users db ref
  /\ TopUsersResponse.reference_date resp = ref
  /\ (if 0 <? count_users db ref
      then math_ceil_div (count_users db ref) per_page
      else Ok 0) = Ok (TopUsersResponse.total_pages resp)
  /\ build_entries ((page - 1) * per_page) 0
       (Sql.limit per_page
          (Sql.offset ((page - 1) * per_page) (ranked_rows db ref)))
     = Ok (TopUsersResponse.data resp).
Proof.
  unfold get_top_users.
  destruct (if 0 <? count_users db ref
            then math_ceil_div (count_users db ref) per_page
            else Ok 0) as [tp|]; [|discriminate].
  cbn [bind].
  destruct (build_entries _ 0 _) as [data|]; [|discriminate].
  cbn [bind]. intros H. injection H as <-. cbn. tauto.
Qed.

(** With a non-zero page size the call returns a response. *)
Lemma get_top_users_total (db : Session) (ref page per_page : Z) :
  per_page <> 0 ->
  exists resp, get_top_users db ref page per_page = Ok resp.
Proof.
  intros Hn. unfold get_top_users, math_ceil_div.
  destruct (Z.eqb_spec per_page 0) as [|_]; [contradiction|].
  destruct (build_entries_total ((page - 1) * per_page)
              (Sql.limit per_page
                 (Sql.offset ((page - 1) * per_page) (ranked_rows db ref)))
              (page_rows_convert db ref per_page _) 0) as [data Hd].
  destruct (0 <? count_users db ref); cbn [bind]; rewrite Hd; cbn [bind];
    eauto.
Qed.

(** The entries of a page, tied to the ranked listing. *)
Lemma get_top_users_entry (db : Session) (ref page per_page : Z) resp i e :
  1 <= page -> 0 <= per_page ->
  get_top_users db ref page per_page = Ok resp ->
  nth_error (TopUsersResponse.data resp) i = Some e ->
  exists row p,
    nth_error (ranked_rows db ref) (Z.to_nat ((page - 1) * per_page) + i)
    = Some row
    /\ _row_to_usage_periods row = Ok p
    /\ e = entry_of ((page - 1) * per_page + Z.of_nat i + 1) row p.
Proof.
  intros Hp Hn Hget He.
  destruct (get_top_users_inv _ _ _ _ _ Hget) as (_ & _ & _ & _ & _ & Hb).
  destruct (build_entries_inv _ _ _ _ Hb) as [_ Hnth].
  destruct (Hnth i e He) as (row & p & Hr & Hper & ->).
  exists row, p. repeat split; try assumption.
  apply nth_error_limit_offset in Hr; [assumption|nia].
Qed.

Lemma get_top_users_member (db : Session) (ref page per_page : Z) resp e :
  get_top_users db ref page per_page = Ok resp ->
  In e (TopUsersResponse.data resp) ->
  exists row p rank,
    In row (ranked_rows db ref)
    /\ _row_to_usage_periods row = Ok p
    /\ e = entry_of rank row p.
Proof.
  intros Hget He.
  destruct (get_top_users_inv _ _ _ _ _ Hget) as (_ & _ & _ & _ & _ & Hb).
  destruct (build_entries_inv _ _ _ _ Hb) as [_ Hnth].
  apply In_nth_error in He. destruct He as [i He].
  destruct (Hnth i e He) as (row & p & Hr & Hper & ->).
  exists row, p, ((page - 1) * per_page + (0 + Z.of_nat i) + 1).
  repeat split; try assumption.
  eapply offset_incl, limit_incl, nth_error_In. eassumption.
Qed.

End Rows.

(** ** The three windows of one user *)

Section Windows.

Variable ref : Z.
Variable u : string.
Variable g : list UsageRecord.t.
Variable p : Periods.t.
Hypothesis converted :
  _row_to_usage_periods
    (aggregate_group (snd (_build_usage_aggregation ref)) (u, g)) = Ok p.

Lemma periods_sessions_nested : sessions_nested p.
Proof.
  destruct (row_to_usage_periods_inv _ _ converted) as (s1 & s7 & H1 & H7 & ->).
  cbn in H1, H7. unfold sessions_nested. cbn.
  split.
  - eapply (sessions_since_mono g); [|exact H1|exact H7].
    unfold timedelta_days, microseconds_per_day. lia.
  - eapply sessions_since_le_count. exact H7.
Qed.

Lemma periods_total_kb_nested :
  (forall r, In r g -> (0 <= UsageRecord.total_kb r)%Q) ->
  total_kb_nested p.
Proof.
  intros Hpos.
  destruct (row_to_usage_periods_inv _ _ converted) as (s1 & s7 & _ & _ & ->).
  unfold total_kb_nested. cbn. split; apply py_round2_mono.
  - apply sum_since_mono; [|exact Hpos].
    unfold timedelta_days, microseconds_per_day. lia.
  - apply sum_since_le_all. exact Hpos.
Qed.

Lemma periods_sum_decomposed :
  (forall r, In r g ->
     (UsageRecord.total_kb r
      == UsageRecord.upload_kb r + UsageRecord.download_kb r)%Q) ->
  (forall r, In r g -> whole_kb r) ->
  forall q, In q (periods_list p) -> sum_decomposition q.
Proof.
  intros Hst Hw.
  assert (Hu : forall r, In r g -> whole (UsageRecord.upload_kb r))
    by (intros r Hr; exact (proj1 (Hw r Hr))).
  assert (Hd : forall r, In r g -> whole (UsageRecord.download_kb r))
    by (intros r Hr; exact (proj2 (Hw r Hr))).
  destruct (row_to_usage_periods_inv _ _ converted) as (s1 & s7 & _ & _ & ->).
  unfold periods_list. cbn [Periods.usage_1_day Periods.usage_7_days
                              Periods.usage_30_days].
  intros q [<-|[<-|[<-|[]]]]; unfold sum_decomposition;
    cbn [UsagePeriod.upload_kb UsagePeriod.download_kb UsagePeriod.total_kb
         Row.upload_1d Row.download_1d Row.total_1d
         Row.upload_7d Row.download_7d Row.total_7d
         Row.upload_30d Row.download_30d Row.total_30d
         aggregate_group snd fst _build_usage_aggregation
         Agg.upload_1d Agg.download_1d Agg.total_1d
         Agg.upload_7d Agg.download_7d Agg.total_7d
         Agg.upload_30d Agg.download_30d Agg.total_30d].
  - apply py_round2_whole_sum;
      [apply (sum_since_total g Hst) | now apply sum_since_whole
       | now apply sum_since_whole].
  - apply py_round2_whole_sum;
      [apply (sum_since_total g Hst) | now apply sum_since_whole
       | now apply sum_since_whole].
  - apply py_round2_whole_sum;
      [apply (sum_all_total g Hst) | now apply sum_all_whole
       | now apply sum_all_whole].
Qed.

End Windows.

(** ** The single-user query *)

Section Details.

Variable db : Session.
Variable username : string.
Variable timestamp : Z.

Lemma first_none_nil {A : Type} (l : list A) :
  Sql.first l = None -> l = [].
Proof. destruct l; [reflexivity|discriminate]. Qed.

Lemma first_filter_none {A : Type} (f : A -> bool) (l : list A) :
  Sql.first (filter f l) = None <-> forall a, In a l -> f a = false.
Proof.
  induction l as [|x l IH]; simpl.
  - split; [intros _ a []|reflexivity].
  - destruct (f x) eqn:E; simpl.
    + split; [discriminate|].
      intros H. specialize (H x (or_introl eq_refl)). congruence.
    + rewrite IH. split.
      * intros H a [<-|Ha]; auto.
      * intros H a Ha. apply H. now right.
Qed.

Lemma first_select_grouped_none (agg : Agg.t) (rows : list UsageRecord.t) :
  Sql.first (select_grouped agg rows) = None <-> rows = [].
Proof.
  unfold select_grouped, Sql.group_by_username. split.
  - destruct rows as [|r rows]; [reflexivity|]. intros H.
    assert (Hin : In (UsageRecord.username r)
                    (nodup string_dec
                       (map UsageRecord.username (r :: rows))))
      by (apply nodup_In; now left).
    destruct (nodup string_dec (map UsageRecord.username (r :: rows)));
      [destruct Hin | discriminate].
  - intros ->. reflexivity.
Qed.

(** Over unbounded instants the query never raises. *)
Lemma get_user_details_total :
  exists o, get_user_details db username timestamp = Ok o.
Proof.
  unfold get_user_details.
  destruct (Sql.first (filter _ db)); [|eauto]. cbn.
  match goal with
  | |- context [Sql.first (select_grouped ?agg ?rows)] =>
      destruct (Sql.first (select_grouped agg rows)) as [row|] eqn:E
  end; [|eauto].
  assert (Hin : In row (select_grouped
                          (snd (_build_usage_aggregation timestamp))
                          (filter
                             (fun r =>
                                (UsageRecord.username r =? username)%string
                                && in_window (timestamp - timedelta_days 30)
                                     timestamp r) db))).
  { cbn. destruct (select_grouped _ _) as [|x l]; [discriminate|].
    injection E as ->. now left. }
  apply in_select_grouped in Hin. destruct Hin as (u & g & Hg & ->).
  destruct (row_to_usage_periods_total timestamp u g
              (group_nonempty _ _ _ Hg)) as [p Hp].
  cbn in Hp |- *. rewrite Hp. cbn. eauto.
Qed.

(** A found user: no window record and zero periods, or the periods of
    the user's window records. *)
Lemma get_user_details_inv (d : UserDetailsResponse.t) :
  get_user_details db username timestamp = Ok (Some d) ->
  d = empty_details username timestamp
  \/ exists u g,
       (forall r, In r g -> In r db)
       /\ _row_to_usage_periods
            (aggregate_group (snd (_build_usage_aggregation timestamp))
               (u, g)) = Ok (details_periods d).
Proof.
  unfold get_user_details.
  destruct (Sql.first (filter _ db)); [|discriminate]. cbn.
  match goal with
  | |- context [Sql.first (select_grouped ?agg ?rows)] =>
      destruct (Sql.first (select_grouped agg rows)) as [row|] eqn:E
  end.
  - assert (Hin : In row (select_grouped
                            (snd (_build_usage_aggregation timestamp))
                            (filter
                               (fun r =>
                                  (UsageRecord.username r =? username)%string
                                  && in_window
                                       (timestamp - timedelta_days 30)
                                       timestamp r) db))).
    { cbn. destruct (select_grouped _ _) as [|x l]; [discriminate|].
      injection E as ->. now left. }
    apply in_select_grouped in Hin. destruct Hin as (u & g & Hg & ->).
    destruct (_row_to_usage_periods _) as [p|] eqn:Hp; [|discriminate].
    cbn. intros H. injection H as <-. right. exists u, g. split.
    + intros r Hr. destruct (group_members _ _ _ _ Hg Hr) as [Hf _].
      apply filter_In in Hf. tauto.
    + cbn in Hp |- *. rewrite Hp. now destruct p.
  - intros H. injection H as <-. now left.
Qed.

End Details.

(** ** The ranges of the runtime *)

Section Ranges.

(** The two ends of the range of [datetime], as calendar dates. *)
Lemma datetime_range_ends :
  datetime_min = datetime 1 1 1 0 0 0
  /\ datetime_max = datetime 9999 12 31 23 59 59 + 999999.
Proof. split; vm_compute; reflexivity. Qed.

Lemma datetime_sub_days_ok (d n : Z) :
  datetime_min <= d - timedelta_days n <= datetime_max ->
  datetime_sub_days d n = Ok (d - timedelta_days n).
Proof.
  intros [H1 H2]. unfold datetime_sub_days. cbv zeta.
  destruct (Z.leb_spec datetime_min (d - timedelta_days n)); [|lia].
  destruct (Z.leb_spec (d - timedelta_days n) datetime_max); [|lia].
  reflexivity.
Qed.

Lemma datetime_sub_days_inv (d n r : Z) :
  datetime_sub_days d n = Ok r ->
  r = d - timedelta_days n /\ datetime_min <= r <= datetime_max.
Proof.
  unfold datetime_sub_days. cbv zeta.
  destruct (Z.leb_spec datetime_min (d - timedelta_days n));
    [|discriminate].
  destruct (Z.leb_spec (d - timedelta_days n) datetime_max);
    [|discriminate].
  cbn [andb]. intros E. injection E as <-. lia.
Qed.

Lemma datetime_sub_days_raises (d n : Z) (e : exn) :
  datetime_sub_days d n = Raise e -> e = OverflowError.
Proof.
  unfold datetime_sub_days. cbv zeta.
  destruct (_ && _); [discriminate|]. intros H. now injection H as <-.
Qed.

Lemma sqlite_integer_ok (k : Z) :
  - 2 ^ 63 <= k < 2 ^ 63 -> sqlite_integer k = Ok k.
Proof.
  intros [H1 H2]. unfold sqlite_integer.
  destruct (Z.leb_spec (- 2 ^ 63) k); [|lia].
  destruct (Z.ltb_spec k (2 ^ 63)); [|lia].
  reflexivity.
Qed.

Lemma sqlite_integer_inv (k k' : Z) :
  sqlite_integer k = Ok k' -> k' = k /\ - 2 ^ 63 <= k < 2 ^ 63.
Proof.
  unfold sqlite_integer.
  destruct (Z.leb_spec (- 2 ^ 63) k); [|discriminate].
  destruct (Z.ltb_spec k (2 ^ 63)); [|discriminate].
  cbn [andb]. intros E. injection E as <-. lia.
Qed.

Lemma sqlite_integer_raises (k : Z) (e : exn) :
  sqlite_integer k = Raise e -> e = OverflowError.
Proof.
  unfold sqlite_integer.
  destruct (_ && _); [discriminate|]. intros H. now injection H as <-.
Qed.

Lemma sqlite_integer_overflow (k : Z) :
  k < - 2 ^ 63 \/ 2 ^ 63 <= k -> sqlite_integer k = Raise OverflowError.
Proof.
  intros H. unfold sqlite_integer.
  destruct (Z.leb_spec (- 2 ^ 63) k), (Z.ltb_spec k (2 ^ 63));
    try reflexivity; lia.
Qed.

Lemma timedelta_days_order :
  0 < timedelta_days 1 /\ timedelta_days 1 < timedelta_days 7
  /\ timedelta_days 7 < timedelta_days 30.
Proof. unfold timedelta_days, microseconds_per_day. lia. Qed.

(** From 30 days after [datetime.min] on, the three window bounds exist and
    are those of the unbounded aggregation. *)
Lemma bounded_build_ok (R : Z) :
  datetime_min + timedelta_days 30 <= R <= datetime_max ->
  Bounded._build_usage_aggregation R = Ok (_build_usage_aggregation R).
Proof.
  intros HR. pose proof timedelta_days_order as Hd.
  unfold datetime_min in HR.
  unfold Bounded._build_usage_aggregation.
  rewrite (datetime_sub_days_ok R 1) by (unfold datetime_min; lia).
  rewrite (datetime_sub_days_ok R 7) by (unfold datetime_min; lia).
  rewrite (datetime_sub_days_ok R 30) by (unfold datetime_min; lia).
  reflexivity.
Qed.

Lemma bounded_build_inv (R : Z) (built : Z * Agg.t) :
  Bounded._build_usage_aggregation R = Ok built ->
  built = _build_usage_aggregation R
  /\ datetime_min + timedelta_days 30 <= R.
Proof.
  unfold Bounded._build_usage_aggregation.
  destruct (datetime_sub_days R 1) as [d1|] eqn:E1; [|discriminate].
  destruct (datetime_sub_days R 7) as [d7|] eqn:E7; [|discriminate].
  destruct (datetime_sub_days R 30) as [d30|] eqn:E30; [|discriminate].
  cbn [bind]. intros H. injection H as <-.
  destruct (datetime_sub_days_inv _ _ _ E1) as [-> _].
  destruct (datetime_sub_days_inv _ _ _ E7) as [-> _].
  destruct (datetime_sub_days_inv _ _ _ E30) as [-> H30].
  split; [reflexivity|lia].
Qed.

Lemma bounded_build_raises (R : Z) (e : exn) :
  Bounded._build_usage_aggregation R = Raise e -> e = OverflowError.
Proof.
  unfold Bounded._build_usage_aggregation.
  destruct (datetime_sub_days R 1) as [d1|e1] eqn:E1; cbn [bind].
  - destruct (datetime_sub_days R 7) as [d7|e7] eqn:E7; cbn [bind].
    + destruct (datetime_sub_days R 30) as [d30|e30] eqn:E30; cbn [bind].
      * discriminate.
      * intros H. injection H as <-.
        exact (datetime_sub_days_raises _ _ _ E30).
    + intros H. injection H as <-.
      exact (datetime_sub_days_raises _ _ _ E7).
  - intros H. injection H as <-.
    exact (datetime_sub_days_raises _ _ _ E1).
Qed.

(** Less than 30 days after [datetime.min] the date arithmetic raises. *)
Lemma bounded_build_overflow (R : Z) :
  R < datetime_min + timedelta_days 30 ->
  Bounded._build_usage_aggregation R = Raise OverflowError.
Proof.
  intros HR.
  destruct (Bounded._build_usage_aggregation R) as [built|e] eqn:E.
  - destruct (bounded_build_inv _ _ E) as [_ H]. lia.
  - now rewrite (bounded_build_raises _ _ E).
Qed.

(** Inside the ranges the bounded query is the unbounded one. *)
Lemma bounded_get_top_users_eq (db : Session) (R page per_page : Z) :
  datetime_min + timedelta_days 30 <= R <= datetime_max ->
  - 2 ^ 63 <= per_page < 2 ^ 63 ->
  - 2 ^ 63 <= (page - 1) * per_page < 2 ^ 63 ->
  Bounded.get_top_users db R page per_page = get_top_users db R page per_page.
Proof.
  intros HR Hn Hoff. unfold Bounded.get_top_users.
  rewrite (bounded_build_ok R HR). cbn [bind].
  rewrite (sqlite_integer_ok _ Hn), (sqlite_integer_ok _ Hoff).
  unfold get_top_users, count_users, ranked_rows.
  cbv beta iota zeta delta [_build_usage_aggregation].
  destruct (if 0 <? _ then _ else _); reflexivity.
Qed.

(** Whatever the bounded query returns, the unbounded one returns, and
    the call was inside the ranges. *)
Lemma bounded_get_top_users_ok (db : Session) (R page per_page : Z)
  (resp : TopUsersResponse.t) :
  Bounded.get_top_users db R page per_page = Ok resp ->
  get_top_users db R page per_page = Ok resp
  /\ datetime_min + timedelta_days 30 <= R
  /\ - 2 ^ 63 <= per_page < 2 ^ 63
  /\ - 2 ^ 63 <= (page - 1) * per_page < 2 ^ 63.
Proof.
  unfold Bounded.get_top_users.
  destruct (Bounded._build_usage_aggregation R) as [built|] eqn:Eb;
    [|discriminate].
  destruct (bounded_build_inv _ _ Eb) as [-> HR]. cbn [bind].
  cbv beta iota zeta delta [_build_usage_aggregation].
  unfold get_top_users, count_users, ranked_rows.
  cbv beta iota zeta delta [_build_usage_aggregation].
  destruct (if 0 <? _ then _ else _) as [tp|]; [|discriminate].
  cbn [bind].
  destruct (sqlite_integer per_page) as [l|] eqn:El; [|discriminate].
  destruct (sqlite_integer ((page - 1) * per_page)) as [o|] eqn:Eo;
    [|discriminate].
  destruct (sqlite_integer_inv _ _ El) as [-> Hn].
  destruct (sqlite_integer_inv _ _ Eo) as [-> Hoff].
  cbn [bind]. intros H. split; [exact H|]. split; [exact HR|].
  split; assumption.
Qed.

(** The bounded query raises nothing but [ZeroDivisionError] and
    [OverflowError]. *)
Lemma bounded_get_top_users_in_range (db : Session) (R page per_page : Z) :
  datetime_min + timedelta_days 30 <= R <= datetime_max ->
  per_page <> 0 ->
  - 2 ^ 63 <= per_page < 2 ^ 63 ->
  - 2 ^ 63 <= (page - 1) * per_page < 2 ^ 63 ->
  exists resp,
    Bounded.get_top_users db R page per_page = Ok resp
    /\ get_top_users db R page per_page = Ok resp.
Proof.
  intros HR H0 Hn Hoff.
  rewrite (bounded_get_top_users_eq db R page per_page HR Hn Hoff).
  destruct (get_top_users_total db R page per_page H0) as [resp Hget].
  exists resp. split; exact Hget.
Qed.

Lemma bounded_get_top_users_date_overflow (db : Session)
  (R page per_page : Z) :
  R < datetime_min + timedelta_days 30 ->
  Bounded.get_top_users db R page per_page = Raise OverflowError.
Proof.
  intros HR. unfold Bounded.get_top_users.
  now rewrite (bounded_build_overflow R HR).
Qed.

Lemma bounded_get_top_users_bind_overflow (db : Session)
  (R page per_page : Z) :
  datetime_min + timedelta_days 30 <= R <= datetime_max ->
  per_page <> 0 ->
  (per_page < - 2 ^ 63 \/ 2 ^ 63 <= per_page
   \/ (page - 1) * per_page < - 2 ^ 63 \/ 2 ^ 63 <= (page - 1) * per_page) ->
  Bounded.get_top_users db R page per_page = Raise OverflowError.
Proof.
  intros HR H0 Hout. unfold Bounded.get_top_users.
  rewrite (bounded_build_ok R HR). cbn [bind].
  cbv beta iota zeta delta [_build_usage_aggregation].
  unfold math_ceil_div. destruct (Z.eqb_spec per_page 0); [contradiction|].
  destruct (0 <? _); cbn [bind];
    (destruct (sqlite_integer per_page) as [l|e] eqn:El; cbn [bind];
     [ destruct (sqlite_integer_inv _ _ El) as [-> Hn];
       rewrite sqlite_integer_overflow by lia; reflexivity
     | now rewrite (sqlite_integer_raises _ _ El) ]).
Qed.

Lemma bounded_get_user_details_eq (db : Session) (u : string) (T : Z) :
  datetime_min + timedelta_days 30 <= T <= datetime_max ->
  Bounded.get_user_details db u T = get_user_details db u T.
Proof.
  intros HT. unfold Bounded.get_user_details, get_user_details.
  destruct (Sql.first (filter _ db)); [|reflexivity].
  rewrite (bounded_build_ok T HT). reflexivity.
Qed.

Lemma bounded_get_user_details_ok (db : Session) (u : string) (T : Z)
  (o : option UserDetailsResponse.t) :
  Bounded.get_user_details db u T = Ok o ->
  get_user_details db u T = Ok o.
Proof.
  unfold Bounded.get_user_details, get_user_details.
  destruct (Sql.first (filter _ db)); [|auto].
  destruct (Bounded._build_usage_aggregation T) as [built|] eqn:Eb;
    [|discriminate].
  destruct (bounded_build_inv _ _ Eb) as [-> _]. cbn [bind]. auto.
Qed.

(** Not found: decided before any date arithmetic. *)
Lemma bounded_get_user_details_none_iff (db : Session) (u : string) (T : Z) :
  Bounded.get_user_details db u T = Ok None <->
  forall r, In r db -> UsageRecord.username r <> u.
Proof.
  pose proof (first_filter_none
                (fun r => String.eqb (UsageRecord.username r) u) db) as Hnone.
  split.
  - intros H r Hr E. apply bounded_get_user_details_ok in H.
    assert (Hf : Sql.first
                   (filter (fun r => (UsageRecord.username r =? u)%string) db)
                 = None).
    { unfold get_user_details in H.
      destruct (Sql.first (filter _ db)); [|reflexivity]. cbn in H.
      destruct (Sql.first (select_grouped _ _)); [|discriminate].
      destruct (_row_to_usage_periods _); discriminate. }
    pose proof (proj1 Hnone Hf r Hr) as Hx. cbv beta in Hx.
    apply String.eqb_neq in Hx. contradiction.
  - intros H. unfold Bounded.get_user_details.
    rewrite (proj2 Hnone); [reflexivity|].
    intros r Hr. apply String.eqb_neq. now apply H.
Qed.

(** A user with records, asked about less than 30 days after
    [datetime.min]: the date arithmetic raises. *)
Lemma bounded_get_user_details_overflow (db : Session) (u : string) (T : Z) :
  (exists r, In r db /\ UsageRecord.username r = u) ->
  T < datetime_min + timedelta_days 30 ->
  Bounded.get_user_details db u T = Raise OverflowError.
Proof.
  intros (r & Hr & Hu) HT. unfold Bounded.get_user_details.
  destruct (Sql.first (filter _ db)) eqn:Hf.
  - now rewrite (bounded_build_overflow T HT).
  - pose proof (proj1 (first_filter_none _ _) Hf r Hr) as Hx.
    cbv beta in Hx. apply String.eqb_neq in Hx. contradiction.
Qed.

End Ranges.

(** ** The fixture *)

Lemma sample_records_nonneg :
  forall r, In r sample_records -> total_kb_nonneg r.
Proof.
  intros r H. unfold total_kb_nonneg.
  repeat (destruct H as [<-|H]; [vm_compute; discriminate|]).
  destruct H.
Qed.

Lemma sample_records_stored :
  forall r, In r sample_records -> stored_invariant r.
Proof.
  intros r H. unfold stored_invariant.
  repeat (destruct H as [<-|H]; [vm_compute; reflexivity|]).
  destruct H.
Qed.

Lemma sample_records_whole :
  forall r, In r sample_records -> whole_kb r.
Proof.
  intros r H. unfold whole_kb, whole.
  repeat (destruct H as [<-|H];
          [split; eexists; cbn [usage UsageRecord.upload_kb
                                  UsageRecord.download_kb]; reflexivity|]).
  destruct H.
Qed.

Lemma sample_records_binary64_exact : binary64_exact sample_records.
Proof. vm_compute. discriminate. Qed.

(** * The properties of the specification *)

(** ** Nesting of the windows *)

(** The [total_kb] sums are not nested on every store.  [ingest_data]
    refuses only amounts that are not numbers, so a store can hold a
    negative upload; with an upload of -10 two days before the reference
    instant and one of 5 at it, the 1-day total is 5.00 and the 7-day and
    30-day totals are -5.00, in the top-users entry and in the single-user
    result alike. *)
Lemma total_kb_nesting_counterexample :
  (forall r, In r negative_store -> stored_invariant r)
  /\ exists resp e d,
       get_top_users negative_store REF_DATE 1 10 = Ok resp
       /\ In e (TopUsersResponse.data resp)
       /\ ~ total_kb_nested (entry_periods e)
       /\ get_user_details negative_store "creditedUser" REF_DATE
          = Ok (Some d)
       /\ ~ total_kb_nested (details_periods d).
Proof.
  split.
  - intros r [<-|[<-|[]]]; vm_compute; reflexivity.
  - eexists. eexists. eexists.
    split; [vm_compute; reflexivity|].
    split; [left; reflexivity|].
    split; [intros [H _]; vm_compute in H; now apply H|].
    split; [vm_compute; reflexivity|].
    intros [H _]. vm_compute in H. now apply H.
Qed.

(** C1, amended.  For every user of a top-users page and for the user of a
    single-user result, at every reference instant, the session counts of
    the three windows are nested, 1-day <= 7-day <= 30-day, on every
    store; the [total_kb] sums are nested in the same way on a store none
    of whose records has a negative [total_kb]. *)
Theorem windows_nested (db : Session) (ref : Z) :
  (forall page per_page resp e,
      get_top_users db ref page per_page = Ok resp ->
      In e (TopUsersResponse.data resp) ->
      sessions_nested (entry_periods e)
      /\ ((forall r, In r db -> total_kb_nonneg r) ->
          total_kb_nested (entry_periods e)))
  /\ (forall username d,
        get_user_details db username ref = Ok (Some d) ->
        sessions_nested (details_periods d)
        /\ ((forall r, In r db -> total_kb_nonneg r) ->
            total_kb_nested (details_periods d))).
Proof.
  split.
  - intros page per_page resp e Hget He.
    destruct (get_top_users_member _ _ _ _ _ _ Hget He)
      as (row & p & rank & Hrow & Hp & ->).
    apply ranked_rows_groups in Hrow.
    destruct Hrow as (u & g & _ & Hg & ->).
    replace (entry_periods (entry_of rank _ p)) with p by now destruct p.
    split.
    + eapply periods_sessions_nested; eassumption.
    + intros Hpos. eapply periods_total_kb_nested; [eassumption|].
      intros r Hr. apply Hpos. now apply Hg.
  - intros username d Hget.
    destruct (get_user_details_inv _ _ _ _ Hget) as [->|(u & g & Hg & Hp)].
    + split; [|intros _]; split; cbn; try lia; apply Qle_refl.
    + split.
      * eapply periods_sessions_nested; eassumption.
      * intros Hpos. eapply periods_total_kb_nested; [eassumption|].
        intros r Hr. apply Hpos. now apply Hg.
Qed.

Lemma windows_nested_witness :
  exists resp e,
    get_top_users sample_records REF_DATE 1 10 = Ok resp
    /\ hd_error (TopUsersResponse.data resp) = Some e
    /\ sessions_nested (entry_periods e)
    /\ total_kb_nested (entry_periods e).
Proof.
  eexists. eexists. split; [vm_compute; reflexivity|].
  split; [reflexivity|].
  destruct (windows_nested sample_records REF_DATE) as [H _].
  edestruct (H 1 10) as [Hs Ht];
    [vm_compute; reflexivity | left; reflexivity |].
  split; [exact Hs | apply Ht, sample_records_nonneg].
Defined.

(** ** Not found against found without activity *)

(** The found-without-activity answer is not given at every timestamp.  In
    the first 30 days of the calendar the date arithmetic leaves the range
    of [datetime]: [heavyUser1] has records, none of them in the 30 days
    before 0001-01-15, and the query raises [OverflowError]. *)
Lemma user_details_overflow_counterexample :
  (exists r, In r sample_records
             /\ UsageRecord.username r = "heavyUser1"%string)
  /\ (forall r, In r sample_records ->
        ~ (datetime 1 1 15 0 0 0 - timedelta_days 30
           <= UsageRecord.start_time r <= datetime 1 1 15 0 0 0))
  /\ datetime_min <= datetime 1 1 15 0 0 0 <= datetime_max
  /\ Bounded.get_user_details sample_records "heavyUser1"
       (datetime 1 1 15 0 0 0)
     = Raise OverflowError.
Proof.
  split; [eexists; split; [left; reflexivity|reflexivity]|].
  split.
  - intros r H.
    repeat (destruct H as [<-|H]; [vm_compute; intros [_ H]; now apply H|]).
    destruct H.
  - split; [vm_compute; split; discriminate|]. vm_compute. reflexivity.
Qed.

(** C3, amended.  The single-user query answers not-found ([None]) exactly
    when no record of the store carries that exact username, whatever the
    timestamp.  For a timestamp [T] at least 30 days after [datetime.min]
    it never raises, and when some record carries the username but none of
    them starts inside the 30-day window ending at [T], it answers a found
    result whose three UsagePeriods are zero in every field.  For a user
    with records and an earlier [T] it raises [OverflowError]. *)
Theorem user_details_not_found_iff (db : Session) (username : string) (T : Z) :
  (Bounded.get_user_details db username T = Ok None <->
   forall r, In r db -> UsageRecord.username r <> username)
  /\ (datetime_min + timedelta_days 30 <= T <= datetime_max ->
      (exists o, Bounded.get_user_details db username T = Ok o)
      /\ ((exists r, In r db /\ UsageRecord.username r = username) ->
          (forall r, In r db -> UsageRecord.username r = username ->
             ~ (T - timedelta_days 30 <= UsageRecord.start_time r <= T)) ->
          Bounded.get_user_details db username T
          = Ok (Some (empty_details username T))))
  /\ (T < datetime_min + timedelta_days 30 ->
      (exists r, In r db /\ UsageRecord.username r = username) ->
      Bounded.get_user_details db username T = Raise OverflowError).
Proof.
  split; [apply bounded_get_user_details_none_iff|]. split.
  - intros HT. rewrite (bounded_get_user_details_eq db username T HT).
    split; [apply get_user_details_total|].
    intros (r0 & Hr0 & Hu0) Hout. unfold get_user_details.
    destruct (Sql.first (filter _ db)) as [x|] eqn:Hf.
    + cbv beta iota zeta delta [_build_usage_aggregation].
      assert (Hempty : filter
                (fun r =>
                   (UsageRecord.username r =? username)%string
                   && in_window (T - timedelta_days 30) T r) db = []).
      { apply first_none_nil, first_filter_none.
        intros r Hr. destruct (String.eqb_spec (UsageRecord.username r) username)
          as [Hu|]; [|reflexivity].
        rewrite andb_true_l. unfold in_window.
        apply andb_false_iff. rewrite !Z.leb_gt.
        pose proof (Hout r Hr Hu). lia. }
      rewrite Hempty. reflexivity.
    + exfalso. pose proof (proj1 (first_filter_none _ _) Hf r0 Hr0) as Hx.
      cbn in Hx. apply String.eqb_neq in Hx. contradiction.
  - intros HT Hex. now apply bounded_get_user_details_overflow.
Qed.

Lemma user_details_not_found_iff_witness :
  Bounded.get_user_details sample_records "heavyUser1"
    (datetime 2022 1 1 0 0 0)
  = Ok (Some (empty_details "heavyUser1" (datetime 2022 1 1 0 0 0))).
Proof.
  refine (proj2
            (proj1 (proj2 (user_details_not_found_iff sample_records
                             "heavyUser1" (datetime 2022 1 1 0 0 0))) _)
            _ _).
  - vm_compute. split; discriminate.
  - eexists. split; [left; reflexivity|reflexivity].
  - intros r H _.
    repeat (destruct H as [<-|H]; [vm_compute; intros [_ H]; now apply H|]).
    destruct H.
Defined.

(** ** Sum decomposition *)

(** The stated equation fails after rounding: with upload = download = 1/256
    the returned 30-day period is upload 0.00, download 0.00, total 0.01. *)
Lemma sum_decomposition_counterexample :
  (forall r, In r fractional_store -> stored_invariant r)
  /\ exists resp e,
       get_top_users fractional_store REF_DATE 1 10 = Ok resp
       /\ In e (TopUsersResponse.data resp)
       /\ ~ sum_decomposition (TopUserEntry.usage_30_days e).
Proof.
  split.
  - intros r [<-|[]]. unfold stored_invariant. cbn. reflexivity.
  - eexists. eexists. split; [vm_compute; reflexivity|].
    split; [left; reflexivity|].
    vm_compute. discriminate.
Qed.

(** C4, amended.  On a store whose records satisfy
    [total_kb == upload_kb + download_kb] and carry whole upload and
    download amounts, with absolute values adding up to at most [2 ^ 53],
    every UsagePeriod returned by either query satisfies
    [total_kb == upload_kb + download_kb]: the sums are whole numbers, the
    output rounding leaves them as they are, and the sums are formed
    without rounding error.  With fractional amounts the three fields are
    rounded on their own and need not add up. *)
Theorem whole_kb_sum_decomposition (db : Session) :
  (forall r, In r db -> stored_invariant r) ->
  (forall r, In r db -> whole_kb r) ->
  binary64_exact db ->
  (forall ref page per_page resp e q,
      get_top_users db ref page per_page = Ok resp ->
      In e (TopUsersResponse.data resp) ->
      In q (periods_list (entry_periods e)) ->
      sum_decomposition q)
  /\ (forall username T d q,
        get_user_details db username T = Ok (Some d) ->
        In q (periods_list (details_periods d)) ->
        sum_decomposition q).
Proof.
  intros Hst Hw _. split.
  - intros ref page per_page resp e q Hget He Hq.
    destruct (get_top_users_member _ _ _ _ _ _ Hget He)
      as (row & p & rank & Hrow & Hp & ->).
    apply ranked_rows_groups in Hrow.
    destruct Hrow as (u & g & _ & Hg & ->).
    replace (entry_periods (entry_of rank _ p)) with p in Hq by now destruct p.
    eapply periods_sum_decomposed; [eassumption| | |eassumption].
    + intros r Hr. apply Hst. now apply Hg.
    + intros r Hr. apply Hw. now apply Hg.
  - intros username T d q Hget Hq.
    destruct (get_user_details_inv _ _ _ _ Hget) as [->|(u & g & Hg & Hp)].
    + destruct Hq as [<-|[<-|[<-|[]]]]; reflexivity.
    + eapply periods_sum_decomposed; [eassumption| | |eassumption].
      * intros r Hr. apply Hst. now apply Hg.
      * intros r Hr. apply Hw. now apply Hg.
Qed.

Lemma whole_kb_sum_decomposition_witness :
  exists resp e,
    get_top_users sample_records REF_DATE 1 10 = Ok resp
    /\ hd_error (TopUsersResponse.data resp) = Some e
    /\ sum_decomposition (TopUserEntry.usage_30_days e).
Proof.
  eexists. eexists. split; [vm_compute; reflexivity|].
  split; [reflexivity|].
  destruct (whole_kb_sum_decomposition sample_records sample_records_stored
              sample_records_whole sample_records_binary64_exact)
    as [Htop _].
  eapply (Htop REF_DATE 1 10);
    [vm_compute; reflexivity | left; reflexivity |].
  right. right. left. reflexivity.
Defined.

(** ** Universe and page count *)

Lemma ceil_div_Qceiling (a b : Z) :
  0 < b -> - ((- a) / b) = Qceiling (inject_Z a / inject_Z b).
Proof.
  intros Hb. destruct b as [|p|p]; try lia.
  assert (E : (inject_Z a / inject_Z (Z.pos p) == a # p)%Q).
  { unfold Qdiv, Qinv, Qmult, Qeq, inject_Z. cbn [Qnum Qden]. lia. }
  rewrite (Qceiling_comp _ _ E).
  unfold Qceiling, Qfloor, Qopp. cbn [Qnum Qden]. reflexivity.
Qed.

Lemma count_users_spec (db : Session) (ref : Z) (users : list string) :
  NoDup users ->
  (forall u, In u users <->
     exists r, In r db /\ UsageRecord.username r = u
               /\ ref - timedelta_days 30 <= UsageRecord.start_time r <= ref) ->
  count_users db ref = Z.of_nat (List.length users).
Proof.
  intros Hnd Hu. unfold count_users, Sql.count_distinct.
  cbv beta iota zeta delta [_build_usage_aggregation]. f_equal.
  apply Permutation_length, NoDup_Permutation;
    [apply NoDup_nodup | exact Hnd |].
  intros u. rewrite nodup_In, in_map_iff, Hu. split.
  - intros (r & E & Hr). apply filter_In in Hr. destruct Hr as [Hr Hw].
    unfold in_window in Hw. apply andb_true_iff in Hw.
    rewrite !Z.leb_le in Hw. exists r. tauto.
  - intros (r & Hr & E & Hw). exists r. split; [exact E|].
    apply filter_In. split; [exact Hr|].
    unfold in_window. apply andb_true_iff. rewrite !Z.leb_le. exact Hw.
Qed.

(** C5. For every store, reference instant [R], page and [per_page >= 1],
    the response of the top-users query has as [total_users] the number of
    distinct usernames having a record with
    [R - 30 days <= start_time <= R], and as [total_pages]
    [ceil(total_users / per_page)] when [total_users > 0] and [0] when
    [total_users = 0].  The query returns a response whenever [R] is at
    least 30 days after [datetime.min] and the page size and the offset
    are 64-bit integers. *)
Theorem top_users_totals (db : Session) (R page per_page : Z)
  (users : list string) :
  1 <= per_page ->
  NoDup users ->
  (forall u, In u users <->
     exists r, In r db /\ UsageRecord.username r = u
               /\ R - timedelta_days 30 <= UsageRecord.start_time r <= R) ->
  (forall resp,
      Bounded.get_top_users db R page per_page = Ok resp ->
      TopUsersResponse.total_users resp = Z.of_nat (List.length users)
      /\ (0 < TopUsersResponse.total_users resp ->
          TopUsersResponse.total_pages resp
          = Qceiling (inject_Z (TopUsersResponse.total_users resp)
                      / inject_Z per_page))
      /\ (TopUsersResponse.total_users resp = 0 ->
          TopUsersResponse.total_pages resp = 0))
  /\ (datetime_min + timedelta_days 30 <= R <= datetime_max ->
      per_page < 2 ^ 63 ->
      - 2 ^ 63 <= (page - 1) * per_page < 2 ^ 63 ->
      exists resp, Bounded.get_top_users db R page per_page = Ok resp).
Proof.
  intros Hn Hnd Hu. split.
  - intros resp Hb.
    destruct (bounded_get_top_users_ok _ _ _ _ _ Hb) as [Hget _].
    destruct (get_top_users_inv _ _ _ _ _ Hget) as (_ & _ & Ht & _ & Hp & _).
    rewrite Ht. split; [now apply count_users_spec|].
    unfold math_ceil_div in Hp.
    destruct (Z.eqb_spec per_page 0); [lia|].
    destruct (Z.ltb_spec 0 (count_users db R)); injection Hp as <-.
    + split; [intros _|lia]. apply ceil_div_Qceiling. lia.
    + split; [lia|reflexivity].
  - intros HR Hmax Hoff.
    destruct (bounded_get_top_users_in_range db R page per_page HR
                ltac:(lia) ltac:(lia) Hoff) as (resp & Hb & _).
    exists resp. exact Hb.
Qed.

Lemma top_users_totals_witness :
  exists resp,
    Bounded.get_top_users sample_records REF_DATE 1 2 = Ok resp
    /\ TopUsersResponse.total_users resp = 3
    /\ TopUsersResponse.total_pages resp = 2.
Proof.
  assert (Hnd : NoDup ["heavyUser1"; "mediumUser2"; "lightUser3"]%string)
    by (repeat constructor; cbn; intuition discriminate).
  assert (Hu : forall u,
             In u ["heavyUser1"; "mediumUser2"; "lightUser3"]%string <->
             exists r, In r sample_records /\ UsageRecord.username r = u
                       /\ REF_DATE - timedelta_days 30
                          <= UsageRecord.start_time r <= REF_DATE).
  { intros u. split.
    + intros [<-|[<-|[<-|[]]]].
      * eexists. split; [left; reflexivity|]. vm_compute.
        repeat split; discriminate.
      * eexists. split; [do 4 right; left; reflexivity|]. vm_compute.
        repeat split; discriminate.
      * eexists. split; [do 7 right; left; reflexivity|]. vm_compute.
        repeat split; discriminate.
    + intros (r & Hr & <- & _).
      repeat (destruct Hr as [<-|Hr]; [cbn; tauto|]). destruct Hr. }
  destruct (top_users_totals sample_records REF_DATE 1 2
              ["heavyUser1"; "mediumUser2"; "lightUser3"]%string
              ltac:(lia) Hnd Hu) as [Hc Hex].
  destruct Hex as [resp Hget];
    [vm_compute; split; discriminate | lia | lia |].
  exists resp. split; [exact Hget|].
  destruct (Hc resp Hget) as (Ht & Hp & _).
  split; [exact Ht|].
  rewrite Hp by (rewrite Ht; cbn; lia). rewrite Ht. reflexivity.
Defined.

(** ** Ranks *)

Lemma build_entries_ranks (offset : Z) (results : list Row.t) :
  forall idx data,
    build_entries offset idx results = Ok data ->
    map TopUserEntry.rank data
    = map (fun i => offset + (idx + Z.of_nat i) + 1)
        (seq 0 (List.length data)).
Proof.
  induction results as [|row rest IH]; intros idx data; cbn [build_entries].
  - intros H. injection H as <-. reflexivity.
  - destruct (_row_to_usage_periods row) as [p|]; [|discriminate].
    cbn [bind].
    destruct (build_entries offset (idx + 1) rest) as [data'|] eqn:Hd;
      [|discriminate].
    cbn [bind]. intros H. injection H as <-.
    cbn [map List.length seq TopUserEntry.rank]. f_equal; [lia|].
    rewrite (IH _ _ Hd), <- seq_shift, map_map.
    apply map_ext. intros i. lia.
Qed.



(** C10. For every call with [per_page = n >= 1] the returned data list
    has at most [n] entries, and the ranks of its entries are the
    consecutive integers from [(page-1)*n + 1] to
    [(page-1)*n + length data]. *)
Theorem page_length_and_ranks (db : Session) (R page n : Z)
  (resp : TopUsersResponse.t) :
  1 <= n ->
  get_top_users db R page n = Ok resp ->
  Z.of_nat (List.length (TopUsersResponse.data resp)) <= n
  /\ map TopUserEntry.rank (TopUsersResponse.data resp)
     = map (fun i => (page - 1) * n + Z.of_nat i + 1)
         (seq 0 (List.length (TopUsersResponse.data resp))).
Proof.
  intros Hn Hget.
  destruct (get_top_users_inv _ _ _ _ _ Hget) as (_ & _ & _ & _ & _ & Hb).
  split.
  - destruct (build_entries_inv _ _ _ _ Hb) as [-> _].
    apply length_limit. lia.
  - rewrite (build_entries_ranks _ _ _ _ Hb). apply map_ext. intros i. lia.
Qed.

Lemma page_length_and_ranks_witness :
  exists resp,
    get_top_users sample_records REF_DATE 2 2 = Ok resp
    /\ Z.of_nat (List.length (TopUsersResponse.data resp)) <= 2
    /\ map TopUserEntry.rank (TopUsersResponse.data resp)
       = map (fun i => (2 - 1) * 2 + Z.of_nat i + 1)
           (seq 0 (List.length (TopUsersResponse.data resp))).
Proof.
  eexists. split; [vm_compute; reflexivity|].
  apply (page_length_and_ranks sample_records REF_DATE 2 2);
    [lia | vm_compute; reflexivity].
Defined.

(** ** Rank monotonicity *)

(** An entry of any page [>= 1] sits in the ranked listing at the position
    its rank names and carries the rounded 30-day total of that row. *)
Lemma entry_at_rank (db : Session) (R page n : Z) (e : TopUserEntry.t) :
  1 <= page -> 1 <= n ->
  In e (page_data db R page n) ->
  1 <= TopUserEntry.rank e
  /\ exists row,
       nth_error (ranked_rows db R) (Z.to_nat (TopUserEntry.rank e - 1))
       = Some row
       /\ UsagePeriod.total_kb (TopUserEntry.usage_30_days e)
          = py_round2 (Row.total_30d row).
Proof.
  intros Hp Hn He. unfold page_data in He.
  destruct (get_top_users db R page n) as [resp|] eqn:Hget; [|destruct He].
  apply In_nth_error in He. destruct He as [i He].
  destruct (get_top_users_entry db R page n resp i e Hp ltac:(lia) Hget He)
    as (row & per & Hrow & Hper & ->).
  cbn [entry_of TopUserEntry.rank TopUserEntry.usage_30_days].
  split; [nia|]. exists row. split.
  - replace (Z.to_nat ((page - 1) * n + Z.of_nat i + 1 - 1))
      with (Z.to_nat ((page - 1) * n) + i)%nat by nia.
    exact Hrow.
  - destruct (row_to_usage_periods_inv _ _ Hper) as (s1 & s7 & _ & _ & ->).
    reflexivity.
Qed.

Lemma rank_order_across_pages (db : Session) (R n page1 page2 : Z)
  (e1 e2 : TopUserEntry.t) :
  1 <= n -> 1 <= page1 -> 1 <= page2 ->
  In e1 (page_data db R page1 n) ->
  In e2 (page_data db R page2 n) ->
  TopUserEntry.rank e1 < TopUserEntry.rank e2 ->
  (UsagePeriod.total_kb (TopUserEntry.usage_30_days e2)
   <= UsagePeriod.total_kb (TopUserEntry.usage_30_days e1))%Q.
Proof.
  intros Hn Hp1 Hp2 H1 H2 Hlt.
  destruct (entry_at_rank db R page1 n e1 Hp1 Hn H1)
    as (Hr1 & row1 & Hrow1 & ->).
  destruct (entry_at_rank db R page2 n e2 Hp2 Hn H2)
    as (Hr2 & row2 & Hrow2 & ->).
  apply py_round2_mono.
  apply (StronglySorted_nth_error total_30d_ge _ (ranked_rows_sorted db R)
           (Z.to_nat (TopUserEntry.rank e1 - 1))
           (Z.to_nat (TopUserEntry.rank e2 - 1)) row1 row2);
    [lia | exact Hrow1 | exact Hrow2].
Qed.

Lemma in_full_listing (db : Session) (R n : Z) (e : TopUserEntry.t) :
  In e (full_listing db R n) ->
  exists page, 1 <= page /\ In e (page_data db R page n).
Proof.
  unfold full_listing. rewrite in_flat_map.
  intros (k & Hk & He). apply in_seq in Hk.
  exists (Z.of_nat k). split; [lia|exact He].
Qed.

(** C7. Across the full unpaginated listing at a fixed reference instant
    (all pages concatenated), the 30-day [total_kb] does not increase with
    the rank: of two entries, the one of smaller rank has the greater or
    equal 30-day total. *)
Theorem rank_monotonicity (db : Session) (R n : Z) (e1 e2 : TopUserEntry.t) :
  1 <= n ->
  In e1 (full_listing db R n) ->
  In e2 (full_listing db R n) ->
  TopUserEntry.rank e1 < TopUserEntry.rank e2 ->
  (UsagePeriod.total_kb (TopUserEntry.usage_30_days e2)
   <= UsagePeriod.total_kb (TopUserEntry.usage_30_days e1))%Q.
Proof.
  intros Hn H1 H2 Hlt.
  destruct (in_full_listing _ _ _ _ H1) as (page1 & Hp1 & Hin1).
  destruct (in_full_listing _ _ _ _ H2) as (page2 & Hp2 & Hin2).
  apply (rank_order_across_pages db R n page1 page2); assumption.
Qed.

Lemma rank_monotonicity_witness :
  exists e1 e2,
    nth_error (full_listing sample_records REF_DATE 1) 0 = Some e1
    /\ nth_error (full_listing sample_records REF_DATE 1) 2 = Some e2
    /\ (UsagePeriod.total_kb (TopUserEntry.usage_30_days e2)
        <= UsagePeriod.total_kb (TopUserEntry.usage_30_days e1))%Q.
Proof.
  eexists. eexists. split; [vm_compute; reflexivity|].
  split; [vm_compute; reflexivity|].
  apply (rank_monotonicity sample_records REF_DATE 1).
  - lia.
  - apply (nth_error_In _ 0). vm_compute. reflexivity.
  - apply (nth_error_In _ 2). vm_compute. reflexivity.
  - vm_compute. reflexivity.
Defined.

(** ** Pages beyond the universe, and the empty store *)

Lemma limit_nil {A : Type} (n : Z) : Sql.limit n (@nil A) = [].
Proof. unfold Sql.limit. destruct (n <? 0); [reflexivity|apply firstn_nil]. Qed.

Lemma offset_beyond {A : Type} (k : Z) (l : list A) :
  Z.of_nat (List.length l) <= k -> Sql.offset k l = [].
Proof. intros H. unfold Sql.offset. apply skipn_all2. lia. Qed.

(** Not every page beyond the universe is answered.  [OFFSET] is bound as
    a 64-bit integer: page [2 ^ 63 + 1] of size 1 lies beyond the three
    users of the fixture, and the query raises [OverflowError]. *)
Lemma page_beyond_universe_counterexample :
  count_users sample_records REF_DATE <= (2 ^ 63 + 1 - 1) * 1
  /\ Bounded.get_top_users sample_records REF_DATE (2 ^ 63 + 1) 1
     = Raise OverflowError.
Proof. split; [vm_compute; discriminate|vm_compute; reflexivity]. Qed.

(** C8, amended.  At a reference instant at least 30 days after
    [datetime.min], a page whose offset lies at or beyond the universe of
    the 30-day window and below [2 ^ 63] is answered without error by a
    well-formed response that echoes [page] and [per_page] and has an empty
    data list; on a store without records every call whose page size and
    offset are 64-bit integers gets the response with zero users, zero
    pages and no data, and the single-user query answers not-found at
    every timestamp. *)
Theorem page_beyond_universe (db : Session) (R page n : Z) :
  datetime_min + timedelta_days 30 <= R <= datetime_max ->
  (1 <= n < 2 ^ 63 ->
   count_users db R <= (page - 1) * n < 2 ^ 63 ->
   exists total_pages,
     Bounded.get_top_users db R page n
     = Ok {| TopUsersResponse.page := page;
             TopUsersResponse.per_page := n;
             TopUsersResponse.total_users := count_users db R;
             TopUsersResponse.total_pages := total_pages;
             TopUsersResponse.reference_date := R;
             TopUsersResponse.data := [] |})
  /\ (- 2 ^ 63 <= n < 2 ^ 63 ->
      - 2 ^ 63 <= (page - 1) * n < 2 ^ 63 ->
      Bounded.get_top_users [] R page n
      = Ok {| TopUsersResponse.page := page;
              TopUsersResponse.per_page := n;
              TopUsersResponse.total_users := 0;
              TopUsersResponse.total_pages := 0;
              TopUsersResponse.reference_date := R;
              TopUsersResponse.data := [] |})
  /\ (forall username T, Bounded.get_user_details [] username T = Ok None).
Proof.
  intros HR. split; [|split].
  - intros Hn Hbeyond.
    assert (H0 : 0 <= count_users db R).
    { rewrite <- length_ranked_rows. lia. }
    rewrite bounded_get_top_users_eq by (try assumption; lia).
    unfold get_top_users.
    rewrite offset_beyond by (rewrite length_ranked_rows; lia).
    rewrite limit_nil. unfold math_ceil_div.
    destruct (Z.eqb_spec n 0); [lia|].
    destruct (0 <? count_users db R); cbn; eauto.
  - intros Hn Hoff.
    rewrite bounded_get_top_users_eq by assumption.
    unfold get_top_users.
    change (ranked_rows [] R) with (@nil Row.t).
    change (count_users [] R) with 0.
    unfold Sql.offset. rewrite skipn_nil, limit_nil. reflexivity.
  - reflexivity.
Qed.

Lemma page_beyond_universe_witness :
  exists total_pages,
    Bounded.get_top_users sample_records REF_DATE 100 10
    = Ok {| TopUsersResponse.page := 100;
            TopUsersResponse.per_page := 10;
            TopUsersResponse.total_users := count_users sample_records REF_DATE;
            TopUsersResponse.total_pages := total_pages;
            TopUsersResponse.reference_date := REF_DATE;
            TopUsersResponse.data := [] |}.
Proof.
  refine (proj1 (page_beyond_universe sample_records REF_DATE 100 10 _) _ _).
  - vm_compute. split; discriminate.
  - lia.
  - vm_compute. split; [discriminate|reflexivity].
Defined.

(** ** The page size is not checked by the engine *)

(** With three users in the window and [per_page = 0] the call reaches the
    page-count division and raises [ZeroDivisionError]. *)
Lemma per_page_zero_counterexample :
  count_users sample_records REF_DATE = 3
  /\ get_top_users sample_records REF_DATE 1 0 = Raise ZeroDivisionError.
Proof. split; vm_compute; reflexivity. Qed.

(** C2, amended.  The top-users operation has no check of [per_page].  At
    a reference instant at least 30 days after [datetime.min]: with
    [per_page = 0] it reaches the page-count division and raises
    [ZeroDivisionError] when the 30-day universe is not empty, and returns
    the empty page with [total_pages = 0] when it is empty; with a negative
    [per_page] (a 64-bit integer, as is the offset) and [page >= 1] it
    returns a response whose [total_pages] is [ceil(total_users /
    per_page)], zero or negative, and whose data lists all the users of the
    universe, with ranks counted from the offset [(page-1)*per_page]. *)
Theorem per_page_unchecked (db : Session) (R page : Z) :
  datetime_min + timedelta_days 30 <= R <= datetime_max ->
  (0 < count_users db R ->
   Bounded.get_top_users db R page 0 = Raise ZeroDivisionError)
  /\ (count_users db R = 0 ->
      Bounded.get_top_users db R page 0
      = Ok {| TopUsersResponse.page := page;
              TopUsersResponse.per_page := 0;
              TopUsersResponse.total_users := 0;
              TopUsersResponse.total_pages := 0;
              TopUsersResponse.reference_date := R;
              TopUsersResponse.data := [] |})
  /\ (forall per_page,
        - 2 ^ 63 <= per_page < 0 ->
        1 <= page ->
        - 2 ^ 63 <= (page - 1) * per_page ->
        exists resp,
          Bounded.get_top_users db R page per_page = Ok resp
          /\ TopUsersResponse.per_page resp = per_page
          /\ TopUsersResponse.total_users resp = count_users db R
          /\ TopUsersResponse.total_pages resp <= 0
          /\ (0 < count_users db R ->
              per_page * TopUsersResponse.total_pages resp
              <= count_users db R
              < per_page * (TopUsersResponse.total_pages resp - 1))
          /\ Z.of_nat (List.length (TopUsersResponse.data resp))
             = count_users db R
          /\ map TopUserEntry.rank (TopUsersResponse.data resp)
             = map (fun i => (page - 1) * per_page + Z.of_nat i + 1)
                 (seq 0 (List.length (TopUsersResponse.data resp)))).
Proof.
  intros HR. split; [|split].
  - intros H. unfold Bounded.get_top_users.
    rewrite (bounded_build_ok R HR). cbn [bind].
    cbv beta iota zeta delta [_build_usage_aggregation].
    change (Sql.count_distinct
              (map UsageRecord.username
                 (filter (in_window (R - timedelta_days 30) R) db)))
      with (count_users db R).
    destruct (Z.ltb_spec 0 (count_users db R)); [reflexivity|lia].
  - intros H.
    rewrite bounded_get_top_users_eq
      by (try assumption; rewrite ?Z.mul_0_r; lia).
    unfold get_top_users.
    rewrite H. cbn [Z.ltb Z.compare bind].
    unfold Sql.limit. cbn [Z.ltb Z.compare Z.to_nat firstn build_entries bind].
    reflexivity.
  - intros n Hn Hp Hoff.
    assert (Hoff' : - 2 ^ 63 <= (page - 1) * n < 2 ^ 63) by nia.
    destruct (bounded_get_top_users_in_range db R page n HR
                ltac:(lia) ltac:(lia) Hoff') as (resp & Hb & Hget).
    exists resp. split; [exact Hb|].
    destruct (get_top_users_inv _ _ _ _ _ Hget)
      as (_ & E2 & E3 & _ & Htp & Hd).
    pose proof (length_ranked_rows db R) as Hlen.
    split; [exact E2|]. split; [exact E3|].
    unfold math_ceil_div in Htp.
    destruct (Z.eqb_spec n 0); [lia|].
    assert (Hdata : Z.of_nat (List.length (TopUsersResponse.data resp))
                    = count_users db R).
    { destruct (build_entries_inv _ _ _ _ Hd) as [-> _].
      unfold Sql.limit, Sql.offset.
      destruct (Z.ltb_spec n 0); [|lia].
      replace (Z.to_nat ((page - 1) * n)) with O by nia.
      cbn [skipn]. exact Hlen. }
    destruct (Z.ltb_spec 0 (count_users db R)); injection Htp as Htp.
    + pose proof (Z.div_mod (- count_users db R) n ltac:(lia)) as Hdm.
      pose proof (Z.mod_neg_bound (- count_users db R) n ltac:(lia)) as Hm.
      split; [nia|]. split; [intros _; nia|].
      split; [exact Hdata|].
      rewrite (build_entries_ranks _ _ _ _ Hd).
      apply map_ext. intros i. lia.
    + split; [lia|]. split; [lia|].
      split; [exact Hdata|].
      rewrite (build_entries_ranks _ _ _ _ Hd).
      apply map_ext. intros i. lia.
Qed.

Lemma per_page_unchecked_witness :
  Bounded.get_top_users sample_records REF_DATE 1 0 = Raise ZeroDivisionError.
Proof.
  refine (proj1 (per_page_unchecked sample_records REF_DATE 1 _) _).
  - vm_compute. split; discriminate.
  - vm_compute. reflexivity.
Defined.

(** ** Ingestion *)

Section IngestionFacts.

Variable int : string -> option Z.
Variable pd_to_datetime : string -> option Z.
Variable pd_to_numeric : string -> option Q.

(** The batch loop, given one unit of fuel per record, inserts every record
  once and in order. *)
Lemma insert_batches_all (batch_size : nat) :
(1 <= batch_size)%nat ->
forall fuel records session total,
  (List.length records <= fuel)%nat ->
  insert_batches fuel batch_size records session total
  = (total + Z.of_nat (List.length records), session ++ records).
Proof.
intros Hb. induction fuel as [|fuel IH]; intros records session total Hf.
- destruct records; [|simpl in Hf; lia].
  cbn. now rewrite Z.add_0_r, app_nil_r.
- destruct records as [|r records].
  + cbn. now rewrite Z.add_0_r, app_nil_r.
  + cbn [insert_batches]. rewrite IH.
    * rewrite <- Z.add_assoc, <- Nat2Z.inj_add, <- length_app,
        <- app_assoc, firstn_skipn. reflexivity.
    * rewrite length_skipn. simpl List.length in *. lia.
Qed.

Lemma required_columns_stripped (c : string) :
In c REQUIRED_COLUMNS -> Str.strip c = c.
Proof.
intros H. repeat (destruct H as [<-|H]; [reflexivity|]). destruct H.
Qed.

Lemma validate_dataframe_ok (df : DataFrame.t) :
(forall c, In c REQUIRED_COLUMNS ->
   In c (map Str.strip (DataFrame.columns df))) ->
validate_dataframe df = Ok (strip_columns df).
Proof.
intros H. unfold validate_dataframe.
assert (E : filter
              (fun c => negb (mem_string c
                                (DataFrame.columns (strip_columns df))))
              REQUIRED_COLUMNS = []).
{ apply first_none_nil, first_filter_none. intros c Hc.
  apply negb_false_iff. unfold mem_string. apply existsb_exists.
  exists c. split; [apply H, Hc|apply String.eqb_refl]. }
rewrite E. reflexivity.
Qed.

(** A table with rows is cleared first (on request) and then receives every
  transformed record. *)
Lemma ingest_data_inserts (df : DataFrame.t) (session : Session)
(batch_size : Z) (clear_existing : bool) (records : list UsageRecord.t) :
(forall c, In c REQUIRED_COLUMNS ->
   In c (map Str.strip (DataFrame.columns df))) ->
DataFrame.rows df <> [] ->
transform int pd_to_datetime pd_to_numeric
  (strip_columns (strip_columns df)) = Ok records ->
1 <= batch_size ->
ingest_data int pd_to_datetime pd_to_numeric df session batch_size
  clear_existing
= (Ok (Z.of_nat (List.length records)),
   (if clear_existing then [] else session) ++ records).
Proof.
intros Hcols Hrows Ht Hb. unfold ingest_data.
rewrite validate_dataframe_ok.
- assert (He : DataFrame.empty (strip_columns (strip_columns df)) = false).
  { unfold DataFrame.empty. cbn [strip_columns DataFrame.columns DataFrame.rows].
    pose proof (Hcols "username"%string (or_introl eq_refl)) as Hc.
    destruct (DataFrame.columns df); [destruct Hc|].
    destruct (DataFrame.rows df); [congruence|reflexivity]. }
  rewrite He, Ht. unfold math_ceil_div.
  destruct (Z.eqb_spec batch_size 0); [lia|].
  destruct (Z.ltb_spec batch_size 0); [lia|].
  rewrite insert_batches_all by lia. reflexivity.
- intros c Hc. cbn [strip_columns DataFrame.columns].
  rewrite <- (required_columns_stripped c Hc).
  apply in_map, Hcols, Hc.
Qed.

(** C9. On a CSV that has the required columns and no data row,
  [ingest_data] returns 0 and leaves the record store as it was, for
  every batch size and also with [clear_existing = True]: the return on
  the empty table comes before the delete. *)
Theorem ingest_empty_csv_keeps_store (df : DataFrame.t) (session : Session)
(batch_size : Z) (clear_existing : bool) :
(forall c, In c REQUIRED_COLUMNS ->
   In c (map Str.strip (DataFrame.columns df))) ->
DataFrame.rows df = [] ->
ingest_data int pd_to_datetime pd_to_numeric df session batch_size
  clear_existing
= (Ok 0, session).
Proof.
intros Hcols Hrows. unfold ingest_data.
rewrite validate_dataframe_ok.
- assert (He : DataFrame.empty (strip_columns (strip_columns df)) = true).
  { unfold DataFrame.empty.
    cbn [strip_columns DataFrame.columns DataFrame.rows].
    rewrite Hrows. now destruct (map Str.strip _). }
  rewrite He. reflexivity.
- intros c Hc. cbn [strip_columns DataFrame.columns].
  rewrite <- (required_columns_stripped c Hc).
  apply in_map, Hcols, Hc.
Qed.

End IngestionFacts.

Lemma ingest_empty_csv_keeps_store_witness :
  ingest_data (fun _ => None) (fun _ => None) (fun _ => None)
    {| DataFrame.columns :=
         ["username"; "mac_address"; " start_time"; "usage_time "; "upload";
          "download"]%string;
       DataFrame.rows := [] |}
    sample_records 5000 true
  = (Ok 0, sample_records).
Proof.
  apply ingest_empty_csv_keeps_store.
  - intros c H. repeat (destruct H as [<-|H]; [cbn; tauto|]). destruct H.
  - reflexivity.
Defined.

(** * Further properties of the code *)

(** ** Pagination *)









Lemma ranked_usernames_perm (db : Session) (R : Z) :
  Permutation (map Row.username (ranked_rows db R))
    (nodup string_dec
       (map UsageRecord.username
          (filter (in_window (R - timedelta_days 30) R) db))).
Proof.
  unfold ranked_rows. cbn.
  eapply perm_trans.
  - apply Permutation_map, Permutation_sym, order_by_total_30d_desc_perm.
  - unfold select_grouped, Sql.group_by_username. rewrite !map_map. cbn.
    rewrite map_id. apply Permutation_refl.
Qed.





(** ** The windows, queried apart *)

Lemma filter_filter_and {A : Type} (f h : A -> bool) (l : list A) :
  filter f (filter h l) = filter (fun x => h x && f x) l.
Proof.
  induction l as [|x l IH]; cbn [filter].
  - reflexivity.
  - destruct (h x); cbn [filter andb]; [destruct (f x)|]; now rewrite IH.
Qed.

Lemma Qsum_case_filter {A : Type} (f : A -> bool) (col : A -> Q) (g : list A) :
  (Sql.Qsum (map (fun r => Sql.case (f r) (col r) 0%Q) g)
   == Sql.Qsum (map col (filter f g)))%Q.
Proof.
  induction g as [|r g IH]; cbn [map filter Sql.Qsum].
  - reflexivity.
  - unfold Sql.case at 1. destruct (f r); cbn [map Sql.Qsum]; rewrite IH; ring.
Qed.

Lemma Zsum_case_filter {A : Type} (f : A -> bool) (g : list A) :
  Sql.Zsum (map (fun r => Sql.case (f r) 1 0) g)
  = Z.of_nat (List.length (filter f g)).
Proof.
  induction g as [|r g IH]; cbn [map filter Sql.Zsum].
  - reflexivity.
  - unfold Sql.case at 1. destruct (f r); cbn [List.length]; rewrite IH; lia.
Qed.

(** The group of user [u] among the rows of the 30-day window. *)
Lemma window_group (db : Session) (R lo : Z) (u : string) :
  R - timedelta_days 30 <= lo ->
  filter (fun r => lo <=? UsageRecord.start_time r)
    (filter (fun r => String.eqb (UsageRecord.username r) u)
       (filter (in_window (R - timedelta_days 30) R) db))
  = window_records db u lo R.
Proof.
  intros Hlo. rewrite !filter_filter_and. unfold window_records.
  apply filter_ext. intros r. unfold in_window.
  destruct (String.eqb (UsageRecord.username r) u); [|now rewrite andb_false_r].
  destruct (Z.leb_spec lo (UsageRecord.start_time r)),
           (Z.leb_spec (R - timedelta_days 30) (UsageRecord.start_time r)),
           (Z.leb_spec (UsageRecord.start_time r) R);
    try reflexivity; lia.
Qed.

Lemma window_group_30 (db : Session) (R : Z) (u : string) :
  filter (fun r => String.eqb (UsageRecord.username r) u)
    (filter (in_window (R - timedelta_days 30) R) db)
  = window_records db u (R - timedelta_days 30) R.
Proof.
  rewrite filter_filter_and. unfold window_records.
  apply filter_ext. intros r. unfold in_window.
  apply andb_comm.
Qed.

(** The conditional aggregation of a user's 30-day group gives, window by
    window, what a query of that window alone gives. *)
Lemma group_periods_apart (db : Session) (R : Z) (u : string) (p : Periods.t) :
  _row_to_usage_periods
    (aggregate_group (snd (_build_usage_aggregation R))
       (u, window_records db u (R - timedelta_days 30) R)) = Ok p ->
  windows_queried_apart db u R p.
Proof.
  remember (window_records db u (R - timedelta_days 30) R) as g eqn:Eg.
  intros Hp.
  destruct (row_to_usage_periods_inv _ _ Hp) as (s1 & s7 & H1 & H7 & ->).
  cbn [aggregate_group snd fst _build_usage_aggregation Row.sessions_1d
       Row.sessions_7d Agg.sessions_1d Agg.sessions_7d] in H1, H7.
  assert (Hg : g <> []) by (intros E; rewrite E in H1; discriminate).
  rewrite (sessions_since_some _ _ Hg) in H1.
  rewrite (sessions_since_some _ _ Hg) in H7.
  injection H1 as <-. injection H7 as <-.
  assert (L1 : R - timedelta_days 30 <= R - timedelta_days 1)
    by (unfold timedelta_days, microseconds_per_day; lia).
  assert (L7 : R - timedelta_days 30 <= R - timedelta_days 7)
    by (unfold timedelta_days, microseconds_per_day; lia).
  unfold windows_queried_apart, same_period, window_period.
  cbn [Periods.usage_1_day Periods.usage_7_days Periods.usage_30_days
       UsagePeriod.upload_kb UsagePeriod.download_kb UsagePeriod.total_kb
       UsagePeriod.sessions aggregate_group snd fst _build_usage_aggregation
       Row.upload_1d Row.download_1d Row.total_1d
       Row.upload_7d Row.download_7d Row.total_7d
       Row.upload_30d Row.download_30d Row.total_30d Row.sessions_30d
       Agg.upload_1d Agg.download_1d Agg.total_1d
       Agg.upload_7d Agg.download_7d Agg.total_7d
       Agg.upload_30d Agg.download_30d Agg.total_30d Agg.sessions_30d].
  rewrite <- (window_group db R _ u L1), <- (window_group db R _ u L7).
  rewrite window_group_30, <- Eg.
  unfold sum_since, sum_all, Sql.count.
  rewrite !coalesce_sum_float, !Zsum_case_filter.
  repeat split;
    try (apply Qeq_refl);
    try (rewrite (py_round2_compat _ _ (Qsum_case_filter _ _ _));
         apply Qeq_refl);
    reflexivity.
Qed.

(** Every ranked row is the aggregate of the window records of its user. *)
Lemma ranked_row_of_user (db : Session) (R : Z) (row : Row.t) :
  In row (ranked_rows db R) ->
  row = aggregate_group (snd (_build_usage_aggregation R))
          (Row.username row,
           window_records db (Row.username row) (R - timedelta_days 30) R).
Proof.
  unfold ranked_rows. cbv beta iota zeta delta [_build_usage_aggregation].
  intros Hin.
  apply (Permutation_in _ (Permutation_sym (order_by_total_30d_desc_perm _)))
    in Hin.
  apply in_select_grouped in Hin. destruct Hin as (u & g & Hg & ->).
  apply group_by_username_spec in Hg. destruct Hg as [_ ->].
  cbn [aggregate_group fst Row.username]. rewrite window_group_30.
  reflexivity.
Qed.

Lemma nodup_constant (u : string) (l : list string) :
  l <> [] -> (forall x, In x l -> x = u) -> nodup string_dec l = [u].
Proof.
  induction l as [|x l IH]; intros Hne Hall; [congruence|].
  cbn [nodup]. assert (x = u) by (apply Hall; now left). subst x.
  destruct l as [|y l].
  - reflexivity.
  - destruct (in_dec string_dec u (y :: l)) as [_|Hn].
    + apply IH; [discriminate|]. intros z Hz. apply Hall. now right.
    + exfalso. apply Hn. left. apply Hall. right. now left.
Qed.

(** What the single-user query answers for a user with records. *)
Lemma get_user_details_found (db : Session) (u : string) (T : Z)
  (d : UserDetailsResponse.t) :
  get_user_details db u T = Ok (Some d) ->
  UserDetailsResponse.username d = u
  /\ UserDetailsResponse.timestamp d = T
  /\ ((window_records db u (T - timedelta_days 30) T = []
       /\ d = empty_details u T)
      \/ (window_records db u (T - timedelta_days 30) T <> []
          /\ _row_to_usage_periods
               (aggregate_group (snd (_build_usage_aggregation T))
                  (u, window_records db u (T - timedelta_days 30) T))
             = Ok (details_periods d))).
Proof.
  unfold get_user_details.
  destruct (Sql.first (filter _ db)); [|discriminate].
  cbv beta iota zeta delta [_build_usage_aggregation].
  change (filter
            (fun r => ((UsageRecord.username r =? u)%string
                       && in_window (T - timedelta_days 30) T r)) db)
    with (window_records db u (T - timedelta_days 30) T).
  set (rows := window_records db u (T - timedelta_days 30) T).
  destruct rows as [|r0 rows0] eqn:Erows.
  - cbn. intros H. injection H as <-. cbn. auto.
  - assert (Hall : forall x, In x (map UsageRecord.username rows) -> x = u).
    { intros x Hx. apply in_map_iff in Hx. destruct Hx as (r & <- & Hr).
      unfold rows, window_records in Hr. apply filter_In in Hr.
      destruct Hr as [_ Hr]. apply andb_true_iff in Hr.
      now apply String.eqb_eq. }
    assert (Hg : Sql.group_by_username rows = [(u, rows)]).
    { unfold Sql.group_by_username.
      rewrite (nodup_constant u);
        [|rewrite Erows; discriminate | exact Hall].
      cbn [map]. do 2 f_equal.
      unfold rows, window_records. rewrite filter_filter_and.
      apply filter_ext. intros r.
      destruct (String.eqb (UsageRecord.username r) u);
        cbn [andb]; [apply andb_true_r|reflexivity]. }
    rewrite <- Erows. unfold select_grouped. rewrite Hg. cbn [map Sql.first].
    destruct (_row_to_usage_periods _) as [p|] eqn:Hp; [|discriminate].
    cbn [bind]. intros H. injection H as <-.
    cbn [UserDetailsResponse.username UserDetailsResponse.timestamp].
    split; [reflexivity|]. split; [reflexivity|]. right.
    split; [rewrite Erows; discriminate|].
    now destruct p.
Qed.

Lemma empty_window_period (db : Session) (u : string) (lo hi : Z) :
  window_records db u lo hi = [] ->
  same_period empty_period (window_period db u lo hi).
Proof.
  intros E. unfold window_period. rewrite E. cbn.
  repeat split; reflexivity.
Qed.

Lemma window_records_incl (db : Session) (u : string) (lo lo' hi : Z) :
  lo' <= lo ->
  window_records db u lo' hi = [] -> window_records db u lo hi = [].
Proof.
  intros Hlo E. apply first_none_nil, first_filter_none. intros r Hr.
  pose proof (proj1 (first_filter_none _ _)
                (f_equal Sql.first E) r Hr) as Hf.
  cbv beta in Hf |- *.
  destruct (String.eqb (UsageRecord.username r) u); [|reflexivity].
  cbn [andb] in Hf |- *.
  destruct (Z.leb_spec lo' (UsageRecord.start_time r)),
           (Z.leb_spec lo (UsageRecord.start_time r));
    cbn [andb] in Hf |- *; try reflexivity; try exact Hf; lia.
Qed.

Lemma windows_sessions_apart (db : Session) (u : string) (R : Z)
  (p : Periods.t) :
  windows_queried_apart db u R p -> sessions_queried_apart db u R p.
Proof.
  intros ((_ & _ & _ & H1) & (_ & _ & _ & H7) & (_ & _ & _ & H30)).
  split; [exact H1|]. split; [exact H7|exact H30].
Qed.

(** X5. The conditional aggregation of one scan gives what three queries,
    one per window, give.  The [sessions] of each UsagePeriod of a
    top-users entry and of a found single-user result is the number of the
    user's records with [R - N days <= start_time <= R].  On a store of
    whole amounts that binary64 adds without error (and whose records
    satisfy [total_kb == upload_kb + download_kb]) the upload, download
    and total of each period are the sums over those records. *)
Theorem windows_as_queried_apart (db : Session) (R : Z) :
  (forall page per_page resp e,
      get_top_users db R page per_page = Ok resp ->
      In e (TopUsersResponse.data resp) ->
      sessions_queried_apart db (TopUserEntry.username e) R (entry_periods e)
      /\ ((forall r, In r db -> stored_invariant r) ->
          (forall r, In r db -> whole_kb r) ->
          binary64_exact db ->
          windows_queried_apart db (TopUserEntry.username e) R
            (entry_periods e)))
  /\ (forall username d,
        get_user_details db username R = Ok (Some d) ->
        sessions_queried_apart db username R (details_periods d)
        /\ ((forall r, In r db -> stored_invariant r) ->
            (forall r, In r db -> whole_kb r) ->
            binary64_exact db ->
            windows_queried_apart db username R (details_periods d))).
Proof.
  split.
  - intros page per_page resp e Hget He.
    assert (W : windows_queried_apart db (TopUserEntry.username e) R
                  (entry_periods e)).
    { destruct (get_top_users_member _ _ _ _ _ _ Hget He)
        as (row & p & rank & Hrow & Hp & ->).
      rewrite (ranked_row_of_user db R row Hrow) in Hp.
      replace (entry_periods (entry_of rank row p)) with p by now destruct p.
      cbn [entry_of TopUserEntry.username].
      now apply group_periods_apart. }
    split; [exact (windows_sessions_apart _ _ _ _ W)|]. intros _ _ _. exact W.
  - intros username d Hget.
    assert (W : windows_queried_apart db username R (details_periods d)).
    { destruct (get_user_details_found _ _ _ _ Hget)
        as (_ & _ & [[E ->]|[_ Hp]]).
      + unfold windows_queried_apart.
        cbn [details_periods empty_details Periods.usage_1_day
             Periods.usage_7_days Periods.usage_30_days
             UserDetailsResponse.usage_1_day UserDetailsResponse.usage_7_days
             UserDetailsResponse.usage_30_days].
        split; [|split]; apply empty_window_period; try exact E;
          (apply (window_records_incl db username _ _ R) with (2 := E);
           unfold timedelta_days, microseconds_per_day; lia).
      + now apply group_periods_apart. }
    split; [exact (windows_sessions_apart _ _ _ _ W)|]. intros _ _ _. exact W.
Qed.

Lemma windows_as_queried_apart_witness :
  exists d,
    get_user_details sample_records "heavyUser1" REF_DATE = Ok (Some d)
    /\ sessions_queried_apart sample_records "heavyUser1" REF_DATE
         (details_periods d)
    /\ windows_queried_apart sample_records "heavyUser1" REF_DATE
         (details_periods d).
Proof.
  eexists. split; [vm_compute; reflexivity|].
  edestruct (proj2 (windows_as_queried_apart sample_records REF_DATE)
               "heavyUser1"%string) as [Hs Hw];
    [vm_compute; reflexivity|].
  split; [exact Hs|].
  exact (Hw sample_records_stored sample_records_whole
           sample_records_binary64_exact).
Defined.

(** ** The two queries agree *)

Lemma get_user_details_none (db : Session) (u : string) (T : Z) :
  get_user_details db u T = Ok None ->
  forall r, In r db -> UsageRecord.username r <> u.
Proof.
  intros H r Hr E.
  assert (Hf : Sql.first
                 (filter (fun r => (UsageRecord.username r =? u)%string) db)
               = None).
  { unfold get_user_details in H.
    destruct (Sql.first (filter _ db)); [|reflexivity]. cbn in H.
    destruct (Sql.first (select_grouped _ _)); [|discriminate].
    destruct (_row_to_usage_periods _); discriminate. }
  pose proof (proj1 (first_filter_none _ _) Hf r Hr) as Hx.
  cbv beta in Hx. apply String.eqb_neq in Hx. contradiction.
Qed.

(** X6. A user listed on a top-users page is found by the single-user
    query at the same instant, with the same three UsagePeriods. *)
Theorem entry_agrees_with_details (db : Session) (R page per_page : Z)
  (resp : TopUsersResponse.t) (e : TopUserEntry.t) :
  get_top_users db R page per_page = Ok resp ->
  In e (TopUsersResponse.data resp) ->
  exists d,
    get_user_details db (TopUserEntry.username e) R = Ok (Some d)
    /\ details_periods d = entry_periods e.
Proof.
  intros Hget He.
  destruct (get_top_users_member _ _ _ _ _ _ Hget He)
    as (row & p & rank & Hrow & Hp & ->).
  rewrite (ranked_row_of_user db R row Hrow) in Hp.
  cbn [entry_of TopUserEntry.username].
  replace (entry_periods (entry_of rank row p)) with p by now destruct p.
  set (u := Row.username row) in *.
  assert (Hne : window_records db u (R - timedelta_days 30) R <> []).
  { destruct (row_to_usage_periods_inv _ _ Hp) as (s1 & _ & H1 & _).
    cbn [aggregate_group snd fst _build_usage_aggregation Row.sessions_1d
         Agg.sessions_1d] in H1.
    intros E. rewrite E in H1. discriminate. }
  destruct (get_user_details_total db u R) as [[d|] Hd].
  - exists d. split; [exact Hd|].
    destruct (get_user_details_found _ _ _ _ Hd) as (_ & _ & [[E _]|[_ Hp']]).
    + contradiction.
    + rewrite Hp in Hp'. now injection Hp'.
  - exfalso.
    destruct (window_records db u (R - timedelta_days 30) R) as [|r l] eqn:E;
      [congruence|].
    assert (Hr : In r (window_records db u (R - timedelta_days 30) R))
      by (rewrite E; now left).
    unfold window_records in Hr. apply filter_In in Hr. destruct Hr as [Hr Hu].
    apply andb_true_iff in Hu. destruct Hu as [Hu _].
    apply String.eqb_eq in Hu.
    exact (get_user_details_none _ _ _ Hd r Hr Hu).
Qed.

Lemma entry_agrees_with_details_witness :
  exists resp e,
    get_top_users sample_records REF_DATE 1 10 = Ok resp
    /\ hd_error (TopUsersResponse.data resp) = Some e
    /\ exists d,
         get_user_details sample_records (TopUserEntry.username e) REF_DATE
         = Ok (Some d)
         /\ details_periods d = entry_periods e.
Proof.
  eexists. eexists. split; [vm_compute; reflexivity|].
  split; [reflexivity|].
  eapply (entry_agrees_with_details sample_records REF_DATE 1 10);
    [vm_compute; reflexivity | left; reflexivity].
Defined.

(** ** The rank and the totals of the universe *)

Lemma length_filter_perm {A : Type} (f : A -> bool) (l l' : list A) :
  Permutation l l' ->
  List.length (filter f l) = List.length (filter f l').
Proof.
  induction 1 as [|x l l' _ IH|x y l|l l' l'' _ IH1 _ IH2];
    cbn [filter].
  - reflexivity.
  - destruct (f x); cbn [List.length]; now rewrite IH.
  - destruct (f x), (f y); reflexivity.
  - now rewrite IH1.
Qed.

Lemma length_filter_map {A B : Type} (f : B -> bool) (h : A -> B)
  (l : list A) :
  List.length (filter f (map h l))
  = List.length (filter (fun a => f (h a)) l).
Proof.
  induction l as [|a l IH]; cbn [map filter]; [reflexivity|].
  destruct (f (h a)); cbn [List.length]; now rewrite IH.
Qed.

Lemma length_filter_le {A : Type} (f : A -> bool) (l : list A) :
  (List.length (filter f l) <= List.length l)%nat.
Proof.
  induction l as [|a l IH]; cbn [filter List.length]; [lia|].
  destruct (f a); cbn [List.length]; lia.
Qed.

Lemma filter_none {A : Type} (f : A -> bool) (l : list A) :
  (forall a, In a l -> f a = false) -> filter f l = [].
Proof.
  intros H. apply first_none_nil, first_filter_none. exact H.
Qed.

Lemma filter_all {A : Type} (f : A -> bool) (l : list A) :
  (forall a, In a l -> f a = true) -> filter f l = l.
Proof.
  induction l as [|a l IH]; intros H; cbn [filter]; [reflexivity|].
  rewrite (H a (or_introl eq_refl)). f_equal.
  apply IH. intros b Hb. apply H. now right.
Qed.

(** In a sorted list the elements before a position dominate the one at
    it, which dominates those after. *)
Lemma StronglySorted_split {A : Type} (R : A -> A -> Prop)
  (l1 : list A) (x : A) (l2 : list A) :
  StronglySorted R (l1 ++ x :: l2) ->
  (forall y, In y l1 -> R y x) /\ (forall y, In y l2 -> R x y).
Proof.
  induction l1 as [|a l1 IH]; cbn [app]; intros H; inversion H as [|? ? Hs Hf];
    subst.
  - split; [intros y []|]. now apply Forall_forall.
  - destruct (IH Hs) as [H1 H2]. split; [|exact H2].
    intros y [<-|Hy]; [|now apply H1].
    rewrite Forall_forall in Hf. apply Hf. apply in_elt.
Qed.

(** The single-user query reports for the user of a ranked row the rounded
    30-day total of that row. *)
Lemma ranked_row_total (db : Session) (R : Z) (row : Row.t) :
  In row (ranked_rows db R) ->
  total_30d_of db R (Row.username row) = py_round2 (Row.total_30d row).
Proof.
  intros Hrow. set (u := Row.username row).
  pose proof (ranked_row_of_user db R row Hrow) as Erow. fold u in Erow.
  destruct (ranked_rows_groups db R row Hrow) as (u' & g & Hg & _ & Eg).
  destruct (row_to_usage_periods_total R u' g Hg) as [p Hp].
  rewrite <- Eg, Erow in Hp.
  assert (Hne : window_records db u (R - timedelta_days 30) R <> []).
  { destruct (row_to_usage_periods_inv _ _ Hp) as (s1 & _ & H1 & _).
    cbn [aggregate_group snd fst _build_usage_aggregation Row.sessions_1d
         Agg.sessions_1d] in H1.
    intros E. rewrite E in H1. discriminate. }
  unfold total_30d_of.
  destruct (get_user_details_total db u R) as [[d|] Hd]; rewrite Hd.
  - destruct (get_user_details_found _ _ _ _ Hd) as (_ & _ & [[E _]|[_ Hp']]);
      [contradiction|].
    rewrite Hp in Hp'. injection Hp' as Hp'.
    destruct (row_to_usage_periods_inv _ _ Hp) as (s1 & s7 & _ & _ & Ep).
    rewrite <- Erow in Ep.
    change (UserDetailsResponse.usage_30_days d)
      with (Periods.usage_30_days (details_periods d)).
    rewrite <- Hp', Ep. reflexivity.
  - exfalso.
    destruct (window_records db u (R - timedelta_days 30) R) as [|r l] eqn:E;
      [congruence|].
    assert (Hr : In r (window_records db u (R - timedelta_days 30) R))
      by (rewrite E; now left).
    unfold window_records in Hr. apply filter_In in Hr. destruct Hr as [Hr Hu].
    apply andb_true_iff in Hu. destruct Hu as [Hu _].
    apply String.eqb_eq in Hu.
    exact (get_user_details_none _ _ _ Hd r Hr Hu).
Qed.

(** Counting the users of the window by their reported total is counting
    the ranked rows by their rounded total. *)
Lemma count_users_by_total (db : Session) (R : Z) (f : Q -> bool) :
  List.length (filter (fun u => f (total_30d_of db R u)) (window_users db R))
  = List.length
      (filter (fun row => f (py_round2 (Row.total_30d row)))
         (ranked_rows db R)).
Proof.
  unfold window_users.
  rewrite <- (length_filter_perm _ _ _ (ranked_usernames_perm db R)).
  rewrite length_filter_map. f_equal.
  apply filter_ext_in. intros row Hrow.
  now rewrite (ranked_row_total db R row Hrow).
Qed.

(** X25. The rank is the global position in the order of the 30-day
    totals, whatever the order among equal totals: for an entry of page
    [p >= 1] with page size [n >= 1], fewer than [rank] users of the 30-day
    window have a greater 30-day [total_kb] (as the single-user query
    reports it at the same instant), and at least [rank] users have a
    total that is greater or equal. *)
Theorem rank_between_totals (db : Session) (R p n : Z)
  (resp : TopUsersResponse.t) (e : TopUserEntry.t) :
  1 <= p -> 1 <= n ->
  get_top_users db R p n = Ok resp ->
  In e (TopUsersResponse.data resp) ->
  users_above db R (UsagePeriod.total_kb (TopUserEntry.usage_30_days e))
  < TopUserEntry.rank e
  <= users_at_least db R
       (UsagePeriod.total_kb (TopUserEntry.usage_30_days e)).
Proof.
  intros Hp Hn Hget He.
  apply In_nth_error in He. destruct He as [i He].
  destruct (get_top_users_entry db R p n resp i e Hp ltac:(lia) Hget He)
    as (row & per & Hrow & Hper & ->).
  destruct (row_to_usage_periods_inv _ _ Hper) as (s1 & s7 & _ & _ & ->).
  cbn [entry_of TopUserEntry.rank TopUserEntry.usage_30_days
       Periods.usage_30_days UsagePeriod.total_kb].
  set (k := (Z.to_nat ((p - 1) * n) + i)%nat) in *.
  replace ((p - 1) * n + Z.of_nat i + 1) with (Z.of_nat k + 1)
    by (unfold k; nia).
  unfold users_above, users_at_least.
  rewrite (count_users_by_total db R
             (fun t => negb (Qle_bool t (py_round2 (Row.total_30d row))))).
  rewrite (count_users_by_total db R
             (fun t => Qle_bool (py_round2 (Row.total_30d row)) t)).
  destruct (nth_error_split _ _ Hrow) as (l1 & l2 & El & Hl1).
  pose proof (ranked_rows_sorted db R) as Hs. rewrite El in Hs |- *.
  destruct (StronglySorted_split _ _ _ _ Hs) as [Hbefore Hafter].
  rewrite !filter_app, !length_app. split.
  - rewrite (filter_none _ (row :: l2)).
    + pose proof (length_filter_le
                    (fun r => negb (Qle_bool (py_round2 (Row.total_30d r))
                                      (py_round2 (Row.total_30d row)))) l1).
      cbn [List.length]. lia.
    + intros r Hr. apply negb_false_iff, Qle_bool_iff, py_round2_mono.
      destruct Hr as [<-|Hr]; [apply Qle_refl|exact (Hafter r Hr)].
  - rewrite (filter_all _ l1).
    + cbn [filter]. 
      assert (E : Qle_bool (py_round2 (Row.total_30d row))
                    (py_round2 (Row.total_30d row)) = true)
        by (apply Qle_bool_iff, Qle_refl).
      rewrite E. cbn [List.length]. lia.
    + intros r Hr. apply Qle_bool_iff, py_round2_mono. exact (Hbefore r Hr).
Qed.

Lemma rank_between_totals_witness :
  exists resp e,
    get_top_users sample_records REF_DATE 2 1 = Ok resp
    /\ hd_error (TopUsersResponse.data resp) = Some e
    /\ users_above sample_records REF_DATE
         (UsagePeriod.total_kb (TopUserEntry.usage_30_days e))
       < TopUserEntry.rank e
       <= users_at_least sample_records REF_DATE
            (UsagePeriod.total_kb (TopUserEntry.usage_30_days e)).
Proof.
  eexists. eexists. split; [vm_compute; reflexivity|].
  split; [reflexivity|].
  eapply (rank_between_totals sample_records REF_DATE 2 1);
    [lia | lia | vm_compute; reflexivity | left; reflexivity].
Defined.

(** ** Records outside the window *)

(** X7. Records that start after [R] or more than 30 days before [R] do
    not influence the top-users result, wherever they sit in the store. *)
Theorem out_of_window_records_ignored (db1 extra db2 : Session)
  (R page per_page : Z) :
  (forall r, In r extra ->
     ~ (R - timedelta_days 30 <= UsageRecord.start_time r <= R)) ->
  get_top_users (db1 ++ extra ++ db2) R page per_page
  = get_top_users (db1 ++ db2) R page per_page.
Proof.
  intros Hout.
  assert (Hf : filter (in_window (R - timedelta_days 30) R)
                 (db1 ++ extra ++ db2)
               = filter (in_window (R - timedelta_days 30) R) (db1 ++ db2)).
  { rewrite !filter_app.
    replace (filter (in_window (R - timedelta_days 30) R) extra)
      with (@nil UsageRecord.t); [reflexivity|].
    symmetry. apply first_none_nil, first_filter_none. intros r Hr.
    unfold in_window. apply andb_false_iff. rewrite !Z.leb_gt.
    pose proof (Hout r Hr). lia. }
  unfold get_top_users, ranked_rows, count_users.
  cbv beta iota zeta delta [_build_usage_aggregation].
  rewrite Hf. reflexivity.
Qed.

Lemma out_of_window_records_ignored_witness :
  get_top_users
    (sample_records
     ++ [usage "lateUser" "AA:BB:CC:DD:EE:09" (datetime 2023 1 1 0 0 0)
           60 1 1]
     ++ []) REF_DATE 1 10
  = get_top_users (sample_records ++ []) REF_DATE 1 10.
Proof.
  apply out_of_window_records_ignored.
  intros r [<-|[]]. vm_compute. intros [_ H]. now apply H.
Defined.

(** ** Every window record is counted once *)








(** ** Text helpers of the ingestion *)

Lemma rstrip_cons (c : ascii) (s : string) :
  Str.rstrip (String c s)
  = match Str.rstrip s with
    | EmptyString =>
        if Str.is_space c then EmptyString else String c EmptyString
    | t => String c t
    end.
Proof. reflexivity. Qed.

Lemma rstrip_idempotent (s : string) : Str.rstrip (Str.rstrip s) = Str.rstrip s.
Proof.
  induction s as [|c s IH]; [reflexivity|].
  rewrite rstrip_cons. destruct (Str.rstrip s) as [|c' r] eqn:E.
  - destruct (Str.is_space c) eqn:Ec; [reflexivity|].
    rewrite rstrip_cons. cbn [Str.rstrip]. now rewrite Ec.
  - rewrite rstrip_cons, IH. reflexivity.
Qed.

Lemma rstrip_head (c : ascii) (s : string) :
  Str.is_space c = false ->
  exists t, Str.rstrip (String c s) = String c t.
Proof.
  intros Hc. rewrite rstrip_cons. destruct (Str.rstrip s); rewrite ?Hc; eauto.
Qed.

Lemma lstrip_head (s : string) :
  Str.lstrip s = EmptyString
  \/ exists c t, Str.lstrip s = String c t /\ Str.is_space c = false.
Proof.
  induction s as [|c s IH]; [now left|].
  cbn [Str.lstrip]. destruct (Str.is_space c) eqn:Ec; [exact IH|].
  right. eauto.
Qed.

(** Stripping twice is stripping once. *)
Lemma strip_idempotent (s : string) : Str.strip (Str.strip s) = Str.strip s.
Proof.
  unfold Str.strip.
  destruct (lstrip_head s) as [->|(c & t & -> & Hc)]; [reflexivity|].
  destruct (rstrip_head c t Hc) as [r Hr].
  assert (Hl : Str.lstrip (Str.rstrip (String c t)) = Str.rstrip (String c t)).
  { rewrite Hr. cbn [Str.lstrip]. now rewrite Hc. }
  rewrite Hl. apply rstrip_idempotent.
Qed.

Lemma lstrip_spaces (ws s : string) :
  all_space ws = true -> Str.lstrip (ws ++ s) = Str.lstrip s.
Proof.
  induction ws as [|c ws IH]; intros H; [reflexivity|].
  cbn [all_space] in H. apply andb_true_iff in H. destruct H as [Hc Hws].
  cbn [String.append Str.lstrip]. rewrite Hc. now apply IH.
Qed.

Lemma lstrip_all_space (ws : string) :
  all_space ws = true -> Str.lstrip ws = EmptyString.
Proof.
  induction ws as [|c ws IH]; intros H; [reflexivity|].
  cbn [all_space] in H. apply andb_true_iff in H. destruct H as [Hc Hws].
  cbn [Str.lstrip]. rewrite Hc. now apply IH.
Qed.

Lemma rstrip_all_space (ws : string) :
  all_space ws = true -> Str.rstrip ws = EmptyString.
Proof.
  induction ws as [|c ws IH]; intros H; [reflexivity|].
  cbn [all_space] in H. apply andb_true_iff in H. destruct H as [Hc Hws].
  rewrite rstrip_cons. now rewrite IH, Hc.
Qed.

Lemma rstrip_spaces (s ws : string) :
  all_space ws = true -> Str.rstrip (s ++ ws) = Str.rstrip s.
Proof.
  intros H. induction s as [|c s IH].
  - cbn [String.append]. now apply rstrip_all_space.
  - cbn [String.append]. rewrite !rstrip_cons. now rewrite IH.
Qed.

Lemma strip_spaces (ws1 s ws2 : string) :
  all_space ws1 = true -> all_space ws2 = true ->
  Str.strip (ws1 ++ s ++ ws2) = Str.strip s.
Proof.
  intros H1 H2. unfold Str.strip. rewrite (lstrip_spaces _ _ H1).
  induction s as [|c s IH].
  - cbn [String.append]. now rewrite (lstrip_all_space _ H2).
  - cbn [String.append Str.lstrip].
    destruct (Str.is_space c); [exact IH|].
    change (String c (s ++ ws2)) with ((String c s) ++ ws2)%string.
    now apply rstrip_spaces.
Qed.

Lemma split_length (sep : ascii) (s : string) :
  List.length (Str.split sep s) = S (count_char sep s).
Proof.
  induction s as [|c s IH]; [reflexivity|].
  cbn [Str.split count_char]. destruct (Ascii.eqb c sep).
  - cbn [List.length]. now rewrite IH.
  - destruct (Str.split sep s); cbn [List.length] in *; [discriminate|].
    exact IH.
Qed.

(** ** parse_usage_time *)

Section ParseUsageTime.

Variable int : string -> option Z.

(** A usage time that parses is a duration [h*3600 + m*60 + s] with
    [h >= 0] and minutes and seconds in [0, 59] read from exactly three
    colon-separated parts; it is never negative, and hours, minutes and
    seconds are recovered from it by division. *)
Lemma parse_usage_time_inv (time_str : string) (t : Z) :
  parse_usage_time int time_str = Ok t ->
  exists p0 p1 p2 h m s,
    Str.split ":"%char (Str.strip time_str) = [p0; p1; p2]
    /\ int p0 = Some h /\ int p1 = Some m /\ int p2 = Some s
    /\ 0 <= h /\ 0 <= m <= 59 /\ 0 <= s <= 59
    /\ t = h * 3600 + m * 60 + s
    /\ 0 <= t
    /\ t / 3600 = h /\ (t mod 3600) / 60 = m /\ t mod 60 = s.
Proof.
  unfold parse_usage_time.
  destruct (Str.split ":"%char (Str.strip time_str))
    as [|p0 [|p1 [|p2 [|p3 l]]]] eqn:Es; try discriminate.
  destruct (int p0) as [h|] eqn:E0; [|discriminate].
  destruct (int p1) as [m|] eqn:Em; [|discriminate].
  destruct (int p2) as [s|] eqn:Ee; [|discriminate].
  destruct (Z.ltb_spec m 0), (Z.ltb_spec 59 m), (Z.ltb_spec s 0),
           (Z.ltb_spec 59 s), (Z.ltb_spec h 0);
    cbn [orb]; try discriminate.
  intros Ht. injection Ht as <-.
  exists p0, p1, p2, h, m, s.
  assert (E1 : (h * 3600 + m * 60 + s) / 3600 = h).
  { symmetry. apply (Z.div_unique _ 3600 h (m * 60 + s)); lia. }
  assert (E2 : (h * 3600 + m * 60 + s) mod 3600 = m * 60 + s).
  { symmetry. apply (Z.mod_unique _ 3600 h (m * 60 + s)); lia. }
  assert (E3 : (h * 3600 + m * 60 + s) mod 60 = s).
  { symmetry. apply (Z.mod_unique _ 60 (h * 60 + m) s); lia. }
  assert (E4 : (m * 60 + s) / 60 = m).
  { symmetry. apply (Z.div_unique _ 60 m s); lia. }
  rewrite E1, E2, E3, E4.
  repeat split; try reflexivity; try assumption; lia.
Qed.

(** X9. A usage time that parses is a duration [h*3600 + m*60 + s] with
    [h >= 0] and minutes and seconds in [0, 59] read from exactly three
    colon-separated parts; it is never negative, and hours, minutes and
    seconds are recovered from it by division. *)
Theorem parse_usage_time_sound (time_str : string) (t : Z) :
  parse_usage_time int time_str = Ok t ->
  exists p0 p1 p2 h m s,
    Str.split ":"%char (Str.strip time_str) = [p0; p1; p2]
    /\ int p0 = Some h /\ int p1 = Some m /\ int p2 = Some s
    /\ 0 <= h /\ 0 <= m <= 59 /\ 0 <= s <= 59
    /\ t = h * 3600 + m * 60 + s
    /\ 0 <= t
    /\ t / 3600 = h /\ (t mod 3600) / 60 = m /\ t mod 60 = s.
Proof. apply parse_usage_time_inv. Qed.

(** X10. A usage time that does not consist of exactly three
    colon-separated parts (two colons) is refused with the format error,
    whatever its parts are. *)
Theorem parse_usage_time_needs_two_colons (time_str : string) :
  count_char ":"%char (Str.strip time_str) <> 2%nat ->
  parse_usage_time int time_str
  = Raise (ValueError "expected H:MM:SS or HH:MM:SS").
Proof.
  intros Hc. unfold parse_usage_time.
  pose proof (split_length ":"%char (Str.strip time_str)) as Hl.
  destruct (Str.split ":"%char (Str.strip time_str))
    as [|p0 [|p1 [|p2 [|p3 l]]]]; try reflexivity.
  cbn [List.length] in Hl. lia.
Qed.

(** X11. Whitespace around a usage time does not change how it parses. *)
Theorem parse_usage_time_ignores_padding (ws1 time_str ws2 : string) :
  all_space ws1 = true -> all_space ws2 = true ->
  parse_usage_time int (ws1 ++ time_str ++ ws2)
  = parse_usage_time int time_str.
Proof.
  intros H1 H2. unfold parse_usage_time.
  now rewrite (strip_spaces _ _ _ H1 H2).
Qed.

End ParseUsageTime.

Lemma parse_usage_time_sound_witness :
  exists p0 p1 p2 h m s,
    Str.split ":"%char (Str.strip " 1:30:45 ") = [p0; p1; p2]
    /\ read_decimal p0 = Some h /\ read_decimal p1 = Some m
    /\ read_decimal p2 = Some s
    /\ 0 <= h /\ 0 <= m <= 59 /\ 0 <= s <= 59
    /\ 5445 = h * 3600 + m * 60 + s
    /\ 0 <= 5445
    /\ 5445 / 3600 = h /\ (5445 mod 3600) / 60 = m /\ 5445 mod 60 = s.
Proof.
  apply (parse_usage_time_sound read_decimal " 1:30:45 " 5445).
  reflexivity.
Defined.

Lemma parse_usage_time_needs_two_colons_witness :
  parse_usage_time read_decimal "1:30"
  = Raise (ValueError "expected H:MM:SS or HH:MM:SS").
Proof.
  apply parse_usage_time_needs_two_colons. vm_compute. discriminate.
Defined.

Lemma parse_usage_time_ignores_padding_witness :
  parse_usage_time read_decimal ("  " ++ "1:30:45" ++ "  ")
  = parse_usage_time read_decimal "1:30:45".
Proof.
  apply parse_usage_time_ignores_padding; reflexivity.
Defined.

(** ** validate_dataframe and ingest_data *)

(** X12. [validate_dataframe] accepts a table exactly when every required
    column is among its stripped column names (the order of the columns
    and further columns do not matter); otherwise it raises the
    missing-columns [ValueError]. *)
Theorem validate_dataframe_iff (df : DataFrame.t) :
  (validate_dataframe df = Ok (strip_columns df) <->
   forall c, In c REQUIRED_COLUMNS ->
     In c (map Str.strip (DataFrame.columns df)))
  /\ (validate_dataframe df = Ok (strip_columns df)
      \/ validate_dataframe df = Raise (ValueError "Missing required columns")).
Proof.
  split.
  - split; [|apply validate_dataframe_ok].
    unfold validate_dataframe.
    destruct (filter _ REQUIRED_COLUMNS) as [|m l] eqn:E; [|discriminate].
    intros _ c Hc.
    pose proof (proj1 (first_filter_none _ _) (f_equal Sql.first E) c Hc)
      as Hm.
    cbv beta in Hm. apply negb_false_iff in Hm.
    unfold mem_string in Hm. apply existsb_exists in Hm.
    destruct Hm as (x & Hx & Ex). apply String.eqb_eq in Ex. now subst x.
  - unfold validate_dataframe.
    destruct (filter _ REQUIRED_COLUMNS); [now left|now right].
Qed.

Lemma validate_dataframe_iff_witness :
  validate_dataframe
    {| DataFrame.columns :=
         ["download "; " upload"; "usage_time"; "start_time "; " mac_address ";
          " username"; "notes"]%string;
       DataFrame.rows := [] |}
  = Ok (strip_columns
          {| DataFrame.columns :=
               ["download "; " upload"; "usage_time"; "start_time ";
                " mac_address "; " username"; "notes"]%string;
             DataFrame.rows := [] |}).
Proof.
  apply (proj1 (validate_dataframe_iff _)).
  intros c H. repeat (destruct H as [<-|H]; [cbn; tauto|]). destruct H.
Defined.

Section IngestOutcomes.

Variable int : string -> option Z.
Variable pd_to_datetime : string -> option Z.
Variable pd_to_numeric : string -> option Q.

Lemma traverse_length {A B : Type} (f : A -> result B) (l : list A) :
  forall l', traverse f l = Ok l' -> List.length l' = List.length l.
Proof.
  induction l as [|a l IH]; intros l'; cbn [traverse].
  - intros H. injection H as <-. reflexivity.
  - destruct (f a); [|discriminate]. cbn [bind].
    destruct (traverse f l) as [bs|]; [|discriminate].
    cbn [bind]. intros H. injection H as <-. cbn [List.length].
    now rewrite (IH bs).
Qed.

Lemma traverse_Forall {A B : Type} (f : A -> result B) (P : B -> Prop)
  (l : list A) :
  (forall a b, f a = Ok b -> P b) ->
  forall l', traverse f l = Ok l' -> Forall P l'.
Proof.
  intros Hf. induction l as [|a l IH]; intros l'; cbn [traverse].
  - intros H. injection H as <-. constructor.
  - destruct (f a) eqn:Ea; [|discriminate]. cbn [bind].
    destruct (traverse f l) as [bs|]; [|discriminate].
    cbn [bind]. intros H. injection H as <-.
    constructor; [eapply Hf; eassumption|now apply IH].
Qed.

(** The records built from six columns of one length. *)
Lemma to_records_spec (us ms : list string) :
  forall (ts ds : list Z) (ups downs : list Q),
    List.length ms = List.length us -> List.length ts = List.length us ->
    List.length ds = List.length us -> List.length ups = List.length us ->
    List.length downs = List.length us ->
    List.length (to_records us ms ts ds ups downs) = List.length us
    /\ map UsageRecord.username (to_records us ms ts ds ups downs) = us
    /\ map UsageRecord.mac_address (to_records us ms ts ds ups downs) = ms
    /\ map UsageRecord.usage_time_seconds (to_records us ms ts ds ups downs)
       = ds
    /\ map UsageRecord.upload_kb (to_records us ms ts ds ups downs) = ups
    /\ map UsageRecord.download_kb (to_records us ms ts ds ups downs) = downs
    /\ Forall (fun r => UsageRecord.total_kb r
                        = (UsageRecord.upload_kb r
                           + UsageRecord.download_kb r)%Q)
         (to_records us ms ts ds ups downs).
Proof.
  revert ms. induction us as [|u us IH];
    intros [|m ms] [|t ts] [|d ds] [|up ups] [|down downs];
    cbn [List.length]; intros H1 H2 H3 H4 H5; try discriminate.
  - cbn. repeat split; constructor.
  - destruct (IH ms ts ds ups downs) as (L & U & M & D & Up & Dn & F);
      try congruence.
    cbn [to_records map List.length]. rewrite L, U, M, D, Up, Dn.
    repeat split; try reflexivity. constructor; [reflexivity|exact F].
Qed.

(** The transformed records, column by column. *)
Lemma transform_spec (df : DataFrame.t) (records : list UsageRecord.t) :
  transform int pd_to_datetime pd_to_numeric df = Ok records ->
  List.length records = List.length (DataFrame.rows df)
  /\ map UsageRecord.username records
     = map Str.strip (DataFrame.column df "username")
  /\ map UsageRecord.mac_address records
     = map Str.strip (DataFrame.column df "mac_address")
  /\ traverse (parse_usage_time int) (DataFrame.column df "usage_time")
     = Ok (map UsageRecord.usage_time_seconds records)
  /\ map Some (map UsageRecord.upload_kb records)
     = map pd_to_numeric (DataFrame.column df "upload")
  /\ map Some (map UsageRecord.download_kb records)
     = map pd_to_numeric (DataFrame.column df "download")
  /\ Forall (fun r => UsageRecord.total_kb r
                      = (UsageRecord.upload_kb r + UsageRecord.download_kb r)%Q)
       records.
Proof.
  unfold transform.
  destruct (traverse (to_datetime pd_to_datetime) _) as [starts|] eqn:Es;
    [|discriminate].
  cbn [bind].
  destruct (traverse (parse_usage_time int) _) as [durations|] eqn:Ed;
    [|discriminate].
  cbn [bind].
  destruct (all_numeric (map pd_to_numeric (DataFrame.column df "upload")))
    as [ups|] eqn:Eu; [|discriminate].
  cbn [bind].
  destruct (all_numeric (map pd_to_numeric (DataFrame.column df "download")))
    as [downs|] eqn:Edn; [|discriminate].
  cbn [bind]. intros H. injection H as <-.
  assert (Hcol : forall c, List.length (DataFrame.column df c)
                           = List.length (DataFrame.rows df))
    by (intros c; unfold DataFrame.column; apply length_map).
  assert (Hnum : forall l qs, all_numeric l = Ok qs -> map Some qs = l).
  { clear. induction l as [|v l IH]; intros qs; unfold all_numeric;
      cbn [traverse].
    - intros H. injection H as <-. reflexivity.
    - destruct v as [q|]; [|discriminate]. cbn [bind].
      fold (all_numeric l). destruct (all_numeric l) as [qs'|]; [|discriminate].
      cbn [bind]. intros H. injection H as <-. cbn [map].
      now rewrite (IH qs'). }
  pose proof (traverse_length _ _ _ Es) as Ls.
  pose proof (traverse_length _ _ _ Ed) as Ld.
  pose proof (Hnum _ _ Eu) as Hu. pose proof (Hnum _ _ Edn) as Hdn.
  assert (Lu : List.length ups = List.length (DataFrame.rows df)).
  { rewrite <- (length_map Some ups), Hu, length_map. apply Hcol. }
  assert (Ldn : List.length downs = List.length (DataFrame.rows df)).
  { rewrite <- (length_map Some downs), Hdn, length_map. apply Hcol. }
  destruct (to_records_spec
              (map Str.strip (DataFrame.column df "username"))
              (map Str.strip (DataFrame.column df "mac_address"))
              starts durations ups downs)
    as (L & U & M & D & Up & Dn & F);
    rewrite ?length_map, ?Hcol in *; try congruence.
  rewrite U, M, D, Up, Dn, Hu, Hdn, L.
  repeat split; try reflexivity; assumption.
Qed.

(** X13. [ingest_data] never loses stored data on a validation failure:
    whenever it raises [ValueError] (missing columns, a start time, usage
    time or volume that does not convert) the store is as before, also with
    [clear_existing = True]. *)
Theorem ingest_value_error_keeps_store (df : DataFrame.t) (session : Session)
  (batch_size : Z) (clear_existing : bool) (msg : string) (after : Session) :
  ingest_data int pd_to_datetime pd_to_numeric df session batch_size
    clear_existing = (Raise (ValueError msg), after) ->
  after = session.
Proof.
  unfold ingest_data.
  destruct (validate_dataframe (strip_columns df)) as [df'|e];
    [|intros H; now injection H].
  destruct (DataFrame.empty df'); [discriminate|].
  destruct (transform int pd_to_datetime pd_to_numeric df') as [records|e];
    [|intros H; now injection H].
  unfold math_ceil_div. destruct (batch_size =? 0); [discriminate|].
  destruct (batch_size <? 0); [discriminate|].
  destruct (insert_batches _ _ _ _ _). discriminate.
Qed.

Lemma table_with_rows (df : DataFrame.t) :
  (forall c, In c REQUIRED_COLUMNS ->
     In c (map Str.strip (DataFrame.columns df))) ->
  DataFrame.rows df <> [] ->
  DataFrame.empty (strip_columns df) = false.
Proof.
  intros Hcols Hrows. unfold DataFrame.empty.
  cbn [strip_columns DataFrame.columns DataFrame.rows].
  pose proof (Hcols "username"%string (or_introl eq_refl)) as Hc.
  destruct (map Str.strip (DataFrame.columns df)); [destruct Hc|].
  destruct (DataFrame.rows df); [congruence|reflexivity].
Qed.

Lemma strip_columns_idempotent (df : DataFrame.t) :
  strip_columns (strip_columns df) = strip_columns df.
Proof.
  unfold strip_columns. cbn [DataFrame.columns DataFrame.rows]. f_equal.
  rewrite map_map. apply map_ext. intros c. apply strip_idempotent.
Qed.

(** The steps of [ingest_data] up to the delete. *)
Lemma ingest_data_ok_inv (df : DataFrame.t) (session : Session)
  (batch_size : Z) (clear_existing : bool) (count : Z) (after : Session) :
  DataFrame.rows df <> [] ->
  ingest_data int pd_to_datetime pd_to_numeric df session batch_size
    clear_existing = (Ok count, after) ->
  (forall c, In c REQUIRED_COLUMNS ->
     In c (map Str.strip (DataFrame.columns df)))
  /\ exists records,
       transform int pd_to_datetime pd_to_numeric (strip_columns df)
       = Ok records.
Proof.
  intros Hrows. unfold ingest_data.
  destruct (validate_dataframe (strip_columns df)) as [df'|e] eqn:Ev;
    [|discriminate].
  assert (Hcols : forall c, In c REQUIRED_COLUMNS ->
                    In c (map Str.strip (DataFrame.columns (strip_columns df)))).
  { unfold validate_dataframe in Ev.
    destruct (filter _ REQUIRED_COLUMNS) as [|m l] eqn:E; [|discriminate].
    intros c Hc.
    pose proof (proj1 (first_filter_none _ _) (f_equal Sql.first E) c Hc)
      as Hm.
    cbv beta in Hm. apply negb_false_iff in Hm.
    unfold mem_string in Hm. apply existsb_exists in Hm.
    destruct Hm as (x & Hx & Ex). apply String.eqb_eq in Ex. now subst x. }
  rewrite validate_dataframe_ok in Ev by exact Hcols.
  injection Ev as <-. rewrite strip_columns_idempotent.
  assert (Hcols' : forall c, In c REQUIRED_COLUMNS ->
                     In c (map Str.strip (DataFrame.columns df))).
  { intros c Hc. specialize (Hcols c Hc).
    cbn [strip_columns DataFrame.columns] in Hcols.
    rewrite map_map in Hcols. apply in_map_iff in Hcols.
    destruct Hcols as (x & Ex & Hx). rewrite strip_idempotent in Ex.
    apply in_map_iff. eauto. }
  rewrite (table_with_rows df Hcols' Hrows).
  destruct (transform int pd_to_datetime pd_to_numeric (strip_columns df))
    as [records|e]; [|discriminate].
  intros _. split; [exact Hcols'|eauto].
Qed.

(** X14. A successful ingestion of a table with data rows and a batch size
    of at least 1 returns the number of data rows and leaves the store as
    the old records (none after a clear) followed by one record per row;
    every such record has a trimmed username and MAC address,
    [total_kb = upload_kb + download_kb], and a duration that is not
    negative. *)
Theorem ingest_data_stores_all (df : DataFrame.t) (session : Session)
  (batch_size : Z) (clear_existing : bool) (count : Z) (after : Session) :
  1 <= batch_size ->
  DataFrame.rows df <> [] ->
  ingest_data int pd_to_datetime pd_to_numeric df session batch_size
    clear_existing = (Ok count, after) ->
  count = Z.of_nat (List.length (DataFrame.rows df))
  /\ exists records,
       after = (if clear_existing then [] else session) ++ records
       /\ List.length records = List.length (DataFrame.rows df)
       /\ Forall
            (fun r =>
               trimmed (UsageRecord.username r)
               /\ trimmed (UsageRecord.mac_address r)
               /\ UsageRecord.total_kb r
                  = (UsageRecord.upload_kb r + UsageRecord.download_kb r)%Q
               /\ 0 <= UsageRecord.usage_time_seconds r)
            records.
Proof.
  intros Hb Hrows Hin.
  destruct (ingest_data_ok_inv _ _ _ _ _ _ Hrows Hin) as (Hcols & records & Ht).
  rewrite <- strip_columns_idempotent in Ht.
  rewrite (ingest_data_inserts int pd_to_datetime pd_to_numeric df session
             batch_size clear_existing records Hcols Hrows Ht Hb) in Hin.
  injection Hin as Hc Ha. subst count after.
  destruct (transform_spec _ _ Ht) as (L & U & M & D & _ & _ & F).
  cbn [strip_columns DataFrame.rows] in L.
  split; [now rewrite L|]. exists records.
  split; [reflexivity|]. split; [exact L|].
  assert (Hsecs : Forall (fun t => 0 <= t)
                    (map UsageRecord.usage_time_seconds records)).
  { eapply traverse_Forall; [|exact D]. intros a b Hab.
    destruct (parse_usage_time_inv int a b Hab)
      as (p0 & p1 & p2 & h & m & s & _ & _ & _ & _ & _ & _ & _ & _ & H0 & _).
    exact H0. }
  rewrite Forall_forall in *. intros r Hr. repeat split.
  - assert (Hu : In (UsageRecord.username r)
                   (map UsageRecord.username records)) by now apply in_map.
    rewrite U in Hu. apply in_map_iff in Hu. destruct Hu as (x & <- & _).
    apply strip_idempotent.
  - assert (Hm : In (UsageRecord.mac_address r)
                   (map UsageRecord.mac_address records)) by now apply in_map.
    rewrite M in Hm. apply in_map_iff in Hm. destruct Hm as (x & <- & _).
    apply strip_idempotent.
  - now apply F.
  - apply Hsecs. now apply in_map.
Qed.

(** X16. A table that ingests with a batch size of 1 is not inserted with
    a batch size that is not positive: with batch size 0 the call raises
    [ZeroDivisionError], with a negative batch size it returns 0; in both
    cases the delete has already happened, so with [clear_existing = True]
    the store is left empty. *)
Theorem ingest_data_nonpositive_batch_size (df : DataFrame.t)
  (session : Session) (batch_size : Z) (clear_existing : bool)
  (count : Z) (after : Session) :
  DataFrame.rows df <> [] ->
  ingest_data int pd_to_datetime pd_to_numeric df session 1 clear_existing
  = (Ok count, after) ->
  batch_size <= 0 ->
  ingest_data int pd_to_datetime pd_to_numeric df session batch_size
    clear_existing
  = (if batch_size =? 0 then Raise ZeroDivisionError else Ok 0,
     if clear_existing then [] else session).
Proof.
  intros Hrows Hone Hb. unfold ingest_data in *.
  destruct (validate_dataframe (strip_columns df)) as [df'|e] eqn:Ev;
    [|discriminate].
  assert (He : DataFrame.empty df' = false).
  { unfold validate_dataframe in Ev.
    destruct (filter _ REQUIRED_COLUMNS) eqn:E; [|discriminate].
    injection Ev as <-. apply table_with_rows.
    - intros c Hc.
      pose proof (proj1 (first_filter_none _ _) (f_equal Sql.first E) c Hc)
        as Hm.
      cbv beta in Hm. apply negb_false_iff in Hm.
      unfold mem_string in Hm. apply existsb_exists in Hm.
      destruct Hm as (x & Hx & Ex). apply String.eqb_eq in Ex. subst x.
      cbn [strip_columns DataFrame.columns] in Hx |- *.
      rewrite map_map in Hx. apply in_map_iff in Hx.
      destruct Hx as (y & Ey & Hy). rewrite strip_idempotent in Ey.
      rewrite <- Ey. apply in_map_iff. exists (Str.strip y).
      split; [apply strip_idempotent|]. apply in_map. exact Hy.
    - cbn [strip_columns DataFrame.rows]. exact Hrows. }
  rewrite He in *.
  destruct (transform int pd_to_datetime pd_to_numeric df') as [records|e];
    [|discriminate].
  unfold math_ceil_div.
  destruct (Z.eqb_spec batch_size 0); [reflexivity|].
  destruct (Z.ltb_spec batch_size 0); [reflexivity|lia].
Qed.

End IngestOutcomes.

Lemma ingest_value_error_keeps_store_witness :
  snd (ingest_data read_decimal read_decimal decimal_volume bad_upload_table
         sample_records 5000 true)
  = sample_records.
Proof.
  apply (ingest_value_error_keeps_store read_decimal read_decimal
           decimal_volume bad_upload_table sample_records 5000 true
           "Invalid numeric values found in upload or download columns"
           (snd (ingest_data read_decimal read_decimal decimal_volume
                   bad_upload_table sample_records 5000 true))).
  reflexivity.
Defined.

Lemma ingest_data_stores_all_witness :
  1 = Z.of_nat (List.length (DataFrame.rows one_row_table))
  /\ exists records,
       snd (ingest_data read_decimal read_decimal decimal_volume
              one_row_table sample_records 5000 true)
       = (if true then [] else sample_records) ++ records
       /\ List.length records = List.length (DataFrame.rows one_row_table)
       /\ Forall
            (fun r =>
               trimmed (UsageRecord.username r)
               /\ trimmed (UsageRecord.mac_address r)
               /\ UsageRecord.total_kb r
                  = (UsageRecord.upload_kb r + UsageRecord.download_kb r)%Q
               /\ 0 <= UsageRecord.usage_time_seconds r)
            records.
Proof.
  apply (ingest_data_stores_all read_decimal read_decimal decimal_volume
           one_row_table sample_records 5000 true 1
           (snd (ingest_data read_decimal read_decimal decimal_volume
                   one_row_table sample_records 5000 true))).
  - lia.
  - discriminate.
  - reflexivity.
Defined.

Lemma ingest_data_nonpositive_batch_size_witness :
  ingest_data read_decimal read_decimal decimal_volume one_row_table
    sample_records 0 true
  = (Raise ZeroDivisionError, []).
Proof.
  apply (ingest_data_nonpositive_batch_size read_decimal read_decimal
           decimal_volume one_row_table sample_records 0 true 1
           (snd (ingest_data read_decimal read_decimal decimal_volume
                   one_row_table sample_records 1 true))).
  - discriminate.
  - reflexivity.
  - lia.
Defined.

(** ** The users router *)


Section UsersRouter.

Variable settings : Settings.t.
Variable fromisoformat : string -> option Z.

(** X17. What the top-users endpoint answers, with a configured default
    page size between 1 and [2 ^ 63 - 1].  It answers 422 exactly when the
    page is below 1 or a given page size is outside [1, 100].  Otherwise:
    a reference date that does not parse is refused with status 400, and
    so is an omitted one on an empty store; for a reference instant [R]
    (parsed, or the latest start time) at least 30 days after
    [datetime.min] and an offset below [2 ^ 63] the answer is the engine's
    response for the requested page, the effective page size and [R],
    with at most that many entries; for an earlier [R] or a greater offset
    an [OverflowError] leaves the handler. *)
Theorem list_top_users_answers (page per_page : option Z)
  (reference_date : option string) (db : Session) :
  1 <= Settings.DEFAULT_PAGE_SIZE settings < 2 ^ 63 ->
  let p := match page with Some p => p | None => 1 end in
  let n := match per_page with
           | Some n => n
           | None => Settings.DEFAULT_PAGE_SIZE settings
           end in
  let answer :=
    Bounded.list_top_users settings fromisoformat page per_page
      reference_date db in
  ((exists params, answer = Unprocessable params) <->
   (p < 1 \/ exists k, per_page = Some k /\ (k < 1 \/ 100 < k)))
  /\ (1 <= p ->
      (forall k, per_page = Some k -> 1 <= k <= 100) ->
      (forall text,
          reference_date = Some text -> fromisoformat text = None ->
          answer = HTTPException 400 (InvalidReferenceDate text))
      /\ (reference_date = None -> db = [] ->
          answer = HTTPException 400 NoDataAvailable)
      /\ (forall R,
            (exists text,
                reference_date = Some text /\ fromisoformat text = Some R)
            \/ (reference_date = None /\ max_start_time db = Some R) ->
            datetime_min <= R <= datetime_max ->
            (datetime_min + timedelta_days 30 <= R ->
             (p - 1) * n < 2 ^ 63 ->
             exists resp,
               answer = Response resp
               /\ Bounded.get_top_users db R p n = Ok resp
               /\ TopUsersResponse.page resp = p
               /\ TopUsersResponse.per_page resp = n
               /\ TopUsersResponse.reference_date resp = R
               /\ Z.of_nat (List.length (TopUsersResponse.data resp)) <= n)
            /\ (R < datetime_min + timedelta_days 30
                \/ 2 ^ 63 <= (p - 1) * n ->
                answer = Unhandled OverflowError))).
Proof.
  intros Hd p n answer. subst answer. unfold Bounded.list_top_users.
  fold p.
  set (inv_n := match per_page with
                | Some n0 =>
                    if (n0 <? 1) || (100 <? n0) then ["per_page"%string]
                    else []
                | None => []
                end).
  assert (Hinv : inv_n = [] <->
                 forall k, per_page = Some k -> 1 <= k <= 100).
  { unfold inv_n. destruct per_page as [k|].
    - destruct (Z.ltb_spec k 1), (Z.ltb_spec 100 k); cbn [orb]; split;
        try discriminate; try reflexivity;
        try (intros H'; specialize (H' k eq_refl); lia).
      intros _ k' E. injection E as <-. lia.
    - split; [discriminate|reflexivity]. }
  split.
  - split.
    + intros [params E].
      destruct (Z.ltb_spec p 1) as [Hp|Hp]; [now left|]. right.
      cbn [app] in E.
      destruct inv_n as [|x l] eqn:En.
      * exfalso.
        destruct reference_date as [text|].
        -- destruct (fromisoformat text) as [t|]; [|discriminate].
           destruct (Bounded.get_top_users db t p _); discriminate.
        -- destruct (max_start_time db) as [m|]; [|discriminate].
           destruct (Bounded.get_top_users db m p _); discriminate.
      * unfold inv_n in En. destruct per_page as [k|]; [|discriminate].
        exists k. split; [reflexivity|].
        destruct (Z.ltb_spec k 1), (Z.ltb_spec 100 k); cbn [orb] in En;
          try discriminate; lia.
    + intros [Hp|(k & -> & Hk)].
      * destruct (Z.ltb_spec p 1); [|lia]. cbn [app]. eauto.
      * assert (En : inv_n = ["per_page"%string]).
        { unfold inv_n.
          destruct (Z.ltb_spec k 1), (Z.ltb_spec 100 k); cbn [orb];
            try reflexivity; lia. }
        rewrite En. destruct (p <? 1); cbn [app]; eauto.
  - intros Hp Hn. destruct (Z.ltb_spec p 1); [lia|]. cbn [app].
    rewrite (proj2 Hinv Hn).
    assert (En : match per_page with
                 | Some n0 => n0
                 | None => Settings.DEFAULT_PAGE_SIZE settings
                 end = n) by reflexivity.
    assert (Hn' : 1 <= n < 2 ^ 63).
    { unfold n. destruct per_page as [k|]; [|exact Hd].
      specialize (Hn k eq_refl). lia. }
    replace (match per_page with
             | Some n0 => n0
             | None => Settings.DEFAULT_PAGE_SIZE settings
             end)
      with n by reflexivity.
    replace (match per_page with
             | None => Settings.DEFAULT_PAGE_SIZE settings
             | Some n0 => n0
             end)
      with n by (unfold n; now destruct per_page).
    split; [|split].
    + intros text -> Hf. now rewrite Hf.
    + intros -> ->. reflexivity.
    + intros R HR Hrange.
      assert (Hrun : (match reference_date with
                      | Some text =>
                          match fromisoformat text with
                          | Some t => Response t
                          | None =>
                              HTTPException 400 (InvalidReferenceDate text)
                          end
                      | None =>
                          match max_start_time db with
                          | Some max_date => Response max_date
                          | None => HTTPException 400 NoDataAvailable
                          end
                      end) = Response R).
      { destruct HR as [(text & -> & Hf)|[-> Hm]];
          [now rewrite Hf|now rewrite Hm]. }
      rewrite Hrun. split.
      * intros H30 Hoff.
        destruct (bounded_get_top_users_in_range db R p n
                    ltac:(lia) ltac:(lia) ltac:(lia) ltac:(nia))
          as (resp & Hb & Hget).
        rewrite Hb. exists resp. split; [reflexivity|].
        split; [reflexivity|].
        destruct (get_top_users_inv _ _ _ _ _ Hget)
          as (E1 & E2 & _ & E4 & _ & Hbuild).
        split; [exact E1|]. split; [exact E2|]. split; [exact E4|].
        destruct (build_entries_inv _ _ _ _ Hbuild) as [-> _].
        apply length_limit. lia.
      * intros [H30|Hoff].
        -- now rewrite (bounded_get_top_users_date_overflow db R p n H30).
        -- destruct (Z.lt_ge_cases R (datetime_min + timedelta_days 30))
             as [H30|H30].
           ++ now rewrite (bounded_get_top_users_date_overflow db R p n H30).
           ++ rewrite (bounded_get_top_users_bind_overflow db R p n);
                [reflexivity|lia|lia|lia].
Qed.



(** X19. What the user-details endpoint answers for a non-empty username.
    A timestamp that does not parse is refused with status 400.  For a
    timestamp that parses to [T] the answer is 404 exactly when no record
    of the store has that username, whatever [T]; for a user with records
    it is the found result of the engine, carrying the username and [T],
    when [T] is at least 30 days after [datetime.min], and for an earlier
    [T] an [OverflowError] leaves the handler. *)
Theorem user_details_answers (username timestamp : string) (db : Session) :
  let answer := Bounded.user_details fromisoformat username timestamp db in
  (username <> EmptyString ->
   fromisoformat timestamp = None ->
   answer = HTTPException 400 (InvalidTimestamp timestamp))
  /\ (forall T,
        username <> EmptyString ->
        fromisoformat timestamp = Some T ->
        (answer = HTTPException 404 (UserNotFound username) <->
         forall r, In r db -> UsageRecord.username r <> username)
        /\ ((exists r, In r db /\ UsageRecord.username r = username) ->
            (datetime_min + timedelta_days 30 <= T <= datetime_max ->
             exists d,
               answer = Response d
               /\ Bounded.get_user_details db username T = Ok (Some d)
               /\ UserDetailsResponse.username d = username
               /\ UserDetailsResponse.timestamp d = T)
            /\ (T < datetime_min + timedelta_days 30 ->
                answer = Unhandled OverflowError))).
Proof.
  intros answer. subst answer. unfold Bounded.user_details. split.
  - intros Hu Hf. destruct username; [congruence|]. cbn. now rewrite Hf.
  - intros T Hu Hf. destruct username as [|c u]; [congruence|].
    cbn [String.length Nat.ltb Nat.leb]. rewrite Hf.
    pose proof (bounded_get_user_details_none_iff db (String c u) T) as Hnone.
    split.
    + rewrite <- Hnone.
      destruct (Bounded.get_user_details db (String c u) T) as [[d|]|e];
        split; try discriminate; reflexivity.
    + intros Hex. split.
      * intros HT.
        rewrite (bounded_get_user_details_eq db (String c u) T HT).
        destruct (get_user_details_total db (String c u) T) as [[d|] Hd].
        -- rewrite Hd. exists d. split; [reflexivity|].
           split; [reflexivity|].
           destruct (get_user_details_found _ _ _ _ Hd) as (E1 & E2 & _).
           split; assumption.
        -- exfalso. destruct Hex as (r & Hr & E).
           exact (get_user_details_none _ _ _ Hd r Hr E).
      * intros HT.
        now rewrite (bounded_get_user_details_overflow db (String c u) T Hex HT).
Qed.


End UsersRouter.

Lemma list_top_users_answers_witness :
  exists resp,
    Bounded.list_top_users default_settings (fun _ => Some REF_DATE) None
      None (Some "2022-12-15T23:59:59"%string) sample_records
    = Response resp
    /\ TopUsersResponse.page resp = 1
    /\ TopUsersResponse.per_page resp = 10
    /\ TopUsersResponse.reference_date resp = REF_DATE.
Proof.
  pose proof (list_top_users_answers default_settings
                (fun _ => Some REF_DATE) None None
                (Some "2022-12-15T23:59:59"%string) sample_records
                ltac:(cbn; lia)) as H.
  cbv zeta in H. destruct H as [_ H].
  destruct (H ltac:(lia) ltac:(discriminate)) as (_ & _ & HR).
  destruct (HR REF_DATE
              (or_introl (ex_intro _ "2022-12-15T23:59:59"%string
                            (conj eq_refl eq_refl)))
              ltac:(vm_compute; split; discriminate)) as [Hok _].
  destruct (Hok ltac:(vm_compute; discriminate) ltac:(cbn; lia))
    as (resp & E & _ & E1 & E2 & E3 & _).
  exists resp. split; [exact E|]. split; [exact E1|].
  split; [exact E2|exact E3].
Defined.


Lemma user_details_answers_witness :
  Bounded.user_details (fun _ => Some REF_DATE) "nonExistentUser"
    "2022-12-15T23:59:59" sample_records
  = HTTPException 404 (UserNotFound "nonExistentUser").
Proof.
  pose proof (user_details_answers (fun _ => Some REF_DATE) "nonExistentUser"
                "2022-12-15T23:59:59" sample_records) as H.
  cbv zeta in H. destruct H as [_ Hfound].
  destruct (Hfound REF_DATE ltac:(discriminate) eq_refl) as [H404 _].
  apply H404. intros r H.
  repeat (destruct H as [<-|H]; [cbn; discriminate|]). destruct H.
Defined.


(** ** The upload router *)

Lemma flagged_rows_nil (flags : list bool) :
  forall idx, flagged_rows idx flags = [] ->
  forall b, In b flags -> b = false.
Proof.
  induction flags as [|f flags IH]; intros idx H b Hb; [destruct Hb|].
  cbn [flagged_rows] in H. destruct f; [discriminate|].
  destruct Hb as [<-|Hb]; [reflexivity|]. exact (IH _ H b Hb).
Qed.

Lemma existsb_false {A : Type} (f : A -> bool) (l : list A) :
  existsb f l = false -> forall a, In a l -> f a = false.
Proof.
  intros H a Ha. destruct (f a) eqn:E; [|reflexivity].
  rewrite <- H. symmetry. apply existsb_exists. eauto.
Qed.

Lemma traverse_total {A B : Type} (f : A -> result B) (l : list A) :
  (forall a, In a l -> exists b, f a = Ok b) ->
  exists l', traverse f l = Ok l'.
Proof.
  induction l as [|a l IH]; intros H; cbn [traverse]; [eauto|].
  destruct (H a (or_introl eq_refl)) as [b ->]. cbn [bind].
  destruct (IH (fun x Hx => H x (or_intror Hx))) as [bs ->].
  cbn [bind]. eauto.
Qed.

Lemma nth_set_nth_other (i j : nat) (v d : string) (row : list string) :
  i <> j -> nth i (set_nth j v row) d = nth i row d.
Proof.
  revert i j. induction row as [|x row IH]; intros i j Hij.
  - destruct j; reflexivity.
  - destruct j as [|j], i as [|i]; cbn [set_nth nth]; try reflexivity;
      try congruence.
    apply IH. congruence.
Qed.

Lemma index_of_inj (a b : string) (cols : list string) :
  In a cols ->
  DataFrame.index_of a cols = DataFrame.index_of b cols -> a = b.
Proof.
  induction cols as [|c cols IH]; intros Ha E; [destruct Ha|].
  cbn [DataFrame.index_of] in E.
  destruct (String.eqb_spec c a) as [Eca|Hca];
    destruct (String.eqb_spec c b) as [Ecb|Hcb];
    try congruence; try discriminate.
  destruct Ha as [Ha|Ha]; [congruence|]. apply IH; [exact Ha|congruence].
Qed.

(** Replacing one column leaves the other columns as they are. *)
Lemma column_assign_other (df : DataFrame.t) (c c' : string)
  (values : list string) :
  In c (DataFrame.columns df) -> c <> c' ->
  DataFrame.column (assign df c values) c' = DataFrame.column df c'.
Proof.
  intros Hc Hne. unfold DataFrame.column, assign.
  cbn [DataFrame.columns DataFrame.rows].
  assert (Hidx : DataFrame.index_of c' (DataFrame.columns df)
                 <> DataFrame.index_of c (DataFrame.columns df)).
  { intros E. apply Hne. symmetry in E. exact (index_of_inj _ _ _ Hc E). }
  generalize (DataFrame.rows df). intros rows. revert values.
  induction rows as [|row rows IH]; intros values.
  - destruct values; reflexivity.
  - destruct values as [|v values]; [reflexivity|].
    cbn [assign_rows map]. rewrite IH.
    now rewrite nth_set_nth_other.
Qed.

Section UploadFacts.

Variable decode_utf8 : string -> option string.
Variable read_csv : string -> csv_read.
Variable int : string -> option Z.
Variable pd_to_datetime : string -> option Z.
Variable pd_to_numeric : string -> option Q.

Lemma bad_time_rows_none (values : list string) :
  forall idx, bad_time_rows int idx values = Ok [] ->
  forall v, In v values -> exists t, parse_usage_time int v = Ok t.
Proof.
  induction values as [|val rest IH]; intros idx H v Hv; [destruct Hv|].
  cbn [bad_time_rows] in H.
  destruct (parse_usage_time int val) as [t|e] eqn:E.
  - destruct Hv as [<-|Hv]; [eauto|]. exact (IH _ H v Hv).
  - destruct e; try discriminate.
    destruct (bad_time_rows int (idx + 1) rest); discriminate.
Qed.

Lemma all_numeric_total (l : list (option Q)) :
  (forall v, In v l -> isna v = false) ->
  exists qs, all_numeric l = Ok qs.
Proof.
  intros H. apply traverse_total. intros v Hv.
  specialize (H v Hv). destruct v as [q|]; [eauto|discriminate].
Qed.

(** Whenever [ingest_data] raises with a batch size other than 0, the
    store is as before. *)
Lemma ingest_data_raise_keeps (df : DataFrame.t) (session : Session)
  (batch_size : Z) (clear_existing : bool) (e : exn) (after : Session) :
  batch_size <> 0 ->
  ingest_data int pd_to_datetime pd_to_numeric df session batch_size
    clear_existing = (Raise e, after) ->
  after = session.
Proof.
  intros Hb. unfold ingest_data.
  destruct (validate_dataframe (strip_columns df)) as [df'|e'];
    [|intros H; now injection H].
  destruct (DataFrame.empty df'); [discriminate|].
  destruct (transform int pd_to_datetime pd_to_numeric df') as [records|e'];
    [|intros H; now injection H].
  unfold math_ceil_div. destruct (Z.eqb_spec batch_size 0); [contradiction|].
  destruct (batch_size <? 0); [discriminate|].
  destruct (insert_batches _ _ _ _ _). discriminate.
Qed.

(** What a table that passed [_validate_csv_content] is known to
    satisfy. *)
Lemma validated_table (contents : string) (dfv : DataFrame.t) :
  _validate_csv_content decode_utf8 read_csv int pd_to_datetime pd_to_numeric
    contents = Response dfv ->
  exists text df,
    decode_utf8 contents = Some text
    /\ read_csv text = Parsed df
    /\ (forall c, In c REQUIRED_COLUMNS ->
          In c (map Str.strip (DataFrame.columns df)))
    /\ DataFrame.rows df <> []
    /\ (forall v, In v (map pd_to_numeric
                          (DataFrame.column (strip_columns df) "upload")) ->
          exists q, v = Some q /\ (0 <= q)%Q)
    /\ (forall v, In v (map pd_to_numeric
                          (DataFrame.column (strip_columns df) "download")) ->
          exists q, v = Some q /\ (0 <= q)%Q)
    /\ (forall v, In v (DataFrame.column (strip_columns df) "usage_time") ->
          exists t, parse_usage_time int v = Ok t)
    /\ (exists ts, traverse (to_datetime pd_to_datetime)
                     (DataFrame.column (strip_columns df) "start_time")
                   = Ok ts)
    /\ (forall u, In u (map Str.strip
                          (DataFrame.column (strip_columns df) "username")) ->
          u <> EmptyString /\ u <> "nan"%string)
    /\ (forall m, In m (map Str.strip
                          (DataFrame.column (strip_columns df) "mac_address"))
          -> m <> EmptyString /\ m <> "nan"%string).
Proof.
  unfold _validate_csv_content.
  destruct (MAX_FILE_SIZE_BYTES <? _); [discriminate|].
  destruct (String.length contents =? 0)%nat; [discriminate|].
  destruct (decode_utf8 contents) as [text|] eqn:Edec; [|discriminate].
  destruct (read_csv text) as [df| |msg] eqn:Eread; try discriminate.
  destruct (filter _ SORTED_REQUIRED_COLUMNS) as [|m0 l0] eqn:Emiss;
    [|discriminate].
  destruct (DataFrame.empty (strip_columns df)) eqn:Eempty; [discriminate|].
  destruct (flagged_rows 0 (map isna (map pd_to_numeric
             (DataFrame.column (strip_columns df) "upload")))) eqn:Eup;
    [|discriminate].
  destruct (flagged_rows 0 (map isna (map pd_to_numeric
             (DataFrame.column (strip_columns df) "download")))) eqn:Edown;
    [|discriminate].
  destruct (existsb negative (map pd_to_numeric
             (DataFrame.column (strip_columns df) "upload"))) eqn:Enup;
    [discriminate|].
  destruct (existsb negative (map pd_to_numeric
             (DataFrame.column (strip_columns df) "download"))) eqn:Endown;
    [discriminate|].
  destruct (bad_time_rows int 0
              (DataFrame.column (strip_columns df) "usage_time"))
    as [[|b bs]|e] eqn:Etime; try discriminate.
  destruct (traverse (to_datetime pd_to_datetime)
              (DataFrame.column (strip_columns df) "start_time"))
    as [ts|e] eqn:Est; [|destruct e; discriminate].
  destruct (flagged_rows 0
              (map (fun u => mem_string u [EmptyString; "nan"%string])
                 (map Str.strip
                    (DataFrame.column (strip_columns df) "username"))))
    eqn:Euser; [|discriminate].
  match goal with
  | |- context [flagged_rows 0 (map ?f (map Str.strip ?col))] =>
      destruct (flagged_rows 0 (map f (map Str.strip col))) eqn:Emac;
      [|discriminate]
  end.
  intros _.
  assert (Hcols : forall c, In c REQUIRED_COLUMNS ->
                    In c (map Str.strip (DataFrame.columns df))).
  { intros c Hc.
    assert (Hs : In c SORTED_REQUIRED_COLUMNS).
    { repeat (destruct Hc as [<-|Hc]; [cbn; tauto|]). destruct Hc. }
    pose proof (proj1 (first_filter_none _ _) (f_equal Sql.first Emiss) c Hs)
      as Hm.
    cbv beta in Hm. apply negb_false_iff in Hm.
    unfold mem_string in Hm. apply existsb_exists in Hm.
    destruct Hm as (x & Hx & Ex). apply String.eqb_eq in Ex. now subst x. }
  assert (Hnonneg : forall l,
             flagged_rows 0 (map isna l) = [] ->
             existsb negative l = false ->
             forall v, In v l -> exists q, v = Some q /\ (0 <= q)%Q).
  { intros l Hna Hneg v Hv.
    pose proof (flagged_rows_nil _ _ Hna (isna v) (in_map isna _ _ Hv)) as H1.
    pose proof (existsb_false _ _ Hneg v Hv) as H2.
    destruct v as [q|]; [|discriminate]. exists q. split; [reflexivity|].
    cbn [negative] in H2. apply negb_false_iff in H2.
    now apply Qle_bool_iff. }
  assert (Hnames : forall l,
             flagged_rows 0
               (map (fun u => mem_string u [EmptyString; "nan"%string]) l)
             = [] ->
             forall u, In u l -> u <> EmptyString /\ u <> "nan"%string).
  { intros l Hl u Hu.
    pose proof (flagged_rows_nil _ _ Hl _
                  (in_map (fun u => mem_string u [EmptyString; "nan"%string])
                     _ _ Hu)) as H1.
    cbv beta in H1. unfold mem_string in H1. cbn [existsb] in H1.
    apply orb_false_iff in H1. destruct H1 as [H1 H2].
    apply orb_false_iff in H2. destruct H2 as [H2 _].
    apply String.eqb_neq in H1, H2. auto. }
  assert (Hmac : DataFrame.column
                   (assign (strip_columns df) "username"
                      (map Str.strip
                         (DataFrame.column (strip_columns df) "username")))
                   "mac_address"
                 = DataFrame.column (strip_columns df) "mac_address").
  { apply column_assign_other; [|discriminate].
    cbn [strip_columns DataFrame.columns]. apply Hcols. cbn. tauto. }
  rewrite Hmac in Emac.
  exists text, df.
  split; [first [reflexivity|assumption]|].
  split; [first [reflexivity|assumption]|]. split; [exact Hcols|].
  split.
  { intros E. unfold DataFrame.empty in Eempty.
    cbn [strip_columns DataFrame.columns DataFrame.rows] in Eempty.
    rewrite E in Eempty. destruct (map Str.strip _); discriminate. }
  split; [now apply Hnonneg|]. split; [now apply Hnonneg|].
  split; [exact (bad_time_rows_none _ _ Etime)|].
  split; [eauto|].
  split; [exact (Hnames _ Euser)|exact (Hnames _ Emac)].
Qed.

Lemma validated_table_transforms (contents : string) (dfv : DataFrame.t) :
  _validate_csv_content decode_utf8 read_csv int pd_to_datetime pd_to_numeric
    contents = Response dfv ->
  exists text df records,
    decode_utf8 contents = Some text
    /\ read_csv text = Parsed df
    /\ (forall c, In c REQUIRED_COLUMNS ->
          In c (map Str.strip (DataFrame.columns df)))
    /\ DataFrame.rows df <> []
    /\ transform int pd_to_datetime pd_to_numeric (strip_columns df)
       = Ok records
    /\ Forall data_model_record records.
Proof.
  intros Hv.
  destruct (validated_table _ _ Hv)
    as (text & df & Edec & Eread & Hcols & Hrows & Hup & Hdown & Htime
        & [ts Hst] & Huser & Hmac).
  destruct (traverse_total (parse_usage_time int) _ Htime) as [ds Hds].
  destruct (all_numeric_total
              (map pd_to_numeric (DataFrame.column (strip_columns df) "upload")))
    as [ups Hups].
  { intros v Hv'. destruct (Hup v Hv') as (q & -> & _). reflexivity. }
  destruct (all_numeric_total
              (map pd_to_numeric
                 (DataFrame.column (strip_columns df) "download")))
    as [downs Hdowns].
  { intros v Hv'. destruct (Hdown v Hv') as (q & -> & _). reflexivity. }
  set (records := to_records
                    (map Str.strip
                       (DataFrame.column (strip_columns df) "username"))
                    (map Str.strip
                       (DataFrame.column (strip_columns df) "mac_address"))
                    ts ds ups downs).
  assert (Ht : transform int pd_to_datetime pd_to_numeric (strip_columns df)
               = Ok records).
  { unfold transform. rewrite Hst. cbn [bind]. rewrite Hds. cbn [bind].
    rewrite Hups. cbn [bind]. rewrite Hdowns. reflexivity. }
  clearbody records.
  exists text, df, records.
  split; [exact Edec|]. split; [exact Eread|]. split; [exact Hcols|].
  split; [exact Hrows|]. split; [exact Ht|].
  destruct (transform_spec _ _ _ _ _ Ht) as (_ & U & M & D & Up & Dn & F).
  rewrite Forall_forall in *. intros r Hr.
  assert (Hu : (0 <= UsageRecord.upload_kb r)%Q).
  { assert (Hi : In (Some (UsageRecord.upload_kb r))
                   (map Some (map UsageRecord.upload_kb records)))
      by (apply in_map, in_map; exact Hr).
    rewrite Up in Hi. destruct (Hup _ Hi) as (q & Eq & Hq).
    injection Eq as ->. exact Hq. }
  assert (Hd : (0 <= UsageRecord.download_kb r)%Q).
  { assert (Hi : In (Some (UsageRecord.download_kb r))
                   (map Some (map UsageRecord.download_kb records)))
      by (apply in_map, in_map; exact Hr).
    rewrite Dn in Hi. destruct (Hdown _ Hi) as (q & Eq & Hq).
    injection Eq as ->. exact Hq. }
  assert (Hname : In (UsageRecord.username r)
                    (map Str.strip
                       (DataFrame.column (strip_columns df) "username")))
    by (rewrite <- U; now apply in_map).
  assert (Hm : In (UsageRecord.mac_address r)
                 (map Str.strip
                    (DataFrame.column (strip_columns df) "mac_address")))
    by (rewrite <- M; now apply in_map).
  assert (Hsecs : Forall (fun t => 0 <= t)
                    (map UsageRecord.usage_time_seconds records)).
  { eapply traverse_Forall; [|exact D]. intros a b Hab.
    destruct (parse_usage_time_inv int a b Hab)
      as (p0 & p1 & p2 & h & m & s & _ & _ & _ & _ & _ & _ & _ & _ & H0 & _).
    exact H0. }
  rewrite Forall_forall in Hsecs.
  unfold data_model_record. rewrite (F r Hr).
  split; [exact Hu|]. split; [exact Hd|]. split; [reflexivity|].
  split; [lra|]. split; [exact (proj1 (Huser _ Hname))|].
  split.
  { apply in_map_iff in Hname. destruct Hname as (x & <- & _).
    apply strip_idempotent. }
  split; [exact (proj1 (Hmac _ Hm))|].
  apply Hsecs. now apply in_map.
Qed.

(** X21. What a successful upload has stored.  When the upload endpoint
    answers with the success body, the uploaded bytes decode and parse to
    a table; [records_ingested] is the number of its data rows, which is
    at least one; the store is the old records (none after a clear)
    followed by one record per row; and every new record has non-negative
    upload, download and total with [total_kb = upload_kb + download_kb],
    a non-empty trimmed username, a non-empty MAC address and a
    non-negative duration. *)
Theorem upload_csv_success_stores_data_model (file : UploadFile.t)
  (contents : string) (clear_existing : option bool) (batch_size : option Z)
  (db : Session) (body : UploadResult.t) :
  fst (upload_csv decode_utf8 read_csv int pd_to_datetime pd_to_numeric file
         contents clear_existing batch_size db)
  = Response body ->
  exists text df records,
    decode_utf8 contents = Some text
    /\ read_csv text = Parsed df
    /\ snd (upload_csv decode_utf8 read_csv int pd_to_datetime pd_to_numeric
              file contents clear_existing batch_size db)
       = (if match clear_existing with Some b => b | None => true end
          then [] else db) ++ records
    /\ UploadResult.records_ingested body = Z.of_nat (List.length records)
    /\ List.length records = List.length (DataFrame.rows df)
    /\ (1 <= List.length records)%nat
    /\ UploadResult.clear_existing body
       = match clear_existing with Some b => b | None => true end
    /\ Forall data_model_record records.
Proof.
  unfold upload_csv.
  set (bs := match batch_size with Some b => b | None => 5000 end).
  set (clear := match clear_existing with Some b => b | None => true end).
  destruct (Z.ltb_spec bs 100); [discriminate|].
  destruct (Z.ltb_spec 50000 bs); [discriminate|].
  cbn [orb].
  destruct (_validate_file_metadata file); try discriminate.
  destruct (_validate_csv_content decode_utf8 read_csv int pd_to_datetime
              pd_to_numeric contents) as [dfv|c d|ps|e] eqn:Hv;
    try discriminate.
  destruct (validated_table_transforms _ _ Hv)
    as (text & df & records & Edec & Eread & Hcols & Hrows & Ht & Hdm).
  rewrite Edec, Eread.
  pose proof Ht as Ht'. rewrite <- strip_columns_idempotent in Ht'.
  rewrite (ingest_data_inserts int pd_to_datetime pd_to_numeric df db bs
             clear records Hcols Hrows Ht' ltac:(lia)).
  cbn [fst snd]. intros E. injection E as <-.
  exists text, df, records.
  cbn [UploadResult.records_ingested UploadResult.clear_existing].
  destruct (transform_spec _ _ _ _ _ Ht) as (L & _).
  cbn [strip_columns DataFrame.rows] in L.
  repeat split; try assumption; try reflexivity.
  rewrite L. destruct (DataFrame.rows df); [congruence|cbn [List.length]; lia].
Qed.

(** X22. A refused upload changes nothing: whenever the upload endpoint
    answers 422, or with an HTTP error of a status other than 500, the
    store is exactly as before, also with [clear_existing = True].  The
    validations and every [ValueError] of the ingestion come before the
    delete. *)
Theorem upload_csv_refusal_keeps_store (file : UploadFile.t)
  (contents : string) (clear_existing : option bool) (batch_size : option Z)
  (db : Session) :
  (forall status_code detail,
      fst (upload_csv decode_utf8 read_csv int pd_to_datetime pd_to_numeric
             file contents clear_existing batch_size db)
      = HTTPException status_code detail ->
      status_code <> 500 ->
      snd (upload_csv decode_utf8 read_csv int pd_to_datetime pd_to_numeric
             file contents clear_existing batch_size db) = db)
  /\ (forall params,
        fst (upload_csv decode_utf8 read_csv int pd_to_datetime pd_to_numeric
               file contents clear_existing batch_size db)
        = Unprocessable params ->
        snd (upload_csv decode_utf8 read_csv int pd_to_datetime pd_to_numeric
               file contents clear_existing batch_size db) = db).
Proof.
  unfold upload_csv.
  set (bs := match batch_size with Some b => b | None => 5000 end).
  set (clear := match clear_existing with Some b => b | None => true end).
  destruct (Z.ltb_spec bs 100); [cbn; split; reflexivity|].
  destruct (Z.ltb_spec 50000 bs); [cbn; split; reflexivity|].
  cbn [orb].
  destruct (_validate_file_metadata file); try (cbn; split; reflexivity).
  destruct (_validate_csv_content decode_utf8 read_csv int pd_to_datetime
              pd_to_numeric contents);
    try (cbn; split; reflexivity).
  destruct (decode_utf8 contents) as [text|]; [|cbn; split; reflexivity].
  destruct (read_csv text) as [df| |msg]; try (cbn; split; reflexivity).
  destruct (ingest_data int pd_to_datetime pd_to_numeric df db bs clear)
    as [[count|e] db'] eqn:Ei.
  - cbn [fst snd]. split; discriminate.
  - pose proof (ingest_data_raise_keeps df db bs clear e db' ltac:(lia) Ei)
      as ->.
    destruct e; cbn [fst snd]; split; reflexivity.
Qed.

(** X23. The file check accepts every non-empty file name whose last four
    characters spell [.csv] in any letter case, when the MIME type is
    missing or one of the allowed ones; a name that does not end so is
    refused with status 400. *)
Theorem csv_extension_any_case (stem ext : string)
  (content_type : option string) :
  lower ext = ".csv"%string ->
  (forall ct, content_type = Some ct ->
     ct = EmptyString \/ In ct ALLOWED_MIME_TYPES) ->
  _validate_file_metadata
    {| UploadFile.filename := Some (stem ++ ext)%string;
       UploadFile.content_type := content_type |}
  = Response tt.
Proof.
  intros Hext Hct. unfold _validate_file_metadata.
  cbn [UploadFile.filename UploadFile.content_type].
  assert (Hne : (stem ++ ext)%string <> EmptyString).
  { destruct stem; [|discriminate]. cbn [String.append].
    intros E. rewrite E in Hext. discriminate. }
  destruct (stem ++ ext)%string as [|c s] eqn:Es; [congruence|].
  rewrite <- Es.
  assert (Hend : endswith (lower (stem ++ ext)) ".csv" = true).
  { clear - Hext. induction stem as [|a stem IH].
    - cbn [String.append]. rewrite Hext. reflexivity.
    - cbn [String.append lower endswith]. rewrite IH. apply orb_true_r. }
  cbn [ALLOWED_EXTENSIONS existsb]. rewrite Hend. cbn [orb negb].
  destruct content_type as [ct|]; [|reflexivity].
  destruct (Hct ct eq_refl) as [->|Hin]; [reflexivity|].
  destruct ct; [reflexivity|].
  assert (Hm : mem_string (String a ct) ALLOWED_MIME_TYPES = true).
  { unfold mem_string. apply existsb_exists. exists (String a ct).
    split; [exact Hin|apply String.eqb_refl]. }
  now rewrite Hm.
Qed.

End UploadFacts.

Lemma upload_csv_success_stores_data_model_witness :
  exists records,
    snd (upload_csv Some (fun _ => Parsed timestamp_table) read_decimal
           read_timestamp decimal_volume sample_upload "contents" None None
           sample_records)
    = [] ++ records
    /\ List.length records = 1%nat
    /\ Forall data_model_record records.
Proof.
  destruct (upload_csv_success_stores_data_model Some
              (fun _ => Parsed timestamp_table) read_decimal read_timestamp
              decimal_volume sample_upload "contents" None None
              sample_records
              {| UploadResult.status := "success";
                 UploadResult.records_ingested := 1;
                 UploadResult.clear_existing := true |} eq_refl)
    as (text & df & records & _ & Eread & Es & _ & El & _ & _ & Hdm).
  exists records. split; [exact Es|]. split; [|exact Hdm].
  injection Eread as <-. exact El.
Defined.

Lemma upload_csv_refusal_keeps_store_witness :
  snd (upload_csv Some (fun _ => Parsed bad_timestamp_table) read_decimal
         read_timestamp decimal_volume sample_upload "contents" None None
         sample_records)
  = sample_records.
Proof.
  refine (proj1 (upload_csv_refusal_keeps_store Some
                   (fun _ => Parsed bad_timestamp_table) read_decimal
                   read_timestamp decimal_volume sample_upload "contents"
                   None None sample_records)
            400 (InvalidUpload [2]) _ _).
  - vm_compute. reflexivity.
  - discriminate.
Defined.

Lemma csv_extension_any_case_witness :
  _validate_file_metadata
    {| UploadFile.filename := Some ("Data" ++ ".CSV")%string;
       UploadFile.content_type := Some "text/csv"%string |}
  = Response tt.
Proof.
  apply csv_extension_any_case.
  - reflexivity.
  - intros ct E. injection E as <-. right. cbn. tauto.
Defined.
